(** * benchtoolz: a shallow embedding of the measurement and aggregation engine

    The development follows the two source modules of the package:
    [benchtoolz/printutils.py] (unit scaling, natural sorting, the result
    table and its GFM rendering) and [benchtoolz/benchutils.py] (the
    finders, adaptive timing with [bettertimeit], the matrix loop of
    [runbenchmarks], and the tables of [BenchRunner.to_gfm] and
    [quickstart]).

    Modelling conventions.
    - Python floats (times, scales) are exact rationals [Q]; Python ints are
      [Z] (loop counts) or [nat] (indices, ranks, lengths).
    - A Python [dict] is an insertion-ordered association list whose keys are
      compared with the key type's equality test; assignment to an existing
      key replaces the value in place.
    - [sorted] is a stable insertion sort on the given strict order: a stable
      sort has one possible result, so the algorithm is immaterial.
    - Code that may raise returns [result]; code that calls the timer or a
      user hook runs in a state-and-exception monad over [world], which
      holds the state of the timer, the state of the user's hooks and the
      log of the timer calls made so far.
    - Strings are ASCII, so that [\d] and [int] see the ten digits only.
      [int] reads a digit run of any length ([py_int]); the limit that
      CPython 3.11 puts on the number of digits is in [py_int_max].
    - The file system and the modules that are read ([glob.glob],
      [os.path], [pyclbr], the text of the snippets) are functions of the
      environment, fixed during a call.
    - Not modelled: what [ProgressPrinter] prints to stdout, and the sharing
      of a trial dict between the result list and the hooks that receive it
      (a hook cannot change a trial here).  The report of [quickstart] is
      given by the arguments of its [print] calls. *)

From Stdlib Require Import ZArith QArith List String Ascii Bool Lia.
From Stdlib Require Import Permutation Sorted DecimalString.
Import ListNotations.

Open Scope string_scope.
Open Scope list_scope.

(* ================================================================== *)
(** * Part I: the embedding                                            *)
(* ================================================================== *)

(** ** Python runtime: exceptions, sorting, dictionaries *)

Inductive exn : Set :=
| ValueError | KeyError | IndexError | TypeError | ZeroDivisionError | NameError.

Inductive result (A : Type) : Type :=
| Ok (a : A)
| Raise (e : exn).
Arguments Ok {A} a.
Arguments Raise {A} e.

Definition rbind {A B} (r : result A) (k : A -> result B) : result B :=
  match r with
  | Ok a => k a
  | Raise e => Raise e
  end.

Notation "x <-? c ; k" := (rbind c (fun x => k))
  (at level 61, c at next level, right associativity).

Fixpoint rmap {A B} (f : A -> result B) (l : list A) : result (list B) :=
  match l with
  | [] => Ok []
  | x :: r => y <-? f x ; ys <-? rmap f r ; Ok (y :: ys)
  end.

Section PySorted.
Context {A K : Type}.
Variable lt : K -> K -> bool.
Variable key : A -> K.

(** [x] is put in front of the first element that is not strictly below
    it, so that elements with equal keys keep their order. *)
Fixpoint insert_sorted (x : A) (l : list A) : list A :=
  match l with
  | [] => [x]
  | y :: r => if lt (key y) (key x) then y :: insert_sorted x r else x :: l
  end.

(** [sorted(l, key=key)] *)
Definition sorted (l : list A) : list A := fold_right insert_sorted [] l.
End PySorted.

Section PyDict.
Context {K V : Type}.
Variable eqb : K -> K -> bool.

Definition dict : Type := list (K * V).

(** [d[k]] (as an option), [d.get(k)] *)
Fixpoint dict_get (k : K) (d : dict) : option V :=
  match d with
  | [] => None
  | (k', v) :: r => if eqb k' k then Some v else dict_get k r
  end.

(** [d[k] = v] *)
Fixpoint dict_set (k : K) (v : V) (d : dict) : dict :=
  match d with
  | [] => [(k, v)]
  | (k', v') :: r => if eqb k' k then (k', v) :: r else (k', v') :: dict_set k v r
  end.

(** [dict(pairs)]: a later pair with the same key wins. *)
Definition dict_of (pairs : list (K * V)) : dict :=
  fold_left (fun d kv => dict_set (fst kv) (snd kv) d) pairs [].

Definition dict_values (d : dict) : list V := map snd d.
Definition dict_keys (d : dict) : list K := map fst d.
End PyDict.

(** [enumerate(l)] from [start] *)
Fixpoint enumerate_from {A} (start : nat) (l : list A) : list (nat * A) :=
  match l with
  | [] => []
  | x :: r => (start, x) :: enumerate_from (S start) r
  end.

(** [l[i] = v] on a list: [IndexError] out of range. *)
Fixpoint list_set {A} (l : list A) (i : nat) (v : A) : result (list A) :=
  match l, i with
  | [], _ => Raise IndexError
  | _ :: r, O => Ok (v :: r)
  | x :: r, S j => r' <-? list_set r j v ; Ok (x :: r')
  end.

Definition list_get {A} (l : list A) (i : nat) : result A :=
  match nth_error l i with
  | Some x => Ok x
  | None => Raise IndexError
  end.

(** Float comparisons, on rationals. *)
Definition Qltb (a b : Q) : bool := negb (Qle_bool b a).
Definition Qgtb (a b : Q) : bool := Qltb b a.

(** ** printutils.py: [best_units] *)

Definition ten (k : nat) : positive := Pos.pow 10 (Pos.of_nat k).

(** The literal [1eK] and [1e-K]. *)
Definition e_pos (k : nat) : Q := Zpos (ten k) # 1.
Definition e_neg (k : nat) : Q := 1 # ten k.

Definition best_units (num : Q) : Q * string :=
  if Qltb num (e_neg 12) then (e_pos 15, "f")
  else if Qltb num (e_neg 9) then (e_pos 12, "p")
  else if Qltb num (e_neg 6) then (e_pos 9, "n")
  else if Qltb num (e_neg 3) then (e_pos 6, "u")
  else if Qltb num 1 then (e_pos 3, "m")
  else if Qltb num (e_pos 3) then (1, "")
  else if Qltb num (e_pos 6) then (e_neg 3, "k")
  else if Qltb num (e_pos 9) then (e_neg 6, "M")
  else if Qltb num (e_pos 12) then (e_neg 9, "G")
  else (e_neg 12, "T").

(** ** printutils.py: [numericstringkey] and [nsorted] *)

Definition is_digit (c : ascii) : bool :=
  let n := nat_of_ascii c in (48 <=? n)%nat && (n <=? 57)%nat.

Definition digit_value (c : ascii) : N := N.of_nat (nat_of_ascii c - 48).

(** [re.split(r'(\d+)', s)]: text pieces and the digit runs between them,
    alternating and starting and ending with a (possibly empty) text piece.
    [cur] is the piece being read and [indig] tells whether it is a digit
    run. *)
Fixpoint re_split_digits (s cur : string) (indig : bool) : list string :=
  match s with
  | EmptyString => if indig then [cur; ""] else [cur]
  | String c r =>
      if is_digit c then
        if indig then re_split_digits r (cur ++ String c "") true
        else cur :: re_split_digits r (String c "") true
      else
        if indig then cur :: re_split_digits r (String c "") false
        else re_split_digits r (cur ++ String c "") false
  end.

Definition all_digits (s : string) : bool :=
  forallb is_digit (list_ascii_of_string s).

Definition no_digit (s : string) : bool :=
  forallb (fun c => negb (is_digit c)) (list_ascii_of_string s).

(** A digit run read in base ten. *)
Definition decimal_value (s : string) : N :=
  fold_left (fun acc c => (10 * acc + digit_value c)%N)
            (list_ascii_of_string s) 0%N.

(** [int(item)] on the pieces that [re.split] produces: a non-empty digit
    run is read in base ten, anything else is a [ValueError].  This is
    [int] without a limit on the number of digits: Python 2, CPython before
    3.11, and later ones after [sys.set_int_max_str_digits(0)];
    [py_int_max] below is [int] with the limit. *)
Definition py_int (item : string) : result N :=
  match item with
  | EmptyString => Raise ValueError
  | _ =>
      if all_digits item then Ok (decimal_value item) else Raise ValueError
  end.

Inductive keyitem : Set :=
| KInt (n : N)
| KStr (s : string).

(** The string branch of [numericstringkey]. *)
Definition numericstringkey (sval : string) : list keyitem :=
  map (fun item =>
         match py_int item with
         | Ok n => KInt n
         | Raise _ => KStr item
         end)
      (re_split_digits sval "" false).

(** The tuple/list branch of [numericstringkey], for a sequence of
    strings. *)
Definition numericstringkey_seq (sval : list string) : list (list keyitem) :=
  map numericstringkey sval.

(** [int(item)] on CPython 3.11 and later, where reading more than
    [sys.get_int_max_str_digits()] digits is a [ValueError]: the limit is
    4300 unless it was set (to 640 at least), and 0 stands for no limit.
    The pieces of [re.split] that are not digit runs are a [ValueError] in
    any case. *)
Definition py_int_max (max_str_digits : nat) (item : string) : result N :=
  if (0 <? max_str_digits)%nat && (max_str_digits <? String.length item)%nat
  then Raise ValueError
  else py_int item.

(** [numericstringkey] under that limit: a digit run that [int] refuses
    stays in the key as a str ([except ValueError: key.append(item)]). *)
Definition numericstringkey_max (max_str_digits : nat) (sval : string)
  : list keyitem :=
  map (fun item =>
         match py_int_max max_str_digits item with
         | Ok n => KInt n
         | Raise _ => KStr item
         end)
      (re_split_digits sval "" false).

Definition keyitem_eqb (a b : keyitem) : bool :=
  match a, b with
  | KInt n, KInt m => N.eqb n m
  | KStr s, KStr t => String.eqb s t
  | _, _ => false
  end.

(** [a < b] on the members of a key.  Members at the same position of two
    keys have the same type when [int] reads every digit run (lemma
    [numericstringkey_shape]); for the record, an int against a str is
    ordered as Python 2 does, where Python 3 raises [TypeError]. *)
Definition keyitem_ltb (a b : keyitem) : bool :=
  match a, b with
  | KInt n, KInt m => N.ltb n m
  | KStr s, KStr t => String.ltb s t
  | KInt _, KStr _ => true
  | KStr _, KInt _ => false
  end.

(** [a < b] on tuples: decided at the first position where they differ; a
    proper prefix is smaller. *)
Section Lex.
Context {A : Type}.
Variables (eqb ltb : A -> A -> bool).
Fixpoint lex_ltb (a b : list A) : bool :=
  match a, b with
  | [], [] => false
  | [], _ :: _ => true
  | _ :: _, [] => false
  | x :: a', y :: b' => if eqb x y then lex_ltb a' b' else ltb x y
  end.
Fixpoint lex_eqb (a b : list A) : bool :=
  match a, b with
  | [], [] => true
  | x :: a', y :: b' => eqb x y && lex_eqb a' b'
  | _, _ => false
  end.
End Lex.

(** The same comparison as Python 3 performs it: an int against a str is
    a [TypeError]. *)
Definition keyitem_lt3 (a b : keyitem) : result bool :=
  match a, b with
  | KInt n, KInt m => Ok (N.ltb n m)
  | KStr s, KStr t => Ok (String.ltb s t)
  | _, _ => Raise TypeError
  end.

Fixpoint key_lt3 (a b : list keyitem) : result bool :=
  match a, b with
  | [], [] => Ok false
  | [], _ :: _ => Ok true
  | _ :: _, [] => Ok false
  | x :: a', y :: b' => if keyitem_eqb x y then key_lt3 a' b' else keyitem_lt3 x y
  end.

(** Pieces of a split: digit runs and digit-free texts in turn. *)
Fixpoint alternating (digits_first : bool) (pieces : list string) : Prop :=
  match pieces with
  | [] => True
  | x :: r =>
      (if digits_first then x <> "" /\ all_digits x = true
       else no_digit x = true)
      /\ alternating (negb digits_first) r
  end.

(** Members of a key: ints and strs in turn. *)
Fixpoint key_shape (int_first : bool) (k : list keyitem) : Prop :=
  match k with
  | [] => True
  | x :: r =>
      (if int_first then exists n, x = KInt n else exists s, x = KStr s)
      /\ key_shape (negb int_first) r
  end.

Definition key_ltb : list keyitem -> list keyitem -> bool :=
  lex_ltb keyitem_eqb keyitem_ltb.
Definition key_eqb : list keyitem -> list keyitem -> bool :=
  lex_eqb keyitem_eqb.
Definition keyseq_ltb : list (list keyitem) -> list (list keyitem) -> bool :=
  lex_ltb key_eqb key_ltb.

(** [nsorted = functools.partial(sorted, key=numericstringkey)], on a list
    of strings and on a list of tuples of strings. *)
Definition nsorted (l : list string) : list string :=
  sorted key_ltb numericstringkey l.

Definition nsorted_by {A} (fields : A -> list string) (l : list A) : list A :=
  sorted keyseq_ltb (fun x => numericstringkey_seq (fields x)) l.

(** ** The trial dictionary of [runbenchmarks]

    [loops], [mintime] and [times] are [None] until the trial is measured. *)
Module Trial.
Record t : Type := mk {
  arenafile : string;
  arenaindex : nat;
  arenaname : string;
  arenaprefix : string;
  arenasuffix : string;
  benchfile : string;
  benchindex : nat;
  benchname : string;
  benchstring : string;
  loops : option Z;
  mintime : option Q;
  setupstring : string;
  times : option (list Q)
}.

(** [trial.update(loops=..., mintime=..., times=...)] *)
Definition update (tr : t) (l : Z) (m : Q) (ts : list Q) : t :=
  mk (arenafile tr) (arenaindex tr) (arenaname tr) (arenaprefix tr)
     (arenasuffix tr) (benchfile tr) (benchindex tr) (benchname tr)
     (benchstring tr) (Some l) (Some m) (setupstring tr) (Some ts).

(** The trial as it was before measurement. *)
Definition pending (tr : t) : t :=
  mk (arenafile tr) (arenaindex tr) (arenaname tr) (arenaprefix tr)
       (arenasuffix tr) (benchfile tr) (benchindex tr) (benchname tr)
       (benchstring tr) None None (setupstring tr) None.
End Trial.

(** ** printutils.py: the table elements of [BenchPrinter] *)
Module Datum.
(** The element as first built in [_build_table], before the row is
    analysed. *)
Record raw : Type := mkraw {
  raw_arenaindex : nat;
  raw_arenaname : string;
  raw_arenashort : string;
  raw_benchindex : nat;
  raw_benchname : string;
  raw_benchshort : string;
  raw_loops : option Z;
  raw_seconds : option Q;
  raw_trialdata : Trial.t
}.

Record t : Type := mk {
  arenaindex : nat;
  arenaname : string;
  arenashort : string;
  benchindex : nat;
  benchname : string;
  benchshort : string;
  loops : option Z;
  seconds : Q;
  trialdata : Trial.t;
  isbest : bool;
  rank : nat;
  reltime : Q;
  scale : Q;
  time : Q;
  units : string;
  sreltime : string;
  stime : string
}.
End Datum.

Definition table : Type := list (list Datum.t).

(** The [arenaprefixes] / [benchprefixes] argument: [None], one prefix, or
    a list of prefixes. *)
Inductive prefix_arg : Type :=
| PrefixNone
| PrefixOne (p : string)
| PrefixList (ps : list string).

(** [sval[n:]] *)
Fixpoint string_drop (n : nat) (s : string) : string :=
  match n, s with
  | O, _ => s
  | S k, EmptyString => EmptyString
  | S k, String _ r => string_drop k r
  end.

(** [BenchPrinter._strip_prefix]: prefixes are tried from longest to
    shortest ([sorted(prefix, key=len, reverse=True)], which keeps prefixes
    of equal length in their order). *)
Definition _strip_prefix (sval : string) (prefix : prefix_arg) : string :=
  match prefix with
  | PrefixNone => sval
  | _ =>
      let prefix := match prefix with
                    | PrefixList ps => ps
                    | PrefixOne p => [p]
                    | PrefixNone => []
                    end in
      match find (fun pre => String.prefix pre sval)
                 (sorted (fun a b => Nat.ltb b a) String.length prefix) with
      | Some pre => string_drop (String.length pre) sval
      | None => sval
      end
  end.

Definition pair_eqb (a b : string * string) : bool :=
  String.eqb (fst a) (fst b) && String.eqb (snd a) (snd b).

Section BenchPrinter.
(** ['%.3g' % x], the float formatting built into Python. *)
Variable fmt_3g : Q -> string.
(** [os.linesep] *)
Variable linesep : string.

Variables arenaprefixes benchprefixes : prefix_arg.

(** First loop of [_build_table]: one element per trial, stored under
    its row and column index; a later trial of the same cell replaces an
    earlier one. *)
Definition make_raw (trial : Trial.t) : Datum.raw :=
  Datum.mkraw (Trial.arenaindex trial) (Trial.arenaname trial)
    (_strip_prefix (Trial.arenaname trial) arenaprefixes)
    (Trial.benchindex trial) (Trial.benchname trial)
    (_strip_prefix (Trial.benchname trial) benchprefixes)
    (Trial.loops trial) (Trial.mintime trial) trial.

Definition add_trial (bybench : dict (K:=nat) (V:=dict (K:=nat) (V:=Datum.raw)))
           (trial : Trial.t) :=
  let benchindex := Trial.benchindex trial in
  let row := match dict_get Nat.eqb benchindex bybench with
             | Some row => row
             | None => []
             end in
  dict_set Nat.eqb benchindex
           (dict_set Nat.eqb (Trial.arenaindex trial) (make_raw trial) row)
           bybench.

Definition group_trials (trials : list Trial.t) :=
  fold_left add_trial trials [].

(** [datum['seconds']] as a float: comparing or dividing [None] is a
    [TypeError]. *)
Definition raw_time (d : Datum.raw) : result Q :=
  match Datum.raw_seconds d with
  | Some s => Ok s
  | None => Raise TypeError
  end.

(** [dict(zip(sortedvals, range(1, len(sortedvals) + 1)))] *)
Definition rank_dict (sortedvals : list Q) : dict (K:=Q) (V:=nat) :=
  dict_of Qeq_bool (combine sortedvals (seq 1 (List.length sortedvals))).

(** [seconds / minval] on floats *)
Definition float_div (a b : Q) : result Q :=
  if Qeq_bool b 0 then Raise ZeroDivisionError else Ok (a / b)%Q.

Definition finish_datum (minval : Q) (ranks : dict (K:=Q) (V:=nat))
           (scale : Q) (units : string) (d : Datum.raw) : result Datum.t :=
  seconds <-? raw_time d ;
  rank <-? match dict_get Qeq_bool seconds ranks with
           | Some r => Ok r
           | None => Raise KeyError
           end ;
  reltime <-? float_div seconds minval ;
  let time := (seconds * scale)%Q in
  Ok (Datum.mk (Datum.raw_arenaindex d) (Datum.raw_arenaname d)
        (Datum.raw_arenashort d) (Datum.raw_benchindex d)
        (Datum.raw_benchname d) (Datum.raw_benchshort d)
        (Datum.raw_loops d) seconds (Datum.raw_trialdata d)
        (Qeq_bool seconds minval) rank reltime scale time units
        (fmt_3g reltime) (fmt_3g time)).

(** Body of the second loop of [_build_table], for one row. *)
Definition finish_row (arenadict : dict (K:=nat) (V:=Datum.raw))
  : result (dict (K:=nat) (V:=Datum.t)) :=
  secs <-? rmap raw_time (dict_values arenadict) ;
  let sortedvals := sorted Qltb (fun x => x) secs in
  minval <-? list_get sortedvals 0 ;
  maxval <-? list_get sortedvals (List.length sortedvals - 1) ;
  let ranks := rank_dict sortedvals in
  let (scale, units) := best_units maxval in
  let units := (units ++ "s")%string in
  rmap (fun kv => d <-? finish_datum minval ranks scale units (snd kv) ;
                  Ok (fst kv, d))
       arenadict.

Definition _build_table (trials : list Trial.t) : result table :=
  bybench <-? rmap (fun kv => row <-? finish_row (snd kv) ; Ok (fst kv, row))
                   (group_trials trials) ;
  Ok (map (fun kv => map snd (sorted Nat.ltb fst (snd kv)))
          (sorted Nat.ltb fst bybench)).

(** [BenchPrinter.__init__]: trials grouped by (benchfile, arenafile),
    one table per group. *)
Definition group_results (results : list Trial.t)
  : dict (K:=string * string) (V:=list Trial.t) :=
  fold_left (fun resultdict trial =>
               let key := (Trial.benchfile trial, Trial.arenafile trial) in
               let sofar := match dict_get pair_eqb key resultdict with
                            | Some l => l
                            | None => []
                            end in
               dict_set pair_eqb key (sofar ++ [trial]) resultdict)
            results [].

Definition BenchPrinter_tables (results : list Trial.t)
  : result (dict (K:=string * string) (V:=table)) :=
  rmap (fun kv => t <-? _build_table (snd kv) ; Ok (fst kv, t))
       (group_results results).

(** *** [BenchPrinter.to_gfm] *)
Local Open Scope string_scope.

(** [s * n] *)
Fixpoint str_times (s : string) (n : nat) : string :=
  match n with
  | O => ""
  | S k => s ++ str_times s k
  end.

(** [sval.center(width)], as CPython pads: the extra space of an odd
    margin goes to the left when the width is odd. *)
Definition center (sval : string) (width : nat) : string :=
  let len := String.length sval in
  if (width <=? len)%nat then sval
  else
    let marg := (width - len)%nat in
    let left := (marg / 2 + (if Nat.odd marg && Nat.odd width then 1 else 0))%nat in
    str_times " " left ++ sval ++ str_times " " (marg - left).

(** [str(n)] *)
Definition str_of_nat (n : nat) : string :=
  NilEmpty.string_of_uint (Nat.to_uint n).

Fixpoint rfold {A B} (f : A -> B -> result A) (l : list B) (a : A) : result A :=
  match l with
  | [] => Ok a
  | x :: r => a' <-? f a x ; rfold f r a'
  end.

(** The text of one cell, with the best in bold and the second best in
    italics. *)
Definition cell_text (relative rank : bool) (rowlen : nat) (datum : Datum.t)
  : string :=
  let val := if relative then Datum.sreltime datum
             else if rank then str_of_nat (Datum.rank datum)
             else Datum.stime datum in
  if (Datum.rank datum =? 1)%nat then " __" ++ val ++ "__ "
  else if (Datum.rank datum =? 2)%nat && (2 <? rowlen)%nat then " *" ++ val ++ "* "
  else " " ++ val ++ " ".

Definition row_text (relative rank : bool) (row : list Datum.t)
  : result (list string) :=
  datum <-? list_get row 0 ;
  let sval := if relative || rank
              then " __" ++ Datum.benchshort datum ++ "__ "
              else " __" ++ Datum.benchshort datum ++ "__ (`"
                   ++ Datum.units datum ++ "`) " in
  Ok (sval :: map (cell_text relative rank (List.length row)) row).

(** [maxwidths[i] = max(maxwidths[i], len(sval))] *)
Definition widen (maxwidths : list nat) (isval : nat * string)
  : result (list nat) :=
  w <-? list_get maxwidths (fst isval) ;
  list_set maxwidths (fst isval) (Nat.max w (String.length (snd isval))).

Definition max_widths (data : list (list string)) (init : list nat)
  : result (list nat) :=
  rfold (fun maxwidths row => rfold widen (enumerate_from 0 row) maxwidths)
        data init.

Definition justify (maxwidths : list nat) (isval : nat * string)
  : result string :=
  w <-? list_get maxwidths (fst isval) ;
  Ok (match fst isval with
      | O => str_times " " (w - String.length (snd isval)) ++ snd isval
      | S _ => center (snd isval) w
      end).

Definition to_gfm (table : table) (relative rank : bool) : result string :=
  if relative && rank then Raise ValueError
  else
    first_row <-? list_get table 0 ;
    let column_names :=
      "__Bench__ \ __Func__ "
      :: map (fun datum => " __" ++ Datum.arenashort datum ++ "__ ") first_row in
    rows <-? rmap (row_text relative rank) table ;
    let data := column_names :: rows in
    (* get max widths *)
    maxwidths <-? max_widths data (repeat 0%nat (List.length column_names)) ;
    (* center and justify text *)
    data <-? rmap (fun row => rmap (justify maxwidths) (enumerate_from 0 row))
                  data ;
    (* add bar below header *)
    let headerbar :=
      map (fun length => ":" ++ str_times "-" (length - 2) ++ ":") maxwidths in
    headerbar <-? match headerbar with
                  | h :: r => Ok ((" " ++ string_drop 1 h) :: r)
                  | [] => Raise IndexError
                  end ;
    let data := match data with
                | header :: rest => header :: headerbar :: rest
                | [] => [headerbar]
                end in
    Ok (String.concat linesep
          (map (fun row => "|" ++ String.concat "|" row ++ "|") data)).
End BenchPrinter.

(** ** benchutils.py: the tables of [BenchRunner.to_gfm] and [quickstart] *)

(** [a < b] on the keys [(benchfile, arenafile)] of [printer.tables]:
    tuples are compared at the first member where they differ.  The keys
    of a dict are distinct, so that [sorted(printer.tables.items())] never
    has to compare two tables. *)
Definition pair_ltb (a b : string * string) : bool :=
  if String.eqb (fst a) (fst b) then String.ltb (snd a) (snd b)
  else String.ltb (fst a) (fst b).

Section BenchRunner.
Variable fmt_3g : Q -> string.
Variable linesep : string.
(** [name], and the lists [arenaprefixes] and [benchprefixes] of the runner
    (of the keyword arguments, for [quickstart]). *)
Variable name : string.
Variables arenaprefixes benchprefixes : list string.

(** [BenchPrinter(results, arenaprefixes=[prefix + name ...],
    benchprefixes=benchprefixes).tables] *)
Definition printer_tables (results : list Trial.t)
  : result (dict (K:=string * string) (V:=table)) :=
  let arenaprefixes := map (fun prefix => (prefix ++ name)%string) arenaprefixes in
  BenchPrinter_tables fmt_3g (PrefixList arenaprefixes) (PrefixList benchprefixes)
                      results.

(** [BenchRunner.to_gfm] *)
Definition BenchRunner_to_gfm (results : list Trial.t) (relative rank : bool)
  : result (list (string * string * string)) :=
  tables <-? printer_tables results ;
  rmap (fun kv =>
          match kv with
          | ((benchfile, arenafile), table) =>
              val <-? to_gfm linesep table relative rank ;
              Ok (arenafile, benchfile, val)
          end)
       (sorted pair_ltb fst tables).

(** What [quickstart] prints for one table: the argument of each [print],
    the empty string for [print()]. *)
Definition report_block (arenafile benchfile times reltimes rank : string)
  : list string :=
  [""; "**Benchmarks:** " ++ benchfile; "**Functions:** " ++ arenafile; "";
   "**Time:**"; ""; times; "";
   "**Relative time:**"; ""; reltimes; "";
   "**Rank:**"; ""; rank]%string.

(** The end of [quickstart] for [verbose]: the tables of the results are
    rendered in the three views, then printed.  The second loop unpacks
    the rank view into [ranks] and prints the variable [rank], which the
    first loop left bound to the rank view of its last round. *)
Definition quickstart_report (results : list Trial.t) : result (list string) :=
  tables <-? printer_tables results ;
  resultlist <-? rmap (fun kv =>
                         match kv with
                         | ((benchfile, arenafile), table) =>
                             times <-? to_gfm linesep table false false ;
                             reltimes <-? to_gfm linesep table true false ;
                             rank <-? to_gfm linesep table false true ;
                             Ok (arenafile, benchfile, times, reltimes, rank)
                         end)
                      (sorted pair_ltb fst tables) ;
  let rank := match rev resultlist with
              | [] => None
              | (_, _, _, _, rank) :: _ => Some rank
              end in
  blocks <-? rmap (fun item =>
                     match item with
                     | (arenafile, benchfile, times, reltimes, ranks) =>
                         rank <-? match rank with
                                  | Some r => Ok r
                                  | None => Raise NameError
                                  end ;
                         Ok (report_block arenafile benchfile times reltimes rank)
                     end)
                  resultlist ;
  Ok (List.concat blocks).
End BenchRunner.

(** ** benchutils.py *)

Definition default_dirs : list string := ["*arena*"; "*benchmark*"; "*benchit*"].
Definition default_arenaprefixes : list string := [""; "trial_"; "arena_"].
Definition default_benchprefixes : list string :=
  ["benchit_"; "bench_"; "timeit_"; "time_"].

(** [s.endswith(suffix)] *)
Definition endswith (s suffix : string) : bool :=
  let n := String.length s in
  let m := String.length suffix in
  (m <=? n)%nat && String.eqb (string_drop (n - m) s) suffix.

Section Finders.
(** The file system, as the finders see it: [os.path.join] of three
    parts, the directory of the main script ([getsourcedir()]),
    [glob.glob] and [scanfuncs], which reads the names of the functions of
    a file. *)
Variable os_path_join : string -> string -> string -> string.
Variable getsourcedir : string.
Variable glob : string -> list string.
Variable scanfuncs : string -> list string -> bool -> list string.

Definition getpaths (name : string) (sourcedir : option string)
           (dirs prefixes : option (list string)) : list string :=
  let prefixes := match prefixes with
                  | None => (default_arenaprefixes ++ default_benchprefixes)%list
                  | Some prefixes => prefixes
                  end in
  let sourcedir := match sourcedir with
                   | None => getsourcedir
                   | Some sourcedir => sourcedir
                   end in
  let dirs := match dirs with
              | None => default_dirs
              | Some dirs => dirs
              end in
  flat_map (fun dirname =>
              map (fun prefix =>
                     os_path_join sourcedir dirname (prefix ++ name)%string)
                  prefixes)
           dirs.

(** The first loop of [findarenas] and [findbenchmarks]: every pattern,
    with the suffix added where it is missing, is globbed. *)
Definition glob_paths (suffix : string) (paths : list string) : list string :=
  flat_map (fun pattern =>
              glob (if endswith pattern suffix then pattern
                    else (pattern ++ suffix)%string))
           paths.

Definition findarenas (name : string) (cython : bool) (prefixes : list string)
           (paths : option (list string)) : dict (K:=string) (V:=list string) :=
  let paths := match paths with
               | None => getpaths name None None (Some prefixes)
               | Some paths => paths
               end in
  let suffix := if cython then ".pyx" else ".py" in
  let filenames := glob_paths suffix paths in
  fold_left (fun arenadict filename =>
               let funcprefixes :=
                 map (fun prefix => (prefix ++ name)%string) prefixes in
               let funcs := scanfuncs filename funcprefixes cython in
               match funcs with
               | [] => arenadict
               | _ :: _ => dict_set String.eqb filename funcs arenadict
               end)
            filenames [].

Definition findbenchmarks (name : string) (prefixes : list string)
           (paths : option (list string)) : dict (K:=string) (V:=list string) :=
  let paths := match paths with
               | None => getpaths name None None (Some prefixes)
               | Some paths => paths
               end in
  let suffix := ".py" in
  let filenames := glob_paths suffix paths in
  fold_left (fun benchdict filename =>
               let funcs := scanfuncs filename prefixes false in
               match funcs with
               | [] => benchdict
               | _ :: _ => dict_set String.eqb filename funcs benchdict
               end)
            filenames [].
End Finders.

(** [any(key.startswith(prefix) for prefix in prefixes)] *)
Definition startswith_any (key : string) (prefixes : list string) : bool :=
  existsb (fun prefix => String.prefix prefix key) prefixes.

Section Scan.
(** What [scanfuncs] reads: [os.path.split] and [os.path.splitext];
    [pyclbr.readmodule_ex(name, [path])], given by the names it finds, each
    with the [file] of its descriptor; and the names of [mod.__dict__] of
    the Cython module that is built and loaded from a file. *)
Variable os_path_split : string -> string * string.
Variable os_path_splitext : string -> string * string.
Variable readmodule_ex : string -> list string -> list (string * string).
Variable pyx_module_names : string -> string -> list string.

Definition scanfuncs (filename : string) (prefixes : list string) (cython : bool)
  : list string :=
  let (path, name) := os_path_split filename in
  let (name, ext) := os_path_splitext name in
  let cython := cython || String.eqb ext ".pyx" in
  if negb cython then
    let funcs := readmodule_ex name [path] in
    map fst (filter (fun kv => startswith_any (fst kv) prefixes
                               && String.eqb (snd kv) filename)
                    funcs)
  else
    (* Scan Cython file.  We need to import it. *)
    filter (fun funcname => startswith_any funcname prefixes)
           (pyx_module_names name filename).
End Scan.

(** What a user hook may return.  [runbenchmarks] tests the returned
    object with [is False], an identity test against the [False]
    singleton. *)
#[warnings="-register-all"]
Inductive pyobj : Type :=
| PyNone
| PyBool (b : bool)
| PyInt (z : Z)
| PyFloat (q : Q)
| PyStr (s : string)
| PyList (l : list pyobj).

(** [v is False] *)
Definition is_False (v : pyobj) : bool :=
  match v with
  | PyBool false => true
  | _ => false
  end.

(** [bool(v)], the truth value of an object. *)
Definition truthy (v : pyobj) : bool :=
  match v with
  | PyNone => false
  | PyBool b => b
  | PyInt z => negb (Z.eqb z 0)
  | PyFloat q => negb (Qeq_bool q 0)
  | PyStr s => negb (String.eqb s "")
  | PyList l => match l with [] => false | _ :: _ => true end
  end.

(** One execution of [timeit.Timer(statements, setup).timeit(loops)],
    with the reading it returned. *)
Record timer_call : Type := mkcall {
  call_statements : string;
  call_setup : string;
  call_loops : Z;
  call_reading : Q
}.

(** [min(times)] *)
Definition py_min (times : list Q) : result Q :=
  match times with
  | [] => Raise ValueError
  | x :: r => Ok (fold_left (fun m y => if Qltb y m then y else m) r x)
  end.

(** First occurrence of [sep] in [s]: the text before and after it. *)
Fixpoint partition_at (sep s : string) : option (string * string) :=
  if String.prefix sep s then Some ("", string_drop (String.length sep) s)
  else match s with
       | EmptyString => None
       | String c r =>
           match partition_at sep r with
           | Some (a, b) => Some (String c a, b)
           | None => None
           end
       end.

(** [s.split(sep, 1)] *)
Definition split1 (s sep : string) : result (list string) :=
  if String.eqb sep "" then Raise ValueError
  else match partition_at sep s with
       | Some (a, b) => Ok [a; b]
       | None => Ok [s]
       end.

(** [a, b = l] *)
Definition unpack2 {A} (l : list A) : result (A * A) :=
  match l with
  | [a; b] => Ok (a, b)
  | _ => Raise ValueError
  end.

(** The loop-count ladder of [bettertimeit]: the factor applied to [loops]
    after a probe that did not exceed [mintime]. *)
Definition grow_loops (runtime mintime : Q) (loops : Z) : Z :=
  if Qgtb runtime (mintime / 2) then (loops * 2)%Z
  else if Qgtb runtime (mintime / 4) then (loops * 4)%Z
  else if Qgtb runtime (mintime / 8) then (loops * 8)%Z
  else if Qgtb runtime (mintime / 16) then (loops * 2)%Z
  else if Qgtb runtime (mintime / 32) then (loops * 8)%Z
  else if Qgtb runtime (mintime / 64) then (loops * 8)%Z
  else (loops * 2)%Z.

Section BenchUtils.
(** The timer is a capability of the environment with a state of its
    own (the clock); user hooks have theirs. *)
Variables T U : Type.
Variable timer_timeit : T -> string -> string -> Z -> Q * T.

Record world : Type := mkworld {
  w_timer : T;
  w_user : U;
  w_log : list timer_call
}.

Definition M (A : Type) : Type := world -> result A * world.

Definition ret {A} (a : A) : M A := fun w => (Ok a, w).
Definition bind {A B} (c : M A) (k : A -> M B) : M B :=
  fun w => match c w with
           | (Ok a, w') => k a w'
           | (Raise e, w') => (Raise e, w')
           end.
Definition lift {A} (r : result A) : M A := fun w => (r, w).

Local Notation "x <- c ;; k" := (bind c (fun x => k))
  (at level 61, c at next level, right associativity).
Local Notation "' p <- c ;; k" := (bind c (fun x => match x with p => k end))
  (at level 61, p pattern, c at next level, right associativity).

(** A user hook reads the trial, changes its own state and returns an
    object.  In the source the hook is handed the very dict that is
    appended to the results, and could change it; hooks that modify the
    trial dicts are outside this model. *)
Definition hook : Type := Trial.t -> U -> pyobj * U.

Definition call_hook (h : hook) (trial : Trial.t) : M pyobj :=
  fun w => let (v, u) := h trial (w_user w) in
           (Ok v, mkworld (w_timer w) u (w_log w)).

Section Timer.
(** [timer = timeit.Timer(statements, setup, timer=timer)] *)
Variables statements setup : string.

(** [timer.timeit(loops)] *)
Definition timeit (loops : Z) : M Q :=
  fun w => let (runtime, t) := timer_timeit (w_timer w) statements setup loops in
           (Ok runtime,
            mkworld t (w_user w)
                    (w_log w ++ [mkcall statements setup loops runtime])).

(** [timer.repeat(n, loops)]: [n] readings, none when [n <= 0]. *)
Fixpoint repeat_n (n : nat) (loops : Z) : M (list Q) :=
  match n with
  | O => ret []
  | S k => t <- timeit loops ;; r <- repeat_n k loops ;; ret (t :: r)
  end.
Definition timer_repeat (n : Z) (loops : Z) : M (list Q) :=
  repeat_n (Z.to_nat n) loops.

(** The probing loop [for i in range(32)], with [rounds] rounds left.
    [runtime] is unbound ([None]) before the first round. *)
Fixpoint probe (mintime : Q) (rounds : nat) (loops : Z) (runtime : option Q)
  : M (Z * option Q) :=
  match rounds with
  | O => ret (loops, runtime)
  | S k =>
      runtime <- timeit loops ;;
      if Qgtb runtime mintime then ret (loops, Some runtime)
      else probe mintime k (grow_loops runtime mintime loops) (Some runtime)
  end.

Definition bettertimeit (mintime : Q) (numrepeat : Z) : M (list Q * Z) :=
  ' (loops, runtime) <- probe mintime 32 1%Z None ;;
  results <- timer_repeat (numrepeat - 1) loops ;;
  runtime <- lift (match runtime with
                   | Some r => Ok r
                   | None => Raise NameError
                   end) ;;
  let results := (results ++ [runtime])%list in
  ret (map (fun x => (x / inject_Z loops)%Q) results, loops).
End Timer.

(** *** [runbenchmarks] *)

(** Collaborators that build the snippets: [getarenasetup] and
    [getbenchsetup] format the setup text, [getbenchstrings] imports the
    benchmark file and returns the body of each benchmark.  Each dict is
    given by its items. *)
Variable getarenasetup :
  string -> string -> list string -> bool -> dict (K:=string) (V:=string).
Variable getbenchsetup : string -> string.
Variable getbenchstrings :
  string -> list string -> dict (K:=string) (V:=string).

Definition getarenalist (name : string)
           (arenadict : dict (K:=string) (V:=list string)) (cython : bool)
  : list (string * string * string) :=
  let arenalist :=
    flat_map (fun kv =>
                let arenafile := fst kv in
                let setupdict := getarenasetup name arenafile (snd kv) cython in
                map (fun ns => (arenafile, fst ns, snd ns)) setupdict)
             arenadict in
  (* Sort arena functions by filename and arena function name *)
  nsorted_by (fun a => match a with (f, n, s) => [f; n; s] end) arenalist.

Definition getbenchlist (benchdict : dict (K:=string) (V:=list string))
  : list (string * string * string * string) :=
  let benchlist :=
    flat_map (fun kv =>
                let benchfile := fst kv in
                let benchsetup := getbenchsetup benchfile in
                let stringdict := getbenchstrings benchfile (snd kv) in
                map (fun ns => (benchfile, fst ns, benchsetup, snd ns)) stringdict)
             benchdict in
  (* Sort benchmarks by filename and benchmark function name *)
  nsorted_by (fun b => match b with (f, n, s, b) => [f; n; s; b] end) benchlist.

(** nested dicts of indices [{filename: {funcname: index}}] *)
Definition make_indices (d : dict (K:=string) (V:=list string))
  : dict (K:=string) (V:=dict (K:=string) (V:=nat)) :=
  fold_left (fun indices kv =>
               dict_set String.eqb (fst kv)
                 (dict_of String.eqb
                    (map (fun ix => (snd ix, fst ix))
                         (enumerate_from 0 (nsorted (snd kv)))))
                 indices)
            d [].

(** [indices[filename][funcname]] *)
Definition get_index (indices : dict (K:=string) (V:=dict (K:=string) (V:=nat)))
           (filename funcname : string) : result nat :=
  match dict_get String.eqb filename indices with
  | None => Raise KeyError
  | Some d => match dict_get String.eqb funcname d with
              | None => Raise KeyError
              | Some i => Ok i
              end
  end.

(** [ProgressPrinter.__call__] prints the trial and returns [None]; its
    output is not part of the model. *)
Definition ProgressPrinter : hook := fun _ u => (PyNone, u).

(** How the body of the inner loop ends: the loop goes on ([continue] or
    the end of the body) or the function returns. *)
Inductive flow : Type :=
| Continue (results : list Trial.t)
| Return (results : list Trial.t).

Section Run.
Variable name : string.
Variables arenaindices benchindices :
  dict (K:=string) (V:=dict (K:=string) (V:=nat)).
Variables (mintime : Q) (numrepeat : Z).
Variables trialfilter trialcallback : option hook.

(** The trial dict of one cell, before measurement. *)
Definition make_trial (bench : string * string * string * string)
           (arena : string * string * string) : result Trial.t :=
  match bench, arena with
  | (benchfile, benchname, benchsetup, benchstring),
    (arenafile, arenaname, arenasetup) =>
      let setupstring := (benchsetup ++ arenasetup)%string in
      parts <-? split1 arenaname name ;
      ps <-? unpack2 parts ;
      arenaindex <-? get_index arenaindices arenafile arenaname ;
      benchindex <-? get_index benchindices benchfile benchname ;
      Ok (Trial.mk arenafile arenaindex arenaname (fst ps) (snd ps)
                   benchfile benchindex benchname benchstring
                   None None setupstring None)
  end.

(** [hook is not None and hook(trial) is False] *)
Definition says_False (h : option hook) (trial : Trial.t) : M bool :=
  match h with
  | None => ret false
  | Some f => v <- call_hook f trial ;; ret (is_False v)
  end.

(** The measurement in the body of the inner loop: [bettertimeit], then
    [trial.update(loops=loops, mintime=min(times), times=times)]. *)
Definition measure (trial : Trial.t) : M Trial.t :=
  ' (times, loops) <- bettertimeit (Trial.benchstring trial)
                        (Trial.setupstring trial) mintime numrepeat ;;
  m <- lift (py_min times) ;;
  ret (Trial.update trial loops m times).

(** Body of the inner loop. *)
Definition run_cell (bench : string * string * string * string)
           (arena : string * string * string) (results : list Trial.t)
  : M flow :=
  trial <- lift (make_trial bench arena) ;;
  (* Give the user a chance to skip this benchmark *)
  skip <- says_False trialfilter trial ;;
  if skip then ret (Continue results)
  else
    trial <- measure trial ;;
    let results := (results ++ [trial])%list in
    (* Give the user a chance to do something (such as printing output)
       during the benchmarks.  They can also cancel benchmarking. *)
    stop <- says_False trialcallback trial ;;
    if stop then ret (Return results) else ret (Continue results).

Fixpoint run_arenas (bench : string * string * string * string)
         (arenalist : list (string * string * string))
         (results : list Trial.t) : M flow :=
  match arenalist with
  | [] => ret (Continue results)
  | arena :: rest =>
      f <- run_cell bench arena results ;;
      match f with
      | Continue results => run_arenas bench rest results
      | Return results => ret (Return results)
      end
  end.

Fixpoint run_benches (benchlist : list (string * string * string * string))
         (arenalist : list (string * string * string))
         (results : list Trial.t) : M flow :=
  match benchlist with
  | [] => ret (Continue results)
  | bench :: rest =>
      f <- run_arenas bench arenalist results ;;
      match f with
      | Continue results => run_benches rest arenalist results
      | Return results => ret (Return results)
      end
  end.
End Run.

Definition runbenchmarks (name : string)
           (arenadict benchdict : dict (K:=string) (V:=list string))
           (verbose cython : bool) (mintime : Q) (numrepeat : Z)
           (trialfilter trialcallback : option hook) : M (list Trial.t) :=
  let trialcallback :=
    match trialcallback with
    | None => if verbose then Some ProgressPrinter else None
    | Some cb => Some cb
    end in
  let arenalist := getarenalist name arenadict cython in
  let benchlist := getbenchlist benchdict in
  let arenaindices := make_indices arenadict in
  let benchindices := make_indices benchdict in
  f <- run_benches name arenaindices benchindices mintime numrepeat
                   trialfilter trialcallback benchlist arenalist [] ;;
  match f with
  | Continue results => ret results
  | Return results => ret results
  end.
End BenchUtils.

Section Setups.
(** The setup text that [getarenasetup] formats for one function, and the
    body that [getbenchstrings] reads for one benchmark of a file it
    imports. *)
Variable arena_setup_text : string -> string -> string -> bool -> string.
Variable bench_body_text : string -> string -> string.

Definition getarenasetup (name filename : string) (funcnames : list string)
           (cython : bool) : dict (K:=string) (V:=string) :=
  fold_left (fun setupdict funcname =>
               dict_set String.eqb funcname
                        (arena_setup_text name filename funcname cython) setupdict)
            funcnames [].

Definition getbenchstrings (filename : string) (benchnames : list string)
  : dict (K:=string) (V:=string) :=
  fold_left (fun benchstrings benchname =>
               dict_set String.eqb benchname (bench_body_text filename benchname)
                        benchstrings)
            benchnames [].
End Setups.

Arguments mkworld {T U} _ _ _.
Arguments w_timer {T U} _.
Arguments w_user {T U} _.
Arguments w_log {T U} _.

(** The trial dicts of all the cells, in the order of the two loops. *)
Definition all_trials (name : string)
           (arenaindices benchindices : dict (K:=string) (V:=dict (K:=string) (V:=nat)))
           (benchlist : list (string * string * string * string))
           (arenalist : list (string * string * string))
  : result (list Trial.t) :=
  rmap (fun ba => make_trial name arenaindices benchindices (fst ba) (snd ba))
       (list_prod benchlist arenalist).

(** A filter whose answer depends on the trial only. *)
Definition pure_hook {U} (verdict : Trial.t -> pyobj) : hook U :=
  fun trial u => (verdict trial, u).

(** The cells that such a filter lets pass. *)
Definition kept (verdict : Trial.t -> pyobj) (trial : Trial.t) : bool :=
  negb (is_False (verdict trial)).

(** The world after a hook has run: only the user state has changed. *)
Definition with_user {T U} (w : world T U) (u : U) : world T U :=
  mkworld (w_timer w) u (w_log w).

(** A call of the timer for the given snippets. *)
Definition call_for (statements setup : string) (c : timer_call) : Prop :=
  call_statements c = statements /\ call_setup c = setup.

(** A probe converged when its reading exceeded [mintime]. *)
Definition converged (mintime : Q) (c : timer_call) : bool :=
  Qgtb (call_reading c) mintime.

(* ================================================================== *)
(** * Part II: words of the statements, and scenarios                  *)
(* ================================================================== *)

(** Notions used to state the properties, and concrete inputs on which
    the statements are exercised. *)

(** A timer whose k-th call reports k seconds per loop: the reading grows
    with the loop count, and no two calls report the same time per loop. *)
Definition count_timer (t : nat) (statements setup : string) (loops : Z)
  : Q * nat :=
  ((inject_Z (Z.of_nat (S t)) * inject_Z loops)%Q, S t).

(** A timer that reports [cost] seconds per loop, always. *)
Definition steady_timer (cost : Q) (t : nat) (statements setup : string)
           (loops : Z) : Q * nat :=
  ((cost * inject_Z loops)%Q, S t).

Definition world0 {U} (u : U) : world nat U := mkworld 0%nat u [].

(** Two workloads and three candidates of one arena file, as in the
    example benchmarks of the package. *)
Definition demo_name : string := "zeros".

Definition demo_arenadict : dict (K:=string) (V:=list string) :=
  [("arena_zeros.py", ["zeros_slow"; "zeros_mul"; "zeros_repeat"])].

Definition demo_benchdict : dict (K:=string) (V:=list string) :=
  [("bench_zeros.py", ["bench_n10"; "bench_n2"])].

Definition demo_arenasetup (name filename : string) (funcnames : list string)
           (cython : bool) : dict (K:=string) (V:=string) :=
  map (fun f => (f, ("load " ++ f ++ " from " ++ filename ++ ";")%string))
      funcnames.

Definition demo_benchsetup (filename : string) : string :=
  ("import " ++ filename ++ ";")%string.

Definition demo_benchstrings (filename : string) (benchnames : list string)
  : dict (K:=string) (V:=string) :=
  map (fun b => (b, ("body of " ++ b)%string)) benchnames.

(** A callback that counts the trials it is given and says [False] at
    the [k]-th. *)
Definition stop_after (k : nat) : hook nat :=
  fun _ seen => (PyBool (S seen <? k)%nat, S seen).

(** A filter that says [False] for one candidate. *)
Definition not_arena (arenaname : string) (trial : Trial.t) : pyobj :=
  PyBool (negb (String.eqb (Trial.arenaname trial) arenaname)).
Definition reject_arena (arenaname : string) : hook nat :=
  pure_hook (not_arena arenaname).

(** A hook that always returns the same object. *)
Definition always (v : pyobj) : hook nat := fun _ seen => (v, S seen).

Definition demo_run (trialfilter trialcallback : option (hook nat))
  : result (list Trial.t) * world nat nat :=
  runbenchmarks nat nat (steady_timer (1 # 1000))
                demo_arenasetup demo_benchsetup demo_benchstrings
                demo_name demo_arenadict demo_benchdict false false
                (1 # 4) 3 trialfilter trialcallback (world0 0%nat).

(** The cells of a run, as (benchname, arenaname). *)
Definition cells_of (results : list Trial.t) : list (string * string) :=
  map (fun t => (Trial.benchname t, Trial.arenaname t)) results.

(** The sorted workloads and candidates of the demo. *)
Definition demo_bench (b : string) : string * string * string * string :=
  ("bench_zeros.py", b, "import bench_zeros.py;", ("body of " ++ b)%string).
Definition demo_arena (a : string) : string * string * string :=
  ("arena_zeros.py", a, ("load " ++ a ++ " from arena_zeros.py;")%string).

(** ** Words for the statements about the table *)

(** The value of the last pair whose key equals [x]. *)
Fixpoint lookup_last {V} (x : Q) (pairs : list (Q * V)) : option V :=
  match pairs with
  | [] => None
  | (k, v) :: r =>
      match lookup_last x r with
      | Some v' => Some v'
      | None => if Qeq_bool k x then Some v else None
      end
  end.

(** How many of the times are at most [x]. *)
Definition count_le (x : Q) (l : list Q) : nat :=
  List.length (filter (fun y => Qle_bool y x) l).

(** The analysis of one row, as [_build_table] leaves it: with [minval]
    the least time of the row, each cell is the best iff its time is
    [minval], its relative time is its time over [minval], its rank is
    the number of cells of the row that are not slower, and its time is
    the minimum time of the trial it was built from. *)
Definition row_analysed (row : list Datum.t) : Prop :=
  exists minval : Q,
    (forall d, In d row -> (minval <= Datum.seconds d)%Q) /\
    (exists d, In d row /\ (Datum.seconds d == minval)%Q) /\
    ~ (minval == 0)%Q /\
    forall d, In d row ->
      Datum.isbest d = Qeq_bool (Datum.seconds d) minval /\
      Datum.reltime d = (Datum.seconds d / minval)%Q /\
      Datum.rank d = count_le (Datum.seconds d) (map Datum.seconds row) /\
      Trial.mintime (Datum.trialdata d) = Some (Datum.seconds d).

(** A measured trial of the demo files, with one repetition. *)
Definition measured (benchindex arenaindex : nat) (benchname arenaname : string)
           (seconds : Q) : Trial.t :=
  Trial.mk "arena_zeros.py" arenaindex arenaname "" "" "bench_zeros.py"
           benchindex benchname "body" (Some 1%Z) (Some seconds) "setup"
           (Some [seconds]).

(** One workload, three candidates; the two fastest took the same time. *)
Definition tied_trials : list Trial.t :=
  [measured 0 0 "bench_n2" "zeros_mul" 1;
   measured 0 1 "bench_n2" "zeros_repeat" 1;
   measured 0 2 "bench_n2" "zeros_slow" 2].

(** One workload, two candidates; the timer went backwards during the
    first measurement. *)
Definition negative_trials : list Trial.t :=
  [measured 0 0 "bench_n2" "zeros_mul" (-1);
   measured 0 1 "bench_n2" "zeros_slow" 2].

(** Two workloads, two candidates, all times different. *)
Definition square_trials : list Trial.t :=
  [measured 0 0 "bench_n2" "zeros_mul" (1 # 2);
   measured 0 1 "bench_n2" "zeros_slow" 2;
   measured 1 0 "bench_n10" "zeros_mul" 3;
   measured 1 1 "bench_n10" "zeros_slow" (5 # 2)].

(** A table that [to_gfm] can lay out: it has a first row, which gives the
    header its columns, and no row is empty or longer than the first.  The
    rows of a table built from a full matrix all have the length of the
    first. *)
Definition well_formed (tbl : table) : Prop :=
  match tbl with
  | [] => False
  | first_row :: _ =>
      Forall (fun row => row <> [] /\
                         (List.length row <= List.length first_row)%nat) tbl
  end.

(** The table of [square_trials], with times printed as ["t"]. *)
Definition square_table : table :=
  match _build_table (fun _ => "t") PrefixNone PrefixNone square_trials with
  | Ok tbl => tbl
  | Raise _ => []
  end.

(** ** Words for the statements about orders and runs *)

(** The prefixes of [best_units], from femto to tera. *)
Definition ladder : list string :=
  ["f"; "p"; "n"; "u"; "m"; ""; "k"; "M"; "G"; "T"].

(** A strict total order, with its equality test. *)
Record strict_total {A : Type} (eqb ltb : A -> A -> bool) : Prop := {
  st_eq : forall a b, eqb a b = true <-> a = b;
  st_irrefl : forall a, ltb a a = false;
  st_trans : forall a b c, ltb a b = true -> ltb b c = true -> ltb a c = true;
  st_total : forall a b, ltb a b = true \/ a = b \/ ltb b a = true
}.

(** [a <= b], as the negation of [b < a]. *)
Definition not_after {K} (ltb : K -> K -> bool) (a b : K) : Prop :=
  ltb b a = false.

(** [a] is not after [b] in the order of the keys. *)
Definition key_le {A K} (lt : K -> K -> bool) (key : A -> K) (a b : A) : Prop :=
  not_after lt (key a) (key b).

(** What a filtered run over the cells [trials0] does, from the results
    [results] in the world [w]: the loop ends normally; the new results
    are the measured trials of the cells that were kept, in order; every
    new call of the timer is for a cell that was kept, and every such cell
    was timed. *)
Definition filtered_run {T U} (verdict : Trial.t -> pyobj)
           (trials0 results : list Trial.t) (w : world T U)
           (out : result flow * world T U) : Prop :=
  exists new calls w',
    out = (Ok (Continue (results ++ new)), w') /\
    w_log w' = w_log w ++ calls /\
    map Trial.pending new = filter (kept verdict) trials0 /\
    Forall (fun c => exists t0, In t0 trials0 /\ kept verdict t0 = true /\
                     call_for (Trial.benchstring t0) (Trial.setupstring t0) c)
           calls /\
    (forall t0, In t0 trials0 -> kept verdict t0 = true ->
                exists c, In c calls /\
                          call_for (Trial.benchstring t0) (Trial.setupstring t0) c).

(** The rest of a loop after its first part: it runs when the first part
    neither returned nor raised. *)
Definition and_then {T U} (out1 : result flow * world T U)
           (k : list Trial.t -> world T U -> result flow * world T U)
  : result flow * world T U :=
  match out1 with
  | (Ok (Continue r), w1) => k r w1
  | (Ok (Return r), w1) => (Ok (Return r), w1)
  | (Raise e, w1) => (Raise e, w1)
  end.

(** The units of one row, as [_build_table] chooses them: [maxval] is the
    greatest time of the row, and every cell is scaled by what
    [best_units] answers for [maxval]. *)
Definition row_scaled (row : list Datum.t) : Prop :=
  exists maxval : Q,
    (exists d, In d row /\ Datum.seconds d = maxval) /\
    forall d, In d row ->
      (Datum.seconds d <= maxval)%Q /\
      Datum.scale d = fst (best_units maxval) /\
      Datum.units d = (snd (best_units maxval) ++ "s")%string /\
      Datum.time d = (Datum.seconds d * Datum.scale d)%Q.

(** ** Words for the statements about the rest of the package *)

(** The prefixes that [_strip_prefix] tries. *)
Definition prefix_list (prefix : prefix_arg) : list string :=
  match prefix with
  | PrefixNone => []
  | PrefixOne p => [p]
  | PrefixList ps => ps
  end.

(** The value of the last pair whose key is [x], for any key type. *)
Fixpoint assoc_last {K V} (eqb : K -> K -> bool) (x : K) (pairs : list (K * V))
  : option V :=
  match pairs with
  | [] => None
  | (k, v) :: r =>
      match assoc_last eqb x r with
      | Some v' => Some v'
      | None => if eqb k x then Some v else None
      end
  end.

(** One candidate of the demo has a name without the base name. *)
Definition odd_arenadict : dict (K:=string) (V:=list string) :=
  [("arena_zeros.py", ["zzz"; "zeros_mul"])].

Definition odd_run : result (list Trial.t) * world nat nat :=
  runbenchmarks nat nat (steady_timer (1 # 1000))
                demo_arenasetup demo_benchsetup demo_benchstrings
                demo_name odd_arenadict demo_benchdict false false
                (1 # 4) 3 None None (world0 0%nat).

(** A file that one of the patterns globs, with the suffix added to the
    pattern where it is missing. *)
Definition found_by (glob : string -> list string) (suffix : string)
           (patterns : list string) (filename : string) : Prop :=
  exists pattern,
    In pattern patterns /\
    In filename (glob (if endswith pattern suffix then pattern
                       else (pattern ++ suffix)%string)).

(** The trials of the pair [key] of a benchmark file and an arena file. *)
Definition in_group (key : string * string) (trial : Trial.t) : bool :=
  pair_eqb (Trial.benchfile trial, Trial.arenafile trial) key.

(** The last of the trials with the row index [bi] and the column index
    [ai]. *)
Definition last_trial_at (bi ai : nat) (trials : list Trial.t) : option Trial.t :=
  find (fun t => (Trial.benchindex t =? bi)%nat && (Trial.arenaindex t =? ai)%nat)
       (rev trials).

(** [bybench[bi][ai]], if there is such an element. *)
Definition cell_at {V} (bi ai : nat) (bybench : dict (K:=nat) (V:=dict (K:=nat) (V:=V)))
  : option V :=
  match dict_get Nat.eqb bi bybench with
  | Some row => dict_get Nat.eqb ai row
  | None => None
  end.

(** A table of a full matrix: it has a row, and the rows all have the same
    number of cells, at least one. *)
Definition rectangular (tbl : table) : Prop :=
  match tbl with
  | [] => False
  | first_row :: _ =>
      first_row <> [] /\
      Forall (fun row => List.length row = List.length first_row) tbl
  end.

(** The order of the entries of [getarenalist] and [getbenchlist], on the
    file and the function of an entry: the file of [a] is not after the
    file of [b] in the natural order and, when the two files have the same
    key, neither is the function of [a] after the function of [b]. *)
Definition entry_le (a b : string * string) : Prop :=
  not_after key_ltb (numericstringkey (fst a)) (numericstringkey (fst b)) /\
  (key_eqb (numericstringkey (fst a)) (numericstringkey (fst b)) = true ->
   not_after key_ltb (numericstringkey (snd a)) (numericstringkey (snd b))).

(** The entries of a dict of files and their functions, flattened. *)
Definition file_items {V W} (d : dict (K:=string) (V:=V))
           (items : string -> V -> list W) : list (string * W) :=
  flat_map (fun kv => map (fun x => (fst kv, x)) (items (fst kv) (snd kv))) d.

(** A trial that was measured: its three measurement fields are set, at
    least one loop was run, and [mintime] is the least of the times. *)
Definition is_measured (trial : Trial.t) : Prop :=
  exists loops m times,
    Trial.loops trial = Some loops /\ Trial.mintime trial = Some m /\
    Trial.times trial = Some times /\
    (1 <= loops)%Z /\ In m times /\ forall x, In x times -> (m <= x)%Q.

(** The results that the body of a loop hands on. *)
Definition flow_results (f : flow) : list Trial.t :=
  match f with
  | Continue results => results
  | Return results => results
  end.

(** ** A directory with the two demo files *)

Definition demo_glob (pattern : string) : list string :=
  if String.eqb pattern "arena_zeros.py" then ["arena_zeros.py"]
  else if String.eqb pattern "bench_zeros.py" then ["bench_zeros.py"]
  else [].

Definition demo_split (filename : string) : string * string := ("", filename).

Definition demo_splitext (name : string) : string * string :=
  if String.eqb name "arena_zeros.py" then ("arena_zeros", ".py")
  else if String.eqb name "bench_zeros.py" then ("bench_zeros", ".py")
  else (name, "").

(** The functions of the two files; [helper] is not a candidate. *)
Definition demo_readmodule (name : string) (path : list string)
  : list (string * string) :=
  if String.eqb name "arena_zeros"
  then [("helper", "arena_zeros.py"); ("zeros_slow", "arena_zeros.py");
        ("zeros_mul", "arena_zeros.py")]
  else if String.eqb name "bench_zeros"
  then [("bench_n2", "bench_zeros.py"); ("bench_n10", "bench_zeros.py")]
  else [].

Definition demo_found_arenas : dict (K:=string) (V:=list string) :=
  findarenas (fun a b c => c) "" demo_glob
             (scanfuncs demo_split demo_splitext demo_readmodule (fun _ _ => []))
             demo_name false default_arenaprefixes (Some ["arena_zeros"]).

Definition demo_found_benchmarks : dict (K:=string) (V:=list string) :=
  findbenchmarks (fun a b c => c) "" demo_glob
                 (scanfuncs demo_split demo_splitext demo_readmodule (fun _ _ => []))
                 demo_name default_benchprefixes (Some ["bench_zeros"]).

(** ** Scenarios for the tables and the reports *)

(** The table of [negative_trials]. *)
Definition negative_table : table :=
  match _build_table (fun _ => "") PrefixNone PrefixNone negative_trials with
  | Ok tbl => tbl
  | Raise _ => []
  end.

(** The trial dict of the first cell of the demo run. *)
Definition demo_trial : Trial.t :=
  match make_trial demo_name (make_indices demo_arenadict)
                   (make_indices demo_benchdict)
                   (demo_bench "bench_n2") (demo_arena "zeros_mul") with
  | Ok trial => trial
  | Raise _ => Trial.mk "" 0 "" "" "" "" 0 "" "" None None "" None
  end.

(** The same cell measured twice. *)
Definition rerun_trials : list Trial.t :=
  [measured 0 0 "bench_n2" "zeros_mul" 1;
   measured 0 0 "bench_n2" "zeros_mul" 2].

Definition rerun_table : table :=
  match _build_table (fun _ => "t") PrefixNone PrefixNone rerun_trials with
  | Ok tbl => tbl
  | Raise _ => []
  end.

(** A candidate that was too fast for the clock. *)
Definition zero_trials : list Trial.t :=
  [measured 0 0 "bench_n2" "zeros_mul" 1;
   measured 0 1 "bench_n2" "zeros_slow" 0].

(** A run in which the filter skipped a cell of the first row. *)
Definition ragged_trials : list Trial.t :=
  [measured 0 0 "bench_n2" "zeros_mul" 1;
   measured 1 0 "bench_n10" "zeros_mul" 1;
   measured 1 1 "bench_n10" "zeros_slow" 2].

Definition ragged_table : table :=
  match _build_table (fun _ => "t") PrefixNone PrefixNone ragged_trials with
  | Ok tbl => tbl
  | Raise _ => []
  end.

Definition demo_linesep : string := String (ascii_of_nat 10) "".

(** The trials of [square_trials] and one trial of a second arena file. *)
Definition two_file_trials : list Trial.t :=
  (square_trials
   ++ [Trial.mk "arena_ones.py" 0 "ones_mul" "" "" "bench_zeros.py"
                0 "bench_n2" "body" (Some 1%Z) (Some 1%Q) "setup" (Some [1%Q])])%list.

Definition two_file_views (relative rank : bool)
  : list (string * string * string) :=
  match BenchRunner_to_gfm (fun _ => "t") demo_linesep demo_name
                           default_arenaprefixes default_benchprefixes
                           two_file_trials relative rank with
  | Ok out => out
  | Raise _ => []
  end.

Definition two_file_report : list string :=
  match quickstart_report (fun _ => "t") demo_linesep demo_name
                          default_arenaprefixes default_benchprefixes
                          two_file_trials with
  | Ok out => out
  | Raise _ => []
  end.


(* ================================================================== *)
(** * Part III: properties                                             *)
(* ================================================================== *)

(** ** Rational comparisons *)

Lemma Qltb_lt (a b : Q) : Qltb a b = true <-> (a < b)%Q.
Proof.
  unfold Qltb. rewrite negb_true_iff. split.
  - intros H. apply Qnot_le_lt. intros Hle.
    apply Qle_bool_iff in Hle. congruence.
  - intros H. destruct (Qle_bool b a) eqn:E; [|reflexivity].
    apply Qle_bool_iff in E. exfalso. exact (Qlt_not_le _ _ H E).
Qed.

Lemma Qltb_ge (a b : Q) : Qltb a b = false <-> (b <= a)%Q.
Proof.
  unfold Qltb. rewrite negb_false_iff. apply Qle_bool_iff.
Qed.

(** ** [best_units] *)

Lemma scaled_in_range (m lo hi s : Q) :
  (0 < s)%Q -> (lo * s == 1)%Q -> (hi * s == 1000)%Q ->
  (lo <= m)%Q -> (m < hi)%Q ->
  (1 <= m * s)%Q /\ (m * s < 1000)%Q.
Proof.
  intros Hs Hlo Hhi Hl Hh. split.
  - rewrite <- Hlo. apply Qmult_le_compat_r; [exact Hl | apply Qlt_le_weak; exact Hs].
  - rewrite <- Hhi. apply Qmult_lt_compat_r; assumption.
Qed.

(** C4: [best_units] breaks its own docstring ("Returns scale factor and
    prefix such that 1 <= num*scale < 1000") below the femto step: for the
    positive value [1e-16] the first test returns the femto scale, and the
    scaled value is 0.1, which is not in [1, 1000). *)
Lemma best_units_below_ladder :
  (0 < 1 # ten 16)%Q /\
  best_units (1 # ten 16) = (e_pos 15, "f") /\
  ((1 # ten 16) * fst (best_units (1 # ten 16)) < 1)%Q.
Proof.
  repeat split.
Qed.

(** On the range that the ladder covers the scaled value is in
    [1, 1000). *)
Lemma best_units_scaled (m : Q) :
  (e_neg 15 <= m)%Q -> (m < e_pos 15)%Q ->
  (1 <= m * fst (best_units m))%Q /\ (m * fst (best_units m) < 1000)%Q /\
  In (snd (best_units m)) ladder.
Proof.
  intros Hlo Hhi. unfold best_units.
  repeat match goal with
  | |- context [if Qltb ?a ?b then _ else _] =>
      let E := fresh "E" in
      destruct (Qltb a b) eqn:E;
      [ apply Qltb_lt in E | apply Qltb_ge in E ]
  end; cbn [fst snd];
  (split; [| split; [| unfold ladder; simpl; tauto]]);
  match goal with
  | |- (_ <= m * ?s)%Q =>
      eapply (scaled_in_range m _ _ s);
      [reflexivity | | | eassumption | eassumption]; reflexivity
  | |- (m * ?s < _)%Q =>
      eapply (scaled_in_range m _ _ s);
      [reflexivity | | | eassumption | eassumption]; reflexivity
  end.
Qed.

(** Where the docstring does hold: on the range that the ladder covers,
    from [1e-15] (included) to [1e15] (excluded), the chosen scale brings
    the value into [1, 1000) and the prefix is one of the ladder; below
    [1e-12] the scale is always femto and from [1e12] on always tera; and
    at the boundaries 1.0 selects the base scale, 999e-3 the milli scale
    and 1000e-3 the base scale. *)
Theorem best_units_in_range (m : Q) :
  (e_neg 15 <= m)%Q -> (m < e_pos 15)%Q ->
  (1 <= m * fst (best_units m))%Q /\ (m * fst (best_units m) < 1000)%Q /\
  In (snd (best_units m)) ladder /\
  best_units 1 = (1%Q, "") /\
  best_units (999 # 1000) = (e_pos 3, "m") /\
  best_units (1000 # 1000) = (1%Q, "") /\
  (forall x, (x < e_neg 12)%Q -> best_units x = (e_pos 15, "f")) /\
  (forall x, (e_pos 12 <= x)%Q -> best_units x = (e_neg 12, "T")).
Proof.
  intros Hlo Hhi.
  destruct (best_units_scaled m Hlo Hhi) as (R1 & R2 & R3).
  repeat split; try assumption.
  - intros x Hx. unfold best_units.
    apply Qltb_lt in Hx. rewrite Hx. reflexivity.
  - intros x Hx. unfold best_units.
    assert (G : forall c, (c <= e_pos 12)%Q -> Qltb x c = false).
    { intros c Hc. apply Qltb_ge. eapply Qle_trans; eassumption. }
    rewrite !G by (vm_compute; discriminate). reflexivity.
Qed.

Lemma best_units_in_range_witness :
  (1 <= (1 # 2) * fst (best_units (1 # 2)))%Q /\
  ((1 # 2) * fst (best_units (1 # 2)) < 1000)%Q /\
  In (snd (best_units (1 # 2))) ladder.
Proof.
  assert (Hlo : (e_neg 15 <= 1 # 2)%Q) by (vm_compute; discriminate).
  assert (Hhi : (1 # 2 < e_pos 15)%Q) by reflexivity.
  destruct (best_units_in_range (1 # 2) Hlo Hhi) as (H1 & H2 & H3 & _).
  exact (conj H1 (conj H2 H3)).
Defined.

(** ** Strict total orders and the lexicographic order *)

Lemma st_asym {A} (eqb ltb : A -> A -> bool) (O : strict_total eqb ltb) a b :
  ltb a b = true -> ltb b a = false.
Proof.
  intros H. destruct (ltb b a) eqn:E; [|reflexivity].
  pose proof (st_trans _ _ O _ _ _ H E) as C.
  rewrite (st_irrefl _ _ O) in C. discriminate.
Qed.

Lemma not_after_trans {A} (eqb ltb : A -> A -> bool) (O : strict_total eqb ltb) :
  forall a b c, not_after ltb a b -> not_after ltb b c -> not_after ltb a c.
Proof.
  unfold not_after. intros a b c Hab Hbc.
  destruct (ltb c a) eqn:E; [|reflexivity].
  destruct (st_total _ _ O b c) as [H | [H | H]].
  - rewrite (st_trans _ _ O _ _ _ H E) in Hab. discriminate.
  - subst. congruence.
  - congruence.
Qed.

Section LexOrder.
Context {A : Type} (eqb ltb : A -> A -> bool).
Hypothesis O : strict_total eqb ltb.

Lemma lex_eqb_eq (a b : list A) : lex_eqb eqb a b = true <-> a = b.
Proof.
  revert b. induction a as [|x a IH]; intros [|y b]; simpl;
    try (split; (discriminate || reflexivity)).
  rewrite andb_true_iff, (st_eq _ _ O), IH.
  split; [intros [-> ->]; reflexivity | intros H; inversion H; auto].
Qed.

Lemma eqb_refl_of (x : A) : eqb x x = true.
Proof. apply (st_eq _ _ O). reflexivity. Qed.

Lemma lex_irrefl (a : list A) : lex_ltb eqb ltb a a = false.
Proof.
  induction a as [|x a IH]; simpl; [reflexivity|].
  rewrite eqb_refl_of. exact IH.
Qed.

Lemma lex_trans (a b c : list A) :
  lex_ltb eqb ltb a b = true -> lex_ltb eqb ltb b c = true ->
  lex_ltb eqb ltb a c = true.
Proof.
  revert b c. induction a as [|x a IH]; intros [|y b] [|z c]; simpl;
    try discriminate; try reflexivity.
  destruct (eqb x y) eqn:Exy.
  - apply (st_eq _ _ O) in Exy. subst y.
    destruct (eqb x z) eqn:Exz; [apply IH | auto].
  - destruct (eqb y z) eqn:Eyz.
    + apply (st_eq _ _ O) in Eyz. subst z. rewrite Exy. auto.
    + intros Hxy Hyz.
      pose proof (st_trans _ _ O _ _ _ Hxy Hyz) as Hxz.
      destruct (eqb x z) eqn:Exz; [|exact Hxz].
      apply (st_eq _ _ O) in Exz. subst z.
      rewrite (st_irrefl _ _ O) in Hxz. discriminate.
Qed.

Lemma lex_total (a b : list A) :
  lex_ltb eqb ltb a b = true \/ a = b \/ lex_ltb eqb ltb b a = true.
Proof.
  revert b. induction a as [|x a IH]; intros [|y b]; simpl; auto.
  destruct (st_total _ _ O x y) as [H | [H | H]].
  - left. destruct (eqb x y) eqn:E; [|exact H].
    apply (st_eq _ _ O) in E. subst y.
    rewrite (st_irrefl _ _ O) in H. discriminate.
  - subst y. rewrite eqb_refl_of.
    destruct (IH b) as [H | [H | H]]; auto.
    right. left. congruence.
  - right. right. destruct (eqb y x) eqn:E; [|exact H].
    apply (st_eq _ _ O) in E. subst y.
    rewrite (st_irrefl _ _ O) in H. discriminate.
Qed.

Lemma lex_strict_total : strict_total (lex_eqb eqb) (lex_ltb eqb ltb).
Proof.
  constructor.
  - apply lex_eqb_eq.
  - apply lex_irrefl.
  - apply lex_trans.
  - apply lex_total.
Qed.
End LexOrder.

(** ** The order on strings and on the members of a key *)

Lemma ascii_compare_refl (a : ascii) : Ascii.compare a a = Eq.
Proof. unfold Ascii.compare. apply N.compare_refl. Qed.

Lemma ascii_compare_lt_trans (a b c : ascii) :
  Ascii.compare a b = Lt -> Ascii.compare b c = Lt -> Ascii.compare a c = Lt.
Proof.
  unfold Ascii.compare. rewrite !N.compare_lt_iff. apply N.lt_trans.
Qed.

Lemma string_compare_refl (s : string) : String.compare s s = Eq.
Proof.
  induction s as [|c s IH]; simpl; [reflexivity|].
  rewrite ascii_compare_refl. exact IH.
Qed.

Lemma string_compare_lt_trans (s t u : string) :
  String.compare s t = Lt -> String.compare t u = Lt -> String.compare s u = Lt.
Proof.
  revert t u. induction s as [|a s IH]; intros [|b t] [|c u]; simpl;
    try discriminate; try reflexivity.
  destruct (Ascii.compare a b) eqn:Eab; try discriminate.
  - apply Ascii.compare_eq_iff in Eab. subst b.
    destruct (Ascii.compare a c); try discriminate; auto. apply IH.
  - destruct (Ascii.compare b c) eqn:Ebc; try discriminate.
    + apply Ascii.compare_eq_iff in Ebc. subst c. rewrite Eab. reflexivity.
    + rewrite (ascii_compare_lt_trans _ _ _ Eab Ebc). reflexivity.
Qed.

Lemma string_strict_total : strict_total String.eqb String.ltb.
Proof.
  constructor.
  - apply String.eqb_eq.
  - intros s. unfold String.ltb. rewrite string_compare_refl. reflexivity.
  - intros s t u. unfold String.ltb.
    destruct (String.compare s t) eqn:E1; try discriminate.
    destruct (String.compare t u) eqn:E2; try discriminate.
    rewrite (string_compare_lt_trans _ _ _ E1 E2). reflexivity.
  - intros s t. unfold String.ltb.
    pose proof (String.compare_antisym t s) as Hanti.
    destruct (String.compare s t) eqn:E; rewrite Hanti; simpl; auto.
    apply String.compare_eq_iff in E. auto.
Qed.

Lemma keyitem_strict_total : strict_total keyitem_eqb keyitem_ltb.
Proof.
  pose proof string_strict_total as S.
  constructor.
  - intros [n|s] [m|t]; simpl; try (split; discriminate).
    + rewrite N.eqb_eq. split; [intros ->; reflexivity | intros H; inversion H; reflexivity].
    + rewrite String.eqb_eq. split; [intros ->; reflexivity | intros H; inversion H; reflexivity].
  - intros [n|s]; simpl; [apply N.ltb_irrefl | apply (st_irrefl _ _ S)].
  - intros [n|s] [m|t] [k|u]; simpl; try discriminate; try reflexivity.
    + rewrite !N.ltb_lt. apply N.lt_trans.
    + apply (st_trans _ _ S).
  - intros [n|s] [m|t]; simpl; auto.
    + destruct (N.lt_trichotomy n m) as [H | [H | H]].
      * left. apply N.ltb_lt. exact H.
      * right. left. congruence.
      * right. right. apply N.ltb_lt. exact H.
    + destruct (st_total _ _ S s t) as [H | [H | H]]; auto.
      right. left. congruence.
Qed.

Lemma key_strict_total : strict_total key_eqb key_ltb.
Proof. apply lex_strict_total. exact keyitem_strict_total. Qed.

(** ** [sorted] *)

Section SortedFacts.
Context {A K : Type} (lt : K -> K -> bool) (key : A -> K).

Lemma insert_sorted_perm (x : A) (l : list A) :
  Permutation (insert_sorted lt key x l) (x :: l).
Proof.
  induction l as [|y r IH]; simpl; [reflexivity|].
  destruct (lt (key y) (key x)); [|reflexivity].
  rewrite IH. apply perm_swap.
Qed.

Lemma sorted_perm (l : list A) : Permutation (sorted lt key l) l.
Proof.
  induction l as [|x r IH]; simpl; [reflexivity|].
  rewrite insert_sorted_perm. constructor. exact IH.
Qed.

Lemma sorted_length (l : list A) : List.length (sorted lt key l) = List.length l.
Proof. apply Permutation_length, sorted_perm. Qed.

Hypothesis lt_asym : forall a b, lt a b = true -> lt b a = false.
Hypothesis le_trans :
  forall a b c, not_after lt a b -> not_after lt b c -> not_after lt a c.

Lemma insert_sorted_sorted (x : A) (l : list A) :
  StronglySorted (key_le lt key) l -> StronglySorted (key_le lt key) (insert_sorted lt key x l).
Proof.
  induction 1 as [|y r Hr IH Hall]; simpl.
  - constructor; constructor.
  - destruct (lt (key y) (key x)) eqn:E.
    + constructor; [exact IH|].
      rewrite Forall_forall. intros z Hz.
      apply (Permutation_in _ (insert_sorted_perm x r)) in Hz.
      destruct Hz as [<- | Hz].
      * apply lt_asym. exact E.
      * rewrite Forall_forall in Hall. apply Hall. exact Hz.
    + constructor; [constructor; assumption|].
      constructor; [exact E|].
      rewrite Forall_forall in *. intros z Hz.
      unfold key_le. eapply le_trans; [exact E | apply Hall; exact Hz].
Qed.

Lemma sorted_sorted (l : list A) : StronglySorted (key_le lt key) (sorted lt key l).
Proof.
  induction l as [|x r IH]; simpl; [constructor|].
  apply insert_sorted_sorted. exact IH.
Qed.
End SortedFacts.

(** ** [numericstringkey] and [nsorted] *)

Lemma string_app_assoc (a b c : string) : ((a ++ b) ++ c = a ++ (b ++ c))%string.
Proof. induction a as [|x a IH]; simpl; [reflexivity | rewrite IH; reflexivity]. Qed.

Lemma string_app_empty (a : string) : (a ++ "" = a)%string.
Proof. induction a as [|x a IH]; simpl; [reflexivity | rewrite IH; reflexivity]. Qed.

(** Text without digits is accumulated in the current text piece. *)
Lemma re_split_text (p s cur : string) :
  no_digit p = true ->
  re_split_digits (p ++ s) cur false = re_split_digits s (cur ++ p) false.
Proof.
  revert cur. induction p as [|c p IH]; intros cur H; simpl.
  - rewrite string_app_empty. reflexivity.
  - unfold no_digit in H. simpl in H. apply andb_true_iff in H as [Hc Hp].
    apply negb_true_iff in Hc. rewrite Hc.
    rewrite (IH _ Hp), string_app_assoc. reflexivity.
Qed.

(** Digits are accumulated in the current digit run, which ends with the
    string and is followed by an empty text piece. *)
Lemma re_split_run (d cur : string) :
  all_digits d = true ->
  re_split_digits d cur true = [(cur ++ d)%string; ""].
Proof.
  revert cur. induction d as [|c d IH]; intros cur H; simpl.
  - rewrite string_app_empty. reflexivity.
  - unfold all_digits in H. simpl in H. apply andb_true_iff in H as [Hc Hd].
    rewrite Hc, (IH _ Hd), string_app_assoc. reflexivity.
Qed.

Lemma py_int_text (p : string) : no_digit p = true -> py_int p = Raise ValueError.
Proof.
  destruct p as [|c p]; [reflexivity|].
  unfold no_digit, py_int, all_digits. simpl. intros H.
  apply andb_true_iff in H as [Hc _]. apply negb_true_iff in Hc.
  rewrite Hc. reflexivity.
Qed.

Lemma py_int_run (d : string) :
  d <> "" -> all_digits d = true -> py_int d = Ok (decimal_value d).
Proof.
  destruct d as [|c d]; [congruence|].
  intros _ H. unfold py_int. rewrite H. reflexivity.
Qed.

Lemma re_split_text_run (p d : string) :
  no_digit p = true -> d <> "" -> all_digits d = true ->
  re_split_digits (p ++ d) "" false = [p; d; ""].
Proof.
  intros Hp Hne Hd.
  rewrite (re_split_text p d "" Hp). simpl.
  destruct d as [|c d]; [congruence|].
  unfold all_digits in Hd. simpl in Hd.
  apply andb_true_iff in Hd as [Hc Hr].
  simpl. rewrite Hc. rewrite (re_split_run d _ Hr). reflexivity.
Qed.

(** The key of a text followed by one digit run. *)
Lemma numericstringkey_text_run (p d : string) :
  no_digit p = true -> d <> "" -> all_digits d = true ->
  numericstringkey (p ++ d) = [KStr p; KInt (decimal_value d); KStr ""].
Proof.
  intros Hp Hne Hd. unfold numericstringkey.
  rewrite (re_split_text_run p d Hp Hne Hd). cbn [map].
  rewrite (py_int_text p Hp), (py_int_run d Hne Hd). reflexivity.
Qed.

(** C9: [nsorted] returns the strings it was given, ordered by their
    text/number key (each string is not after any later one); digit runs
    are compared as integers: two names made of the same text and one digit
    run each compare as their numbers do; and
    [nsorted(["a2", "a10", "a1"]) == ["a1", "a2", "a10"]]. *)
Theorem nsorted_natural_order :
  (forall l : list string,
      Permutation (nsorted l) l /\
      StronglySorted (key_le key_ltb numericstringkey) (nsorted l)) /\
  (forall p d1 d2 : string,
      no_digit p = true ->
      d1 <> "" -> all_digits d1 = true ->
      d2 <> "" -> all_digits d2 = true ->
      key_ltb (numericstringkey (p ++ d1)) (numericstringkey (p ++ d2))
      = N.ltb (decimal_value d1) (decimal_value d2)) /\
  nsorted ["a2"; "a10"; "a1"] = ["a1"; "a2"; "a10"] /\
  nsorted ["name10"; "name2"] = ["name2"; "name10"] /\
  sorted String.ltb (fun s => s) ["name10"; "name2"] = ["name10"; "name2"].
Proof.
  split; [|split; [|repeat split]].
  - intros l. split.
    + apply sorted_perm.
    + apply sorted_sorted.
      * apply (st_asym _ _ key_strict_total).
      * apply (not_after_trans _ _ key_strict_total).
  - intros p d1 d2 Hp Hn1 Hd1 Hn2 Hd2.
    rewrite (numericstringkey_text_run p d1 Hp Hn1 Hd1).
    rewrite (numericstringkey_text_run p d2 Hp Hn2 Hd2).
    unfold key_ltb. simpl. rewrite String.eqb_refl.
    destruct (N.eqb_spec (decimal_value d1) (decimal_value d2)) as [E | E].
    + rewrite E. symmetry. apply N.ltb_irrefl.
    + reflexivity.
Qed.

Lemma nsorted_natural_order_witness :
  key_ltb (numericstringkey ("name" ++ "2")) (numericstringkey ("name" ++ "10"))
  = N.ltb (decimal_value "2") (decimal_value "10").
Proof.
  destruct nsorted_natural_order as (_ & H & _).
  apply (H "name" "2" "10"); (reflexivity || discriminate).
Defined.

Lemma all_digits_app (a b : string) :
  all_digits (a ++ b) = all_digits a && all_digits b.
Proof.
  unfold all_digits. induction a as [|c a IH]; simpl; [reflexivity|].
  rewrite IH, andb_assoc. reflexivity.
Qed.

Lemma no_digit_app (a b : string) :
  no_digit (a ++ b) = no_digit a && no_digit b.
Proof.
  unfold no_digit. induction a as [|c a IH]; simpl; [reflexivity|].
  rewrite IH, andb_assoc. reflexivity.
Qed.

Lemma re_split_alternating (s cur : string) (indig : bool) :
  (if indig then cur <> "" /\ all_digits cur = true else no_digit cur = true) ->
  alternating indig (re_split_digits s cur indig).
Proof.
  revert cur indig. induction s as [|c s IH]; intros cur indig Hcur.
  - destruct indig; simpl; auto.
  - simpl. destruct (is_digit c) eqn:Ec; destruct indig; simpl.
    + apply IH. destruct Hcur as [Hne Hd]. split.
      * destruct cur; [congruence | discriminate].
      * rewrite all_digits_app, Hd. unfold all_digits. simpl. rewrite Ec. reflexivity.
    + split; [exact Hcur|]. apply IH. split; [discriminate|].
      unfold all_digits. simpl. rewrite Ec. reflexivity.
    + split; [exact Hcur|]. apply IH.
      unfold no_digit. simpl. rewrite Ec. reflexivity.
    + apply IH. rewrite no_digit_app, Hcur. unfold no_digit. simpl.
      rewrite Ec. reflexivity.
Qed.

(** A key starts with a str and alternates between strs and ints. *)
Lemma numericstringkey_shape (s : string) : key_shape false (numericstringkey s).
Proof.
  unfold numericstringkey.
  assert (H : alternating false (re_split_digits s "" false))
    by (apply re_split_alternating; reflexivity).
  revert H. generalize (re_split_digits s "" false). generalize false.
  intros b l. revert b. induction l as [|x l IH]; intros b; simpl; [auto|].
  intros [Hx Hl]. split; [|apply IH; exact Hl].
  destruct b.
  - destruct Hx as [Hne Hd]. rewrite (py_int_run x Hne Hd). eauto.
  - rewrite (py_int_text x Hx). eauto.
Qed.

(** On keys of the same shape the comparison never meets an int and a str
    at the same position: Python 3 raises nothing, and both Pythons agree
    with [key_ltb]. *)
Lemma key_lt3_shape (b : bool) (k1 k2 : list keyitem) :
  key_shape b k1 -> key_shape b k2 -> key_lt3 k1 k2 = Ok (key_ltb k1 k2).
Proof.
  revert b k2. induction k1 as [|x k1 IH]; intros b [|y k2]; simpl; auto.
  intros [Hx H1] [Hy H2]. unfold key_ltb. simpl.
  destruct (keyitem_eqb x y); [exact (IH _ _ H1 H2)|].
  destruct b; destruct Hx as [? ->]; destruct Hy as [? ->]; reflexivity.
Qed.

Lemma key_lt3_numericstringkey (s t : string) :
  key_lt3 (numericstringkey s) (numericstringkey t)
  = Ok (key_ltb (numericstringkey s) (numericstringkey t)).
Proof.
  apply (key_lt3_shape false); apply numericstringkey_shape.
Qed.

(** ** [bettertimeit] *)

Lemma grow_loops_doubles (runtime mintime : Q) (loops : Z) :
  (1 <= loops)%Z -> (2 * loops <= grow_loops runtime mintime loops)%Z.
Proof.
  intros H. unfold grow_loops.
  repeat match goal with
         | |- context [if ?b then _ else _] => destruct b
         end; lia.
Qed.

Section TimerFacts.
Variables T U : Type.
Variable timer_timeit : T -> string -> string -> Z -> Q * T.
Variables statements setup : string.

Local Abbreviation timeit' := (timeit T U timer_timeit statements setup).
Local Abbreviation repeat_n' := (repeat_n T U timer_timeit statements setup).
Local Abbreviation probe' := (probe T U timer_timeit statements setup).
Local Abbreviation bettertimeit' := (bettertimeit T U timer_timeit statements setup).

Lemma timeit_spec (loops : Z) (w : world T U) :
  exists c w',
    timeit' loops w = (Ok (call_reading c), w') /\
    w_log w' = w_log w ++ [c] /\ w_user w' = w_user w /\
    call_for statements setup c /\ call_loops c = loops.
Proof.
  unfold timeit.
  destruct (timer_timeit (w_timer w) statements setup loops) as [r t].
  exists (mkcall statements setup loops r). eexists.
  split; [reflexivity|]. simpl. repeat split.
Qed.

Lemma repeat_n_spec (n : nat) (loops : Z) (w : world T U) :
  exists calls w',
    repeat_n' n loops w = (Ok (map call_reading calls), w') /\
    w_log w' = w_log w ++ calls /\ w_user w' = w_user w /\
    List.length calls = n /\
    Forall (fun c => call_for statements setup c /\ call_loops c = loops) calls.
Proof.
  revert w. induction n as [|n IH]; intros w.
  - exists [], w. simpl. rewrite app_nil_r. repeat split. constructor.
  - destruct (timeit_spec loops w) as (c & w1 & E1 & L1 & U1 & F1 & C1).
    destruct (IH w1) as (calls & w2 & E2 & L2 & U2 & N2 & F2).
    exists (c :: calls), w2. simpl.
    unfold bind at 1. rewrite E1. unfold bind at 1. rewrite E2.
    unfold ret. simpl. repeat split.
    + rewrite L2, L1, <- app_assoc. reflexivity.
    + congruence.
    + congruence.
    + constructor; [split; assumption | exact F2].
Qed.

(** The probing loop with at least one round left: it returns, having
    called the timer once per round; only the last call may have
    converged, and it was made with the loop count that is returned; a
    loop that never converged used all its rounds and doubled the loop
    count at least once per round. *)
Lemma probe_spec (mintime : Q) (k : nat) :
  forall (loops : Z) (rt : option Q) (w : world T U),
    (1 <= loops)%Z ->
    exists loops' pre c w',
      probe' mintime (S k) loops rt w = (Ok (loops', Some (call_reading c)), w') /\
      w_log w' = w_log w ++ pre ++ [c] /\ w_user w' = w_user w /\
      (List.length pre <= k)%nat /\ (1 <= loops')%Z /\
      Forall (call_for statements setup) (pre ++ [c]) /\
      Forall (fun p => converged mintime p = false) pre /\
      (converged mintime c = true -> call_loops c = loops') /\
      (converged mintime c = false ->
       List.length pre = k /\ (loops * 2 ^ Z.of_nat (S k) <= loops')%Z).
Proof.
  induction k as [|k IH]; intros loops rt w Hl;
    destruct (timeit_spec loops w) as (c & w1 & E1 & L1 & U1 & F1 & C1);
    pose proof (grow_loops_doubles (call_reading c) mintime loops Hl) as G;
    destruct (converged mintime c) eqn:Ec;
    pose proof Ec as Ec'; unfold converged in Ec'.
  - exists loops, [], c, w1. simpl. unfold bind. rewrite E1, Ec'. unfold ret.
    repeat split; auto; try congruence.
  - exists (grow_loops (call_reading c) mintime loops), [], c, w1.
    simpl. unfold bind. rewrite E1, Ec'. unfold ret.
    repeat split; auto; try congruence; lia.
  - exists loops, [], c, w1.
    cbn [probe]. unfold bind. rewrite E1, Ec'. unfold ret.
    repeat split; auto; try congruence; simpl; try lia.
    constructor; [exact F1 | constructor].
  - destruct (IH (grow_loops (call_reading c) mintime loops)
                 (Some (call_reading c)) w1 ltac:(lia))
      as (loops' & pre & c' & w2 & E2 & L2 & U2 & N2 & P2 & F2 & A2 & C2 & D2).
    exists loops', (c :: pre), c', w2.
    cbn [probe]. unfold bind at 1. rewrite E1, Ec'.
    split; [exact E2|].
    split; [rewrite L2, L1, <- app_assoc; reflexivity|].
    split; [congruence|].
    split; [simpl; lia|].
    split; [exact P2|].
    split; [simpl; constructor; assumption|].
    split; [constructor; assumption|].
    split; [exact C2|].
    intros Hc. destruct (D2 Hc) as [D3 D4]. split; [simpl; lia|].
    replace (Z.of_nat (S (S k))) with (Z.of_nat (S k) + 1)%Z by lia.
    rewrite Z.pow_add_r by lia.
    assert (Hp : (0 < 2 ^ Z.of_nat (S k))%Z) by (apply Z.pow_pos_nonneg; lia).
    change (2 ^ 1)%Z with 2%Z. nia.
Qed.
(** [bettertimeit] always returns: the timer was called for one to 32
    probing rounds and then for the fresh repetitions, and the times are
    the readings of the repetitions followed by the reading of the last
    probe, each divided by the loop count. *)
Lemma bettertimeit_spec (mintime : Q) (numrepeat : Z) (w : world T U) :
  exists loops pre c repeats w',
    bettertimeit' mintime numrepeat w
    = (Ok (map (fun x => (x / inject_Z loops)%Q)
               (map call_reading repeats ++ [call_reading c]), loops), w') /\
    w_log w' = w_log w ++ (pre ++ [c]) ++ repeats /\
    w_user w' = w_user w /\
    (List.length pre <= 31)%nat /\ (1 <= loops)%Z /\
    Forall (call_for statements setup) (pre ++ [c]) /\
    Forall (fun p => converged mintime p = false) pre /\
    (converged mintime c = true -> call_loops c = loops) /\
    (converged mintime c = false ->
     List.length pre = 31%nat /\ (2 ^ 32 <= loops)%Z) /\
    List.length repeats = Z.to_nat (numrepeat - 1) /\
    Forall (fun r => call_for statements setup r /\ call_loops r = loops) repeats.
Proof.
  destruct (probe_spec mintime 31 1%Z None w ltac:(lia))
    as (loops & pre & c & w1 & E1 & L1 & U1 & N1 & P1 & F1 & A1 & C1 & D1).
  destruct (repeat_n_spec (Z.to_nat (numrepeat - 1)) loops w1)
    as (repeats & w2 & E2 & L2 & U2 & N2 & F2).
  exists loops, pre, c, repeats, w2.
  split.
  - unfold bettertimeit. unfold bind at 1. rewrite E1.
    unfold timer_repeat. unfold bind at 1. rewrite E2.
    reflexivity.
  - split; [rewrite L2, L1, <- app_assoc; reflexivity|].
    split; [congruence|].
    repeat (split; [assumption|]). exact F2.
Qed.

(** C1: for every [mintime] and every timer (so, in particular, for
    [mintime > 0] and a timer whose readings grow with the loop count),
    [bettertimeit] returns normally after at least one and at most 32
    probing rounds, with [loops >= 1].  A probe that read more than
    [mintime] was the last one and ran with the loop count that is
    returned; its time per iteration is among the returned times and,
    multiplied by [loops], is the reading again, hence at least [mintime].
    When no probe read more than [mintime], all 32 rounds were used and
    the loop count reached, at least 2^32, is returned. *)
Theorem bettertimeit_converges (mintime : Q) (numrepeat : Z) (w : world T U) :
  exists times loops probes repeats w',
    bettertimeit' mintime numrepeat w = (Ok (times, loops), w') /\
    w_log w' = w_log w ++ probes ++ repeats /\
    (1 <= List.length probes <= 32)%nat /\
    List.length repeats = Z.to_nat (numrepeat - 1) /\
    (1 <= loops)%Z /\
    (forall c, In c probes -> (mintime < call_reading c)%Q ->
               call_loops c = loops /\
               In (call_reading c / inject_Z loops)%Q times /\
               (inject_Z loops * (call_reading c / inject_Z loops)
                == call_reading c)%Q /\
               (mintime <= inject_Z loops * (call_reading c / inject_Z loops))%Q) /\
    ((forall c, In c probes -> ~ (mintime < call_reading c)%Q) ->
     List.length probes = 32%nat /\ (2 ^ 32 <= loops)%Z).
Proof.
  destruct (bettertimeit_spec mintime numrepeat w)
    as (loops & pre & c & repeats & w' & E & L & _ & N & P & _ & A & C & D & R & _).
  exists (map (fun x => (x / inject_Z loops)%Q)
              (map call_reading repeats ++ [call_reading c])),
         loops, (pre ++ [c]), repeats, w'.
  assert (Hnz : ~ (inject_Z loops == 0)%Q).
  { intros H. unfold Qeq in H. simpl in H. lia. }
  split; [exact E|]. split; [exact L|].
  split; [rewrite length_app; simpl; lia|].
  split; [exact R|]. split; [exact P|]. split.
  - intros c0 Hin Hlt.
    assert (c0 = c) as ->.
    { apply in_app_or in Hin as [Hin | [<- | []]]; [|reflexivity].
      rewrite Forall_forall in A. specialize (A _ Hin).
      unfold converged in A. apply Qltb_ge in A.
      exfalso. exact (Qlt_not_le _ _ Hlt A). }
    assert (Hc : converged mintime c = true) by (apply Qltb_lt; exact Hlt).
    split; [exact (C Hc)|]. split.
    + apply in_map_iff. exists (call_reading c). split; [reflexivity|].
      apply in_or_app. right. left. reflexivity.
    + assert (Heq : (inject_Z loops * (call_reading c / inject_Z loops)
                     == call_reading c)%Q) by (apply Qmult_div_r; exact Hnz).
      split; [exact Heq|]. rewrite Heq. apply Qlt_le_weak. exact Hlt.
  - intros Hnone.
    assert (Hc : converged mintime c = false).
    { apply Qltb_ge. apply Qnot_lt_le. apply Hnone.
      apply in_or_app. right. left. reflexivity. }
    destruct (D Hc) as [D1 D2]. split; [|exact D2].
    rewrite length_app. simpl. lia.
Qed.

(** C7, amended: for every [numrepeat >= 1], [bettertimeit] returns
    exactly [numrepeat] times together with the final [loops]; the
    [numrepeat - 1] timings made after probing, all with the final loop
    count, come first and in order, and the reading of the last probing run
    is the last entry of the list; every entry is the reading of a timer
    call divided by the final [loops]. *)
Theorem bettertimeit_times (mintime : Q) (numrepeat : Z) (w : world T U) :
  (1 <= numrepeat)%Z ->
  exists times loops pre c repeats w',
    bettertimeit' mintime numrepeat w = (Ok (times, loops), w') /\
    w_log w' = w_log w ++ (pre ++ [c]) ++ repeats /\
    List.length times = Z.to_nat numrepeat /\
    List.length repeats = Z.to_nat (numrepeat - 1) /\
    Forall (fun r => call_loops r = loops) repeats /\
    times = map (fun r => (call_reading r / inject_Z loops)%Q) (repeats ++ [c]) /\
    last times 0%Q = (call_reading c / inject_Z loops)%Q.
Proof.
  intros Hn.
  destruct (bettertimeit_spec mintime numrepeat w)
    as (loops & pre & c & repeats & w' & E & L & _ & _ & _ & _ & _ & _ & _ & R & F).
  exists (map (fun x => (x / inject_Z loops)%Q)
              (map call_reading repeats ++ [call_reading c])),
         loops, pre, c, repeats, w'.
  split; [exact E|]. split; [exact L|].
  split; [rewrite length_map, length_app, length_map, R; simpl; lia|].
  split; [exact R|].
  split; [eapply Forall_impl; [|exact F]; intros r [_ H]; exact H|].
  split.
  - rewrite map_app, map_app, map_map. reflexivity.
  - rewrite map_app. simpl. apply last_last.
Qed.

End TimerFacts.

Lemma bettertimeit_times_witness :
  exists times loops pre c repeats w',
    bettertimeit nat unit count_timer "stmt" "setup" (1 # 2) 3 (world0 tt)
    = (Ok (times, loops), w') /\
    w_log w' = w_log (world0 tt) ++ (pre ++ [c]) ++ repeats /\
    List.length times = Z.to_nat 3 /\
    List.length repeats = Z.to_nat (3 - 1) /\
    Forall (fun r => call_loops r = loops) repeats /\
    times = map (fun r => (call_reading r / inject_Z loops)%Q) (repeats ++ [c]) /\
    last times 0%Q = (call_reading c / inject_Z loops)%Q.
Proof.
  apply (bettertimeit_times nat unit count_timer "stmt" "setup" (1 # 2) 3 (world0 tt)).
  lia.
Defined.

(** C7 as stated fails on the position of the probe's reading.  With a
    timer whose calls read 1, 2 and 3 seconds, [mintime = 0.5] and
    [numrepeat = 3], the only probe reads 1; the returned list is
    [2, 3, 1]: its first entry is the first timing made after probing, and
    the probe's reading comes last. *)
Lemma bettertimeit_probe_reading_comes_last :
  fst (bettertimeit nat unit count_timer "stmt" "setup" (1 # 2) 3 (world0 tt))
  = Ok ([2; 3; 1]%Q, 1%Z) /\
  map call_reading
      (w_log (snd (bettertimeit nat unit count_timer "stmt" "setup" (1 # 2) 3
                                (world0 tt))))
  = [1; 2; 3]%Q /\
  ~ (2 == 1)%Q.
Proof.
  split; [reflexivity|]. split; [reflexivity|]. discriminate.
Qed.

(** A snippet that takes 1 ms per loop, with [mintime = 0.25]: the probes
    run 1, 2, 4, 32 and 256 loops, and the last one, at 0.256 s, exceeds
    [mintime]. *)
Lemma bettertimeit_steady_example :
  let r := bettertimeit nat unit (steady_timer (1 # 1000)) "stmt" "setup"
                        (1 # 4) 3 (world0 tt) in
  fst r = Ok ([256 # 256000; 256 # 256000; 256 # 256000]%Q, 256%Z) /\
  map call_loops (w_log (snd r)) = [1; 2; 4; 32; 256; 256; 256]%Z.
Proof. split; vm_compute; reflexivity. Qed.

(** A timer that always reads zero never exceeds [mintime]: after 32
    doublings the loop count is 2^32, and the list of times is returned
    all the same. *)
Lemma bettertimeit_degenerate_example :
  let r := bettertimeit nat unit (steady_timer 0) "stmt" "setup"
                        (1 # 4) 1 (world0 tt) in
  fst r = Ok ([0 # 4294967296]%Q, 4294967296%Z) /\
  (4294967296 = 2 ^ 32)%Z /\
  List.length (w_log (snd r)) = 32%nat.
Proof. repeat split; vm_compute; reflexivity. Qed.

(** Hooks that return a falsy object other than [False]. *)
Lemma falsy_is_not_False :
  Forall (fun v => truthy v = false /\ is_False v = false)
         [PyNone; PyInt 0; PyFloat 0; PyStr ""; PyList []] /\
  truthy (PyBool false) = false /\ is_False (PyBool false) = true.
Proof. repeat constructor. Qed.

(** ** [runbenchmarks] *)

Lemma py_min_total (x : Q) (l : list Q) : exists m, py_min (x :: l) = Ok m.
Proof. simpl. eauto. Qed.

Section RunFacts.
Variables T U : Type.
Variable timer_timeit : T -> string -> string -> Z -> Q * T.

Lemma bind_ok {A B} (c : M T U A) (k : A -> M T U B) w a w' :
  c w = (Ok a, w') -> bind T U c k w = k a w'.
Proof. intros H. unfold bind. rewrite H. reflexivity. Qed.

Lemma bind_raise {A B} (c : M T U A) (k : A -> M T U B) w e w' :
  c w = (Raise e, w') -> bind T U c k w = (Raise e, w').
Proof. intros H. unfold bind. rewrite H. reflexivity. Qed.

Lemma says_False_none (trial : Trial.t) (w : world T U) :
  says_False T U None trial w = (Ok false, w).
Proof. reflexivity. Qed.

Lemma says_False_some (f : hook U) (trial : Trial.t) (w : world T U) v u :
  f trial (w_user w) = (v, u) ->
  says_False T U (Some f) trial w = (Ok (is_False v), with_user w u).
Proof.
  intros H. unfold says_False, bind, call_hook. rewrite H. reflexivity.
Qed.

Variables (mintime : Q) (numrepeat : Z).
Local Abbreviation measure' := (measure T U timer_timeit mintime numrepeat).

(** Measuring always succeeds: the timer is called at least once, and only
    for the snippets of the trial; the hooks' state is left alone; the
    trial is the pending one with its measurement fields filled in. *)
Lemma measure_spec (trial0 : Trial.t) (w : world T U) :
  exists trial calls w',
    measure' trial0 w = (Ok trial, w') /\
    w_log w' = w_log w ++ calls /\ w_user w' = w_user w /\
    calls <> [] /\
    Forall (call_for (Trial.benchstring trial0) (Trial.setupstring trial0)) calls /\
    exists loops m times, trial = Trial.update trial0 loops m times.
Proof.
  destruct (bettertimeit_spec T U timer_timeit (Trial.benchstring trial0)
              (Trial.setupstring trial0) mintime numrepeat w)
    as (loops & pre & c & repeats & w' & E & L & Us & _ & _ & F & _ & _ & _ & _ & R).
  remember (map (fun x => (x / inject_Z loops)%Q)
                (map call_reading repeats ++ [call_reading c])) as times.
  assert (Hm : exists m, py_min times = Ok m).
  { subst times. destruct (map call_reading repeats ++ [call_reading c]) eqn:El.
    - destruct (map call_reading repeats); discriminate.
    - simpl. eauto. }
  destruct Hm as [m Hm].
  exists (Trial.update trial0 loops m times), ((pre ++ [c]) ++ repeats), w'.
  split.
  - unfold measure. rewrite (bind_ok _ _ _ _ _ E).
    unfold bind, lift. rewrite Hm. reflexivity.
  - split; [exact L|]. split; [exact Us|]. split.
    + destruct pre; discriminate.
    + split; [|eauto]. apply Forall_app. split; [exact F|].
      eapply Forall_impl; [|exact R]. intros r [H _]. exact H.
Qed.

Variable name : string.
Variables arenaindices benchindices :
  dict (K:=string) (V:=dict (K:=string) (V:=nat)).

Local Abbreviation make_trial' := (make_trial name arenaindices benchindices).
Local Abbreviation run_cell' :=
  (run_cell T U timer_timeit name arenaindices benchindices mintime numrepeat).
Local Abbreviation run_arenas' :=
  (run_arenas T U timer_timeit name arenaindices benchindices mintime numrepeat).
Local Abbreviation run_benches' :=
  (run_benches T U timer_timeit name arenaindices benchindices mintime numrepeat).

(** A cell whose trial dict cannot be built raises, with the world as it
    was. *)
Lemma run_cell_raise tf cb bench arena results (w : world T U) e :
  make_trial' bench arena = Raise e ->
  run_cell' tf cb bench arena results w = (Raise e, w).
Proof.
  intros H. unfold run_cell, bind, lift. rewrite H. reflexivity.
Qed.

(** The filter said [False]: the cell is skipped; the results and the
    timer's log are as before. *)
Lemma run_cell_skip (f : hook U) cb bench arena results (w : world T U) trial0 u :
  make_trial' bench arena = Ok trial0 ->
  f trial0 (w_user w) = (PyBool false, u) ->
  run_cell' (Some f) cb bench arena results w
  = (Ok (Continue results), with_user w u).
Proof.
  intros Ht Hf. unfold run_cell.
  unfold bind at 1. unfold lift. rewrite Ht.
  rewrite (bind_ok _ _ _ _ _ (says_False_some f trial0 w _ _ Hf)).
  reflexivity.
Qed.

(** The filter said anything else: the cell runs as without a filter. *)
Lemma run_cell_keep (f : hook U) cb bench arena results (w : world T U) trial0 v u :
  make_trial' bench arena = Ok trial0 ->
  f trial0 (w_user w) = (v, u) ->
  is_False v = false ->
  run_cell' (Some f) cb bench arena results w
  = run_cell' None cb bench arena results (with_user w u).
Proof.
  intros Ht Hf Hv. unfold run_cell.
  unfold bind at 1. unfold lift. rewrite Ht.
  rewrite (bind_ok _ _ _ _ _ (says_False_some f trial0 w _ _ Hf)).
  rewrite Hv. reflexivity.
Qed.

(** A cell that is not skipped is measured and its trial appended; then
    the callback decides. *)
Lemma run_cell_measured cb bench arena results (w wm : world T U) trial0 trial :
  make_trial' bench arena = Ok trial0 ->
  measure' trial0 w = (Ok trial, wm) ->
  run_cell' None cb bench arena results w
  = match cb with
    | None => (Ok (Continue (results ++ [trial])), wm)
    | Some g =>
        let (v, u) := g trial (w_user wm) in
        (Ok (if is_False v then Return (results ++ [trial])
             else Continue (results ++ [trial])), with_user wm u)
    end.
Proof.
  intros Ht Hm. unfold run_cell.
  unfold bind at 1. unfold lift. rewrite Ht.
  rewrite (bind_ok _ _ _ _ _ (says_False_none trial0 w)).
  rewrite (bind_ok _ _ _ _ _ Hm).
  destruct cb as [g|].
  - destruct (g trial (w_user wm)) as [v u] eqn:Eg.
    rewrite (bind_ok _ _ _ _ _ (says_False_some g trial wm _ _ Eg)).
    destruct (is_False v); reflexivity.
  - rewrite (bind_ok _ _ _ _ _ (says_False_none trial wm)). reflexivity.
Qed.

(** A cell that the filter lets pass, whatever the filter is. *)
Lemma run_cell_pass tf cb bench arena results (w wf wm : world T U) trial0 trial :
  make_trial' bench arena = Ok trial0 ->
  says_False T U tf trial0 w = (Ok false, wf) ->
  measure' trial0 wf = (Ok trial, wm) ->
  run_cell' tf cb bench arena results w
  = match cb with
    | None => (Ok (Continue (results ++ [trial])), wm)
    | Some g =>
        let (v, u) := g trial (w_user wm) in
        (Ok (if is_False v then Return (results ++ [trial])
             else Continue (results ++ [trial])), with_user wm u)
    end.
Proof.
  intros Ht Hs Hm.
  rewrite <- (run_cell_measured cb bench arena results wf wm trial0 trial Ht Hm).
  unfold run_cell.
  unfold bind at 1. unfold bind at 3. unfold lift. rewrite Ht.
  rewrite (bind_ok _ _ _ _ _ Hs).
  reflexivity.
Qed.

(** The inner loop over a list in two parts. *)
Lemma run_arenas_app tf cb bench al1 al2 results (w : world T U) :
  run_arenas' tf cb bench (al1 ++ al2) results w
  = match run_arenas' tf cb bench al1 results w with
    | (Ok (Continue r), w1) => run_arenas' tf cb bench al2 r w1
    | other => other
    end.
Proof.
  revert results w. induction al1 as [|a al1 IH]; intros results w.
  - reflexivity.
  - simpl. unfold bind.
    destruct (run_cell' tf cb bench a results w) as [[[r|r]|e] w1];
      [apply IH | reflexivity | reflexivity].
Qed.

Lemma run_benches_app tf cb bl1 bl2 arenalist results (w : world T U) :
  run_benches' tf cb (bl1 ++ bl2) arenalist results w
  = match run_benches' tf cb bl1 arenalist results w with
    | (Ok (Continue r), w1) => run_benches' tf cb bl2 arenalist r w1
    | other => other
    end.
Proof.
  revert results w. induction bl1 as [|b bl1 IH]; intros results w.
  - reflexivity.
  - simpl. unfold bind.
    destruct (run_arenas' tf cb b arenalist results w) as [[[r|r]|e] w1];
      [apply IH | reflexivity | reflexivity].
Qed.

(** Once a cell returns, so do both loops: no later cell is visited. *)
Lemma run_benches_return tf cb bl1 bench bl2 al1 arena al2 r1 r2 r3
      (w w1 w2 w3 : world T U) :
  run_benches' tf cb bl1 (al1 ++ arena :: al2) [] w = (Ok (Continue r1), w1) ->
  run_arenas' tf cb bench al1 r1 w1 = (Ok (Continue r2), w2) ->
  run_cell' tf cb bench arena r2 w2 = (Ok (Return r3), w3) ->
  run_benches' tf cb (bl1 ++ bench :: bl2) (al1 ++ arena :: al2) [] w
  = (Ok (Return r3), w3).
Proof.
  intros H1 H2 H3.
  rewrite run_benches_app, H1. simpl.
  unfold bind at 1. rewrite run_arenas_app, H2. simpl.
  unfold bind at 1. rewrite H3. reflexivity.
Qed.

(** A cell that lets the loop go on hands its results and its world to
    the next cell. *)
Lemma run_arenas_continue tf cb bench arena rest results r (w w1 : world T U) :
  run_cell' tf cb bench arena results w = (Ok (Continue r), w1) ->
  run_arenas' tf cb bench (arena :: rest) results w
  = run_arenas' tf cb bench rest r w1.
Proof.
  intros H. simpl. unfold bind. rewrite H. reflexivity.
Qed.
End RunFacts.

Section RunbenchmarksFacts.
Variables T U : Type.
Variable timer_timeit : T -> string -> string -> Z -> Q * T.
Variable getarenasetup :
  string -> string -> list string -> bool -> dict (K:=string) (V:=string).
Variable getbenchsetup : string -> string.
Variable getbenchstrings : string -> list string -> dict (K:=string) (V:=string).
Variable name : string.
Variables arenadict benchdict : dict (K:=string) (V:=list string).
Variables verbose cython : bool.
Variables (mintime : Q) (numrepeat : Z).

Local Abbreviation arenalist' := (getarenalist getarenasetup name arenadict cython).
Local Abbreviation benchlist' := (getbenchlist getbenchsetup getbenchstrings benchdict).
Local Abbreviation make_trial' :=
  (make_trial name (make_indices arenadict) (make_indices benchdict)).
Local Abbreviation measure' := (measure T U timer_timeit mintime numrepeat).
Local Abbreviation run_cell' :=
  (run_cell T U timer_timeit name (make_indices arenadict)
            (make_indices benchdict) mintime numrepeat).
Local Abbreviation run_arenas' :=
  (run_arenas T U timer_timeit name (make_indices arenadict)
              (make_indices benchdict) mintime numrepeat).
Local Abbreviation run_benches' :=
  (run_benches T U timer_timeit name (make_indices arenadict)
               (make_indices benchdict) mintime numrepeat).
Local Abbreviation runbenchmarks' :=
  (runbenchmarks T U timer_timeit getarenasetup getbenchsetup getbenchstrings
                 name arenadict benchdict verbose cython mintime numrepeat).

(** C5: take a run with a callback [cb], and the cell ([bench], [arena])
    at which the run has arrived after the earlier workloads [bl1] and the
    earlier candidates [al1] of this workload were dealt with, the trials
    [r2] completed so far.  If the filter lets the cell pass and [cb] says
    [False] for its measured trial, [runbenchmarks] returns normally with
    exactly the completed trials, the new one last, and the timer's log is
    the one found right after that trial's measurement: nothing is timed
    for the remaining cells [al2] and [bl2]. *)
Theorem runbenchmarks_cancel
        (tf : option (hook U)) (cb : hook U) (w : world T U)
        bl1 bench bl2 al1 arena al2 r1 w1 r2 w2 trial0 wf trial wm u :
  benchlist' = bl1 ++ bench :: bl2 ->
  arenalist' = al1 ++ arena :: al2 ->
  run_benches' tf (Some cb) bl1 arenalist' [] w = (Ok (Continue r1), w1) ->
  run_arenas' tf (Some cb) bench al1 r1 w1 = (Ok (Continue r2), w2) ->
  make_trial' bench arena = Ok trial0 ->
  says_False T U tf trial0 w2 = (Ok false, wf) ->
  measure' trial0 wf = (Ok trial, wm) ->
  cb trial (w_user wm) = (PyBool false, u) ->
  runbenchmarks' tf (Some cb) w = (Ok (r2 ++ [trial]), with_user wm u) /\
  List.length (r2 ++ [trial]) = S (List.length r2) /\
  w_log (with_user wm u) = w_log wm.
Proof.
  intros Hb Ha H1 H2 Ht Hs Hm Hc.
  split; [|split; [rewrite length_app; simpl; lia | reflexivity]].
  assert (Hcell : run_cell' tf (Some cb) bench arena r2 w2
                  = (Ok (Return (r2 ++ [trial])), with_user wm u)).
  { rewrite (run_cell_pass T U timer_timeit mintime numrepeat name _ _
               tf (Some cb) bench arena r2 w2 wf wm trial0 trial Ht Hs Hm).
    rewrite Hc. reflexivity. }
  unfold runbenchmarks.
  rewrite Ha in H1. rewrite Hb, Ha.
  erewrite bind_ok;
    [| exact (run_benches_return T U timer_timeit mintime numrepeat name _ _
                tf (Some cb) bl1 bench bl2 al1 arena al2 r1 r2 _ w w1 w2 _
                H1 H2 Hcell)].
  reflexivity.
Qed.

(** C10: a hook that returns anything but the object [False] changes
    nothing.  When the filter returns such a value the cell is measured
    and handled exactly as without a filter; when the callback returns
    such a value for the measured trial, the trial is kept and the loop
    goes on with the next candidate. *)
Theorem only_False_counts (v : pyobj) :
  v <> PyBool false ->
  is_False v = false /\
  (forall (f : hook U) cb bench arena results (w : world T U) trial0 u,
      make_trial' bench arena = Ok trial0 ->
      f trial0 (w_user w) = (v, u) ->
      run_cell' (Some f) cb bench arena results w
      = run_cell' None cb bench arena results (with_user w u) /\
      exists trial calls wm,
        measure' trial0 (with_user w u) = (Ok trial, wm) /\
        w_log wm = w_log w ++ calls /\ calls <> []) /\
  (forall tf (g : hook U) bench arena rest results (w wf wm : world T U)
          trial0 trial u,
      make_trial' bench arena = Ok trial0 ->
      says_False T U tf trial0 w = (Ok false, wf) ->
      measure' trial0 wf = (Ok trial, wm) ->
      g trial (w_user wm) = (v, u) ->
      run_cell' tf (Some g) bench arena results w
      = (Ok (Continue (results ++ [trial])), with_user wm u) /\
      run_arenas' tf (Some g) bench (arena :: rest) results w
      = run_arenas' tf (Some g) bench rest (results ++ [trial]) (with_user wm u)).
Proof.
  intros Hv.
  assert (Hf : is_False v = false).
  { destruct v as [| [|] | | | |]; try reflexivity. congruence. }
  split; [exact Hf|]. split.
  - intros f cb bench arena results w trial0 u Ht Hr. split.
    + exact (run_cell_keep T U timer_timeit mintime numrepeat name _ _
               f cb bench arena results w trial0 v u Ht Hr Hf).
    + destruct (measure_spec T U timer_timeit mintime numrepeat trial0 (with_user w u))
        as (trial & calls & wm & E & L & _ & N & _).
      exists trial, calls, wm. auto.
  - intros tf g bench arena rest results w wf wm trial0 trial u Ht Hs Hm Hg.
    assert (Hcell : run_cell' tf (Some g) bench arena results w
                    = (Ok (Continue (results ++ [trial])), with_user wm u)).
    { rewrite (run_cell_pass T U timer_timeit mintime numrepeat name _ _
                 tf (Some g) bench arena results w wf wm trial0 trial Ht Hs Hm).
      rewrite Hg, Hf. reflexivity. }
    split; [exact Hcell|].
    exact (run_arenas_continue T U timer_timeit mintime numrepeat name _ _
             tf (Some g) bench arena rest results _ w _ Hcell).
Qed.
End RunbenchmarksFacts.

(** ** Filtering *)

Lemma rmap_app {A B} (f : A -> result B) (l1 l2 : list A) (ys : list B) :
  rmap f (l1 ++ l2) = Ok ys ->
  exists ys1 ys2, rmap f l1 = Ok ys1 /\ rmap f l2 = Ok ys2 /\ ys = ys1 ++ ys2.
Proof.
  revert ys. induction l1 as [|x l1 IH]; intros ys H; simpl in *.
  - exists [], ys. auto.
  - destruct (f x) as [y|e]; simpl in *; [|discriminate].
    destruct (rmap f (l1 ++ l2)) as [ys'|e] eqn:E; simpl in *; [|discriminate].
    inversion H; subst ys.
    destruct (IH ys' eq_refl) as (ys1 & ys2 & -> & E2 & ->).
    exists (y :: ys1), ys2. auto.
Qed.

Lemma rmap_map {A B C} (f : B -> result C) (g : A -> B) (l : list A) :
  rmap f (map g l) = rmap (fun x => f (g x)) l.
Proof.
  induction l as [|x l IH]; simpl; [reflexivity|]. rewrite IH. reflexivity.
Qed.

Lemma make_trial_pending name ai bi bench arena trial0 :
  make_trial name ai bi bench arena = Ok trial0 -> Trial.pending trial0 = trial0.
Proof.
  destruct bench as [[[bf bn] bs] bb], arena as [[af an] asu]. unfold make_trial.
  destruct (split1 an name) as [parts|]; simpl; [|discriminate].
  destruct (unpack2 parts) as [ps|]; simpl; [|discriminate].
  destruct (get_index ai af an); simpl; [|discriminate].
  destruct (get_index bi bf bn); simpl; [|discriminate].
  intros H. inversion H. reflexivity.
Qed.

Section FilterFacts.
Variables T U : Type.
Variable timer_timeit : T -> string -> string -> Z -> Q * T.
Variables (mintime : Q) (numrepeat : Z).
Variable name : string.
Variables arenaindices benchindices :
  dict (K:=string) (V:=dict (K:=string) (V:=nat)).
Variable verdict : Trial.t -> pyobj.
Variable cb : option (hook U).
Hypothesis cb_goes_on :
  forall g, cb = Some g -> forall t u, is_False (fst (g t u)) = false.

Local Abbreviation make_trial' := (make_trial name arenaindices benchindices).
Local Abbreviation run_cell' :=
  (run_cell T U timer_timeit name arenaindices benchindices mintime numrepeat
            (Some (pure_hook verdict)) cb).
Local Abbreviation run_arenas' :=
  (run_arenas T U timer_timeit name arenaindices benchindices mintime numrepeat
              (Some (pure_hook verdict)) cb).
Local Abbreviation run_benches' :=
  (run_benches T U timer_timeit name arenaindices benchindices mintime numrepeat
               (Some (pure_hook verdict)) cb).

Local Abbreviation filtered := (@filtered_run T U verdict).

Lemma filtered_nil results w :
  filtered [] results w (Ok (Continue results), w).
Proof.
  exists [], [], w. rewrite !app_nil_r. repeat split; auto.
  intros t0 [].
Qed.

Lemma filtered_app ts1 ts2 results w out1 k :
  filtered ts1 results w out1 ->
  (forall r w1, filtered ts2 r w1 (k r w1)) ->
  filtered (ts1 ++ ts2) results w (and_then out1 k).
Proof.
  intros (new1 & calls1 & w1 & -> & L1 & P1 & F1 & M1) Hk.
  destruct (Hk (results ++ new1) w1) as (new2 & calls2 & w2 & E2 & L2 & P2 & F2 & M2).
  exists (new1 ++ new2), (calls1 ++ calls2), w2.
  split; [unfold and_then; rewrite E2, app_assoc; reflexivity|].
  split; [rewrite L2, L1, app_assoc; reflexivity|].
  split; [rewrite map_app, filter_app, P1, P2; reflexivity|].
  split.
  - apply Forall_app. split.
    + eapply Forall_impl; [|exact F1]. intros c (t0 & Hin & Hk0 & Hc).
      exists t0. split; [apply in_or_app; left; exact Hin | auto].
    + eapply Forall_impl; [|exact F2]. intros c (t0 & Hin & Hk0 & Hc).
      exists t0. split; [apply in_or_app; right; exact Hin | auto].
  - intros t0 Hin Hk0. apply in_app_or in Hin as [Hin | Hin].
    + destruct (M1 t0 Hin Hk0) as (c & Hc & Hf).
      exists c. split; [apply in_or_app; left; exact Hc | exact Hf].
    + destruct (M2 t0 Hin Hk0) as (c & Hc & Hf).
      exists c. split; [apply in_or_app; right; exact Hc | exact Hf].
Qed.

Lemma run_cell_filtered bench arena results (w : world T U) trial0 :
  make_trial' bench arena = Ok trial0 ->
  filtered [trial0] results w (run_cell' bench arena results w).
Proof.
  intros Ht.
  destruct (is_False (verdict trial0)) eqn:Ev.
  - assert (Hv : verdict trial0 = PyBool false).
    { destruct (verdict trial0) as [| [|] | | | |]; try discriminate. reflexivity. }
    rewrite (run_cell_skip T U timer_timeit mintime numrepeat name _ _
               (pure_hook verdict) cb bench arena results w trial0 (w_user w) Ht)
      by (unfold pure_hook; rewrite Hv; reflexivity).
    exists [], [], (with_user w (w_user w)).
    unfold kept. simpl. rewrite Ev. simpl. rewrite !app_nil_r.
    repeat split; auto.
    intros t0 [<- | []] Hk. unfold kept in Hk. rewrite Ev in Hk. discriminate.
  - rewrite (run_cell_keep T U timer_timeit mintime numrepeat name _ _
               (pure_hook verdict) cb bench arena results w trial0
               (verdict trial0) (w_user w) Ht eq_refl Ev).
    destruct (measure_spec T U timer_timeit mintime numrepeat trial0
                (with_user w (w_user w)))
      as (trial & calls & wm & E & L & Us & N & F & loops & m & times & ->).
    rewrite (run_cell_measured T U timer_timeit mintime numrepeat name _ _
               cb bench arena results _ wm trial0 _ Ht E).
    assert (Hp : map Trial.pending [Trial.update trial0 loops m times] = [trial0]).
    { simpl. f_equal. rewrite <- (make_trial_pending _ _ _ _ _ _ Ht) at 2.
      reflexivity. }
    assert (Hcalls :
              Forall (fun c => exists t0, In t0 [trial0] /\ kept verdict t0 = true /\
                        call_for (Trial.benchstring t0) (Trial.setupstring t0) c)
                     calls).
    { eapply Forall_impl; [|exact F]. intros c Hc. exists trial0.
      unfold kept. rewrite Ev. simpl. auto. }
    assert (Hall : forall t0, In t0 [trial0] -> kept verdict t0 = true ->
               exists c, In c calls /\
                 call_for (Trial.benchstring t0) (Trial.setupstring t0) c).
    { intros t0 [<- | []] _. destruct calls as [|c calls]; [congruence|].
      exists c. split; [left; reflexivity|]. inversion F; assumption. }
    unfold filtered_run, kept. simpl filter. rewrite Ev. simpl negb. cbv iota.
    destruct cb as [g|] eqn:Ecb.
    + destruct (g (Trial.update trial0 loops m times) (w_user wm)) as [v u] eqn:Eg.
      pose proof (cb_goes_on g eq_refl (Trial.update trial0 loops m times) (w_user wm)) as Hg.
      rewrite Eg in Hg. simpl in Hg. rewrite Hg.
      exists [Trial.update trial0 loops m times], calls, (with_user wm u).
      repeat split; auto.
    + exists [Trial.update trial0 loops m times], calls, wm.
      repeat split; auto.
Qed.

Lemma run_arenas_filtered bench arenalist :
  forall ts results (w : world T U),
    rmap (make_trial' bench) arenalist = Ok ts ->
    filtered ts results w (run_arenas' bench arenalist results w).
Proof.
  induction arenalist as [|a al IH]; intros ts results w Hts; simpl in Hts.
  - inversion Hts. apply filtered_nil.
  - destruct (make_trial' bench a) as [t0|] eqn:Et; simpl in Hts; [|discriminate].
    destruct (rmap (make_trial' bench) al) as [ts'|] eqn:Er; simpl in Hts;
      [|discriminate].
    inversion Hts; subst ts. clear Hts.
    assert (E : run_arenas' bench (a :: al) results w
                = and_then (run_cell' bench a results w)
                           (fun r w1 => run_arenas' bench al r w1)).
    { simpl. unfold bind, and_then.
      destruct (run_cell' bench a results w) as [[[r|r]|e] w1]; reflexivity. }
    rewrite E. change (t0 :: ts') with ([t0] ++ ts').
    apply (filtered_app [t0] ts' results w (run_cell' bench a results w)
             (fun r w1 => run_arenas' bench al r w1)).
    + apply run_cell_filtered. exact Et.
    + intros r w1. apply IH. reflexivity.
Qed.

Lemma run_benches_filtered benchlist arenalist :
  forall ts results (w : world T U),
    all_trials name arenaindices benchindices benchlist arenalist = Ok ts ->
    filtered ts results w (run_benches' benchlist arenalist results w).
Proof.
  unfold all_trials.
  induction benchlist as [|b bl IH]; intros ts results w Hts; simpl in Hts.
  - inversion Hts. apply filtered_nil.
  - apply rmap_app in Hts as (ts1 & ts2 & H1 & H2 & ->).
    rewrite rmap_map in H1. simpl in H1.
    assert (E : run_benches' (b :: bl) arenalist results w
                = and_then (run_arenas' b arenalist results w)
                           (fun r w1 => run_benches' bl arenalist r w1)).
    { simpl. unfold bind, and_then.
      destruct (run_arenas' b arenalist results w) as [[[r|r]|e] w1]; reflexivity. }
    rewrite E.
    apply (filtered_app ts1 ts2 results w (run_arenas' b arenalist results w)
             (fun r w1 => run_benches' bl arenalist r w1)).
    + apply run_arenas_filtered. exact H1.
    + intros r w1. apply IH. exact H2.
Qed.
End FilterFacts.

Section RunbenchmarksFilter.
Variables T U : Type.
Variable timer_timeit : T -> string -> string -> Z -> Q * T.
Variable getarenasetup :
  string -> string -> list string -> bool -> dict (K:=string) (V:=string).
Variable getbenchsetup : string -> string.
Variable getbenchstrings : string -> list string -> dict (K:=string) (V:=string).
Variable name : string.
Variables arenadict benchdict : dict (K:=string) (V:=list string).
Variables verbose cython : bool.
Variables (mintime : Q) (numrepeat : Z).

Local Abbreviation arenalist' := (getarenalist getarenasetup name arenadict cython).
Local Abbreviation benchlist' := (getbenchlist getbenchsetup getbenchstrings benchdict).
Local Abbreviation make_trial' :=
  (make_trial name (make_indices arenadict) (make_indices benchdict)).
Local Abbreviation run_cell' :=
  (run_cell T U timer_timeit name (make_indices arenadict)
            (make_indices benchdict) mintime numrepeat).
Local Abbreviation run_arenas' :=
  (run_arenas T U timer_timeit name (make_indices arenadict)
              (make_indices benchdict) mintime numrepeat).
Local Abbreviation runbenchmarks' :=
  (runbenchmarks T U timer_timeit getarenasetup getbenchsetup getbenchstrings
                 name arenadict benchdict verbose cython mintime numrepeat).

(** C6.  (1) Whatever the filter and the callback are, a cell for which
    the filter says [False] leaves the results and the timer's log as they
    were, and the loop goes on with the next candidate.  (2) For a filter
    whose answer depends on the trial only, in a run that no callback
    cancels and in which every trial dict can be built: [runbenchmarks]
    returns the measured trials of exactly the cells that the filter did
    not reject, in the order of the loops; every call of the timer is for
    one of these cells, and each of them was timed.  (3) With two
    workloads, three candidates and a filter that rejects the candidate
    [zeros_mul], the result has the four trials of the other two
    candidates, and no call of the timer has the setup of [zeros_mul]. *)
Theorem runbenchmarks_filter :
  (forall (f : hook U) cb bench arena rest results (w : world T U) trial0 u,
      make_trial' bench arena = Ok trial0 ->
      f trial0 (w_user w) = (PyBool false, u) ->
      run_cell' (Some f) cb bench arena results w
      = (Ok (Continue results), with_user w u) /\
      w_log (with_user w u) = w_log w /\
      run_arenas' (Some f) cb bench (arena :: rest) results w
      = run_arenas' (Some f) cb bench rest results (with_user w u)) /\
  (forall verdict cb (w : world T U) trials0,
      (forall g, cb = Some g -> forall t u, is_False (fst (g t u)) = false) ->
      all_trials name (make_indices arenadict) (make_indices benchdict)
                 benchlist' arenalist' = Ok trials0 ->
      exists results calls w',
        runbenchmarks' (Some (pure_hook verdict)) cb w = (Ok results, w') /\
        w_log w' = w_log w ++ calls /\
        map Trial.pending results = filter (kept verdict) trials0 /\
        Forall (fun c => exists t0, In t0 trials0 /\ kept verdict t0 = true /\
                  call_for (Trial.benchstring t0) (Trial.setupstring t0) c)
               calls /\
        (forall t0, In t0 trials0 -> kept verdict t0 = true ->
           exists c, In c calls /\
                     call_for (Trial.benchstring t0) (Trial.setupstring t0) c)) /\
  (exists results w',
      demo_run (Some (reject_arena "zeros_mul")) None = (Ok results, w') /\
      cells_of results
      = [("bench_n2", "zeros_repeat"); ("bench_n2", "zeros_slow");
         ("bench_n10", "zeros_repeat"); ("bench_n10", "zeros_slow")] /\
      List.length results = 4%nat /\
      forallb (fun c => negb (String.eqb (call_setup c)
                 "import bench_zeros.py;load zeros_mul from arena_zeros.py;"))
              (w_log w') = true).
Proof.
  split; [|split].
  - intros f cb bench arena rest results w trial0 u Ht Hf.
    pose proof (run_cell_skip T U timer_timeit mintime numrepeat name _ _
                  f cb bench arena results w trial0 u Ht Hf) as Hcell.
    split; [exact Hcell|]. split; [reflexivity|].
    exact (run_arenas_continue T U timer_timeit mintime numrepeat name _ _
             (Some f) cb bench arena rest results _ w _ Hcell).
  - intros verdict cb w trials0 Hcb Hts.
    set (cb' := match cb with
                | None => if verbose then Some (ProgressPrinter U) else None
                | Some c => Some c
                end).
    assert (Hcb' : forall g, cb' = Some g ->
                             forall t u, is_False (fst (g t u)) = false).
    { intros g Hg. unfold cb' in Hg. destruct cb as [c|].
      - apply Hcb. exact Hg.
      - destruct verbose; [|discriminate]. inversion Hg. reflexivity. }
    destruct (run_benches_filtered T U timer_timeit mintime numrepeat name _ _
                verdict cb' Hcb' benchlist' arenalist' trials0 [] w Hts)
      as (new & calls & w' & E & L & P & F & M).
    exists new, calls, w'. split; [|auto].
    unfold runbenchmarks. fold cb'.
    erewrite bind_ok; [|exact E]. reflexivity.
  - eexists. eexists. split; [vm_compute; reflexivity|].
    split; [reflexivity|]. split; reflexivity.
Qed.
End RunbenchmarksFilter.

(** ** The demo run *)

Lemma demo_lists :
  getbenchlist demo_benchsetup demo_benchstrings demo_benchdict
  = [] ++ demo_bench "bench_n2" :: [demo_bench "bench_n10"] /\
  getarenalist demo_arenasetup demo_name demo_arenadict false
  = [demo_arena "zeros_mul"] ++ demo_arena "zeros_repeat" :: [demo_arena "zeros_slow"].
Proof. split; reflexivity. Qed.

Lemma runbenchmarks_cancel_witness :
  exists results w',
    demo_run None (Some (stop_after 2)) = (Ok results, w') /\
    cells_of results = [("bench_n2", "zeros_mul"); ("bench_n2", "zeros_repeat")] /\
    List.length results = 2%nat.
Proof.
  pose proof (runbenchmarks_cancel nat nat (steady_timer (1 # 1000))
                demo_arenasetup demo_benchsetup demo_benchstrings
                demo_name demo_arenadict demo_benchdict false false (1 # 4) 3
                None (stop_after 2) (world0 0%nat)
                [] (demo_bench "bench_n2") [demo_bench "bench_n10"]
                [demo_arena "zeros_mul"] (demo_arena "zeros_repeat")
                [demo_arena "zeros_slow"]) as H.
  edestruct H as (E & _ & _);
    [reflexivity | reflexivity | vm_compute; reflexivity | vm_compute; reflexivity
     | vm_compute; reflexivity | vm_compute; reflexivity | vm_compute; reflexivity
     | vm_compute; reflexivity |].
  eexists. eexists. split; [exact E|]. split; reflexivity.
Defined.

Lemma runbenchmarks_filter_witness :
  exists results calls w' trials0,
    all_trials demo_name (make_indices demo_arenadict) (make_indices demo_benchdict)
               (getbenchlist demo_benchsetup demo_benchstrings demo_benchdict)
               (getarenalist demo_arenasetup demo_name demo_arenadict false)
    = Ok trials0 /\
    List.length trials0 = 6%nat /\
    demo_run (Some (reject_arena "zeros_mul")) None = (Ok results, w') /\
    w_log w' = w_log (world0 0%nat) ++ calls /\
    map Trial.pending results = filter (kept (not_arena "zeros_mul")) trials0 /\
    List.length (filter (kept (not_arena "zeros_mul")) trials0) = 4%nat.
Proof.
  destruct (runbenchmarks_filter nat nat (steady_timer (1 # 1000))
              demo_arenasetup demo_benchsetup demo_benchstrings
              demo_name demo_arenadict demo_benchdict false false (1 # 4) 3)
    as (_ & H & _).
  edestruct (H (not_arena "zeros_mul") None (world0 0%nat))
    as (results & calls & w' & E & L & P & _);
    [discriminate | vm_compute; reflexivity |].
  exists results, calls, w'. eexists.
  split; [vm_compute; reflexivity|].
  split; [reflexivity|].
  split; [exact E|]. split; [exact L|]. split; [exact P|]. reflexivity.
Defined.

Lemma only_False_counts_witness :
  is_False PyNone = false /\
  truthy PyNone = false /\
  run_cell nat nat (steady_timer (1 # 1000)) demo_name
           (make_indices demo_arenadict) (make_indices demo_benchdict) (1 # 4) 3
           (Some (always PyNone)) None
           (demo_bench "bench_n2") (demo_arena "zeros_mul") [] (world0 0%nat)
  = run_cell nat nat (steady_timer (1 # 1000)) demo_name
             (make_indices demo_arenadict) (make_indices demo_benchdict) (1 # 4) 3
             None None
             (demo_bench "bench_n2") (demo_arena "zeros_mul") []
             (with_user (world0 0%nat) 1%nat).
Proof.
  assert (Hv : PyNone <> PyBool false) by discriminate.
  destruct (only_False_counts nat nat (steady_timer (1 # 1000)) demo_name
              demo_arenadict demo_benchdict (1 # 4) 3 PyNone Hv)
    as (H1 & H2 & _).
  split; [exact H1|]. split; [reflexivity|].
  edestruct (H2 (always PyNone) None (demo_bench "bench_n2")
                (demo_arena "zeros_mul") [] (world0 0%nat)) as (E & _);
    [vm_compute; reflexivity | reflexivity | exact E].
Defined.

(** ** Dictionaries *)

Section DictFacts.
Context {K V : Type} (eqb : K -> K -> bool).
Hypothesis eqb_sym : forall a b, eqb a b = eqb b a.
Hypothesis eqb_trans : forall a b c, eqb a b = true -> eqb b c = true -> eqb a c = true.

Lemma dict_get_set (k x : K) (v : V) (d : dict) :
  dict_get eqb x (dict_set eqb k v d)
  = if eqb k x then Some v else dict_get eqb x d.
Proof.
  induction d as [|[k' v'] d IH]; simpl; [reflexivity|].
  destruct (eqb k' k) eqn:Ek; simpl.
  - destruct (eqb k' x) eqn:Ex.
    + rewrite eqb_sym in Ek. rewrite (eqb_trans _ _ _ Ek Ex). reflexivity.
    + destruct (eqb k x) eqn:Ekx; [|reflexivity].
      rewrite (eqb_trans _ _ _ Ek Ekx) in Ex. discriminate.
  - rewrite IH. destruct (eqb k' x) eqn:Ex; [|reflexivity].
    destruct (eqb k x) eqn:Ekx; [|reflexivity].
    rewrite eqb_sym in Ekx. rewrite (eqb_trans _ _ _ Ex Ekx) in Ek. discriminate.
Qed.

Lemma In_dict_set (k k' : K) (v v' : V) (d : dict) :
  In (k', v') (dict_set eqb k v d) -> In (k', v') d \/ v' = v.
Proof.
  induction d as [|[k0 v0] d IH]; simpl.
  - intros [H | []]. inversion H. auto.
  - destruct (eqb k0 k); simpl.
    + intros [H | H]; [inversion H; auto | auto].
    + intros [H | H]; [auto|]. destruct (IH H); auto.
Qed.

Lemma dict_get_In (k : K) (v : V) (d : dict) :
  dict_get eqb k d = Some v -> exists k', In (k', v) d.
Proof.
  induction d as [|[k0 v0] d IH]; simpl; [discriminate|].
  destruct (eqb k0 k).
  - intros H. inversion H. subst. eauto.
  - intros H. destruct (IH H) as [k' Hk]. eauto.
Qed.
End DictFacts.

Lemma Qeq_bool_sym (a b : Q) : Qeq_bool a b = Qeq_bool b a.
Proof.
  destruct (Qeq_bool a b) eqn:E1, (Qeq_bool b a) eqn:E2; try reflexivity.
  - apply Qeq_bool_iff in E1. symmetry in E1. apply Qeq_bool_iff in E1. congruence.
  - apply Qeq_bool_iff in E2. symmetry in E2. apply Qeq_bool_iff in E2. congruence.
Qed.

Lemma Qeq_bool_trans (a b c : Q) :
  Qeq_bool a b = true -> Qeq_bool b c = true -> Qeq_bool a c = true.
Proof.
  rewrite !Qeq_bool_iff. intros H1 H2. rewrite H1. exact H2.
Qed.

(** [dict(pairs)[x]] is the value of the last pair with key [x]. *)
Lemma dict_of_lookup_last {V} (x : Q) (pairs : list (Q * V)) :
  dict_get Qeq_bool x (dict_of Qeq_bool pairs) = lookup_last x pairs.
Proof.
  unfold dict_of.
  assert (G : forall d,
             dict_get Qeq_bool x
               (fold_left (fun d kv => dict_set Qeq_bool (fst kv) (snd kv) d) pairs d)
             = match lookup_last x pairs with
               | Some v => Some v
               | None => dict_get Qeq_bool x d
               end).
  { induction pairs as [|[k v] r IH]; intros d; simpl; [reflexivity|].
    rewrite IH. destruct (lookup_last x r); [reflexivity|].
    rewrite (dict_get_set Qeq_bool Qeq_bool_sym Qeq_bool_trans).
    destruct (Qeq_bool k x); reflexivity. }
  rewrite G. destruct (lookup_last x pairs); reflexivity.
Qed.

(** ** Ranks *)

Lemma Qltb_asym (a b : Q) : Qltb a b = true -> Qltb b a = false.
Proof.
  rewrite Qltb_lt, Qltb_ge. apply Qlt_le_weak.
Qed.

Lemma Qltb_not_after_trans (a b c : Q) :
  not_after Qltb a b -> not_after Qltb b c -> not_after Qltb a c.
Proof.
  unfold not_after. rewrite !Qltb_ge. apply Qle_trans.
Qed.

(** [sorted(times)] is ascending and holds the same times. *)
Lemma sorted_times (secs : list Q) :
  StronglySorted Qle (sorted Qltb (fun x => x) secs) /\
  Permutation (sorted Qltb (fun x => x) secs) secs.
Proof.
  split; [|apply sorted_perm].
  pose proof (sorted_sorted Qltb (fun x : Q => x) Qltb_asym Qltb_not_after_trans secs) as H.
  induction H as [|x l Hl IH Hall]; constructor; [exact IH|].
  eapply Forall_impl; [|exact Hall].
  intros y Hy. unfold key_le, not_after in Hy. apply Qltb_ge in Hy. exact Hy.
Qed.

Lemma count_le_perm (x : Q) (l l' : list Q) :
  Permutation l l' -> count_le x l = count_le x l'.
Proof.
  intros H. unfold count_le. induction H; simpl.
  - reflexivity.
  - destruct (Qle_bool x0 x); simpl; congruence.
  - destruct (Qle_bool x0 x), (Qle_bool y x); reflexivity.
  - congruence.
Qed.

Lemma count_le_mono (x y : Q) (l : list Q) :
  (x <= y)%Q -> (count_le x l <= count_le y l)%nat.
Proof.
  intros Hxy. unfold count_le. induction l as [|z l IH]; simpl; [lia|].
  destruct (Qle_bool z x) eqn:E1.
  - apply Qle_bool_iff in E1.
    assert (E2 : Qle_bool z y = true)
      by (apply Qle_bool_iff; eapply Qle_trans; eassumption).
    rewrite E2. simpl. lia.
  - destruct (Qle_bool z y); simpl; lia.
Qed.

Lemma count_le_compat (x y : Q) (l : list Q) :
  (x == y)%Q -> count_le x l = count_le y l.
Proof.
  intros H. apply Nat.le_antisymm; apply count_le_mono; rewrite H; apply Qle_refl.
Qed.

(** In an ascending list, the last position of [x], counted from
    [start], is [start - 1] plus the number of members that are at most
    [x]. *)
Lemma lookup_last_sorted (x : Q) (l : list Q) :
  StronglySorted Qle l ->
  forall start,
    lookup_last x (combine l (seq start (List.length l)))
    = if existsb (fun k => Qeq_bool k x) l
      then Some (start + count_le x l - 1)%nat
      else None.
Proof.
  induction 1 as [|k l Hl IH Hall]; intros start; [reflexivity|].
  simpl. rewrite IH.
  rewrite Forall_forall in Hall.
  destruct (existsb (fun k0 => Qeq_bool k0 x) l) eqn:Ex.
  - rewrite orb_true_r.
    apply existsb_exists in Ex as (y & Hy & Eyx).
    apply Qeq_bool_iff in Eyx.
    assert (Hk : Qle_bool k x = true).
    { apply Qle_bool_iff. rewrite <- Eyx. apply Hall. exact Hy. }
    unfold count_le. simpl. rewrite Hk. simpl.
    assert (0 < List.length (filter (fun y0 => Qle_bool y0 x) l))%nat.
    { assert (In y (filter (fun y0 => Qle_bool y0 x) l)).
      { apply filter_In. split; [exact Hy|]. apply Qle_bool_iff.
        rewrite Eyx. apply Qle_refl. }
      destruct (filter (fun y0 => Qle_bool y0 x) l); [contradiction | simpl; lia]. }
    f_equal. lia.
  - rewrite orb_false_r. destruct (Qeq_bool k x) eqn:Ek; [|reflexivity].
    apply Qeq_bool_iff in Ek.
    assert (Hnone : filter (fun y => Qle_bool y x) l = []).
    { clear IH. induction l as [|y l IHl]; [reflexivity|].
      simpl in Ex. apply orb_false_iff in Ex as [Ey Ex].
      inversion Hl; subst.
      simpl. destruct (Qle_bool y x) eqn:Eyx.
      - exfalso. apply Qle_bool_iff in Eyx.
        assert (Hky : (k <= y)%Q) by (apply Hall; left; reflexivity).
        assert (Hyx : (y == x)%Q).
        { apply Qle_antisym; [exact Eyx|]. rewrite <- Ek. exact Hky. }
        apply Qeq_bool_iff in Hyx. congruence.
      - apply IHl; auto. intros z Hz. apply Hall. right. exact Hz. }
    unfold count_le. simpl.
    assert (Hkx : Qle_bool k x = true)
      by (apply Qle_bool_iff; rewrite Ek; apply Qle_refl).
    rewrite Hkx, Hnone. simpl. f_equal. lia.
Qed.

Lemma rank_dict_sorted (x : Q) (secs : list Q) :
  dict_get Qeq_bool x (rank_dict (sorted Qltb (fun y => y) secs))
  = if existsb (fun k => Qeq_bool k x) (sorted Qltb (fun y => y) secs)
    then Some (count_le x secs)
    else None.
Proof.
  destruct (sorted_times secs) as [Hs Hp].
  unfold rank_dict. rewrite dict_of_lookup_last.
  rewrite (lookup_last_sorted x _ Hs 1).
  destruct (existsb _ _); [|reflexivity].
  rewrite (count_le_perm x _ _ Hp). f_equal. lia.
Qed.

Lemma rmap_Forall2 {A B} (f : A -> result B) (l : list A) (ys : list B) :
  rmap f l = Ok ys -> Forall2 (fun x y => f x = Ok y) l ys.
Proof.
  revert ys. induction l as [|x l IH]; intros ys H; simpl in H.
  - inversion H. constructor.
  - destruct (f x) as [y|] eqn:Ef; simpl in H; [|discriminate].
    destruct (rmap f l) as [ys'|]; simpl in H; [|discriminate].
    inversion H. subst. constructor; [exact Ef | apply IH; reflexivity].
Qed.

Lemma Forall2_In_r {A B} (R : A -> B -> Prop) (l : list A) (l' : list B) (y : B) :
  Forall2 R l l' -> In y l' -> exists x, In x l /\ R x y.
Proof.
  induction 1 as [|a b l l' Hab H IH]; simpl; [contradiction|].
  intros [<- | Hy]; [eauto|].
  destruct (IH Hy) as (x & Hx & Hr). eauto.
Qed.

Lemma list_get_ok {A} (l : list A) (i : nat) :
  (i < List.length l)%nat -> exists x, list_get l i = Ok x.
Proof.
  intros H. unfold list_get.
  destruct (nth_error l i) as [x|] eqn:E; [eauto|].
  apply nth_error_None in E. lia.
Qed.

Lemma rmap_ok {A B} (f : A -> result B) (l : list A) :
  (forall x, In x l -> exists y, f x = Ok y) -> exists ys, rmap f l = Ok ys.
Proof.
  induction l as [|x l IH]; intros H; simpl; [eauto|].
  destruct (H x (or_introl eq_refl)) as [y Ey]. rewrite Ey. simpl.
  destruct IH as [ys Eys]; [intros z Hz; apply H; right; exact Hz|].
  rewrite Eys. simpl. eauto.
Qed.

Section TableFacts.
Variable fmt_3g : Q -> string.
Variables arenaprefixes benchprefixes : prefix_arg.

Local Abbreviation finish_datum' := (finish_datum fmt_3g).
Local Abbreviation finish_row' := (finish_row fmt_3g).
Local Abbreviation build_table' := (_build_table fmt_3g arenaprefixes benchprefixes).

Lemma finish_datum_spec minval ranks scale units raw d :
  finish_datum' minval ranks scale units raw = Ok d ->
  Datum.raw_seconds raw = Some (Datum.seconds d) /\
  dict_get Qeq_bool (Datum.seconds d) ranks = Some (Datum.rank d) /\
  Qeq_bool minval 0 = false /\
  Datum.reltime d = (Datum.seconds d / minval)%Q /\
  Datum.isbest d = Qeq_bool (Datum.seconds d) minval /\
  Datum.trialdata d = Datum.raw_trialdata raw /\
  Datum.scale d = scale /\ Datum.units d = units /\
  Datum.time d = (Datum.seconds d * scale)%Q.
Proof.
  unfold finish_datum, raw_time, float_div.
  destruct (Datum.raw_seconds raw) as [s|]; simpl; [|discriminate].
  destruct (dict_get Qeq_bool s ranks) as [r|] eqn:Er; simpl; [|discriminate].
  destruct (Qeq_bool minval 0); simpl; [discriminate|].
  intros H. inversion H. simpl. repeat split; (reflexivity || exact Er).
Qed.

(** The times of the cells of a finished row are the times of the raw
    row, in the same order. *)
Lemma finished_times minval ranks scale units
      (arenadict : dict (K:=nat) (V:=Datum.raw)) (row : dict (K:=nat) (V:=Datum.t))
      (secs : list Q) :
  rmap raw_time (dict_values arenadict) = Ok secs ->
  rmap (fun kv => d <-? finish_datum' minval ranks scale units (snd kv) ;
                  Ok (fst kv, d)) arenadict = Ok row ->
  map Datum.seconds (map snd row) = secs.
Proof.
  revert row secs. induction arenadict as [|[k raw] ad IH]; intros row secs Hs Hr;
    simpl in Hs, Hr.
  - inversion Hs. inversion Hr. reflexivity.
  - unfold raw_time at 1 in Hs.
    destruct (finish_datum' minval ranks scale units raw) as [d|] eqn:Ed;
      simpl in Hr; [|discriminate].
    destruct (rmap _ ad) as [row'|] eqn:Er in Hr; simpl in Hr; [|discriminate].
    inversion Hr; subst row. clear Hr.
    apply finish_datum_spec in Ed as (E1 & _).
    rewrite E1 in Hs. simpl in Hs.
    destruct (rmap raw_time (dict_values ad)) as [secs'|] eqn:Es; simpl in Hs;
      [|discriminate].
    inversion Hs; subst secs. simpl. f_equal.
    apply IH; [reflexivity | exact Er].
Qed.

Lemma finish_row_analysed (arenadict : dict (K:=nat) (V:=Datum.raw))
      (row : dict (K:=nat) (V:=Datum.t)) :
  (forall raw, In raw (dict_values arenadict) ->
               Datum.raw_seconds raw = Trial.mintime (Datum.raw_trialdata raw)) ->
  finish_row' arenadict = Ok row ->
  row_analysed (map snd row) /\
  forall d, In d (map snd row) ->
            exists raw, In raw (dict_values arenadict) /\
                        Datum.trialdata d = Datum.raw_trialdata raw.
Proof.
  intros Hraw. unfold finish_row.
  destruct (rmap raw_time (dict_values arenadict)) as [secs|] eqn:Es; simpl;
    [|discriminate].
  destruct (sorted_times secs) as [Hs Hp].
  remember (sorted Qltb (fun x => x) secs) as sortedvals.
  destruct sortedvals as [|minval rest] eqn:Esv; [discriminate|].
  cbn [list_get nth_error rbind].
  destruct (list_get (minval :: rest) (List.length (minval :: rest) - 1)) as [maxval|];
    simpl; [|discriminate].
  destruct (best_units maxval) as [scale units].
  intros Hr.
  pose proof (finished_times _ _ _ _ _ _ _ Es Hr) as Hsecs.
  pose proof (rmap_Forall2 _ _ _ Hr) as HF.
  assert (Hd : forall d, In d (map snd row) ->
             exists kv, In kv arenadict /\
               finish_datum' minval (rank_dict (minval :: rest)) scale
                             (units ++ "s")%string (snd kv) = Ok d).
  { intros d Hin. apply in_map_iff in Hin as ([k d'] & <- & Hin).
    destruct (Forall2_In_r _ _ _ _ HF Hin) as (kv & Hkv & Hf).
    exists kv. split; [exact Hkv|].
    destruct (finish_datum' _ _ _ _ (snd kv)); simpl in Hf; [|discriminate].
    inversion Hf. reflexivity. }
  assert (Hmin : forall s, In s secs -> (minval <= s)%Q).
  { intros s Hin. apply (Permutation_in _ (Permutation_sym Hp)) in Hin.
    destruct Hin as [<- | Hin]; [apply Qle_refl|].
    inversion Hs as [|? ? _ Hall]; subst. rewrite Forall_forall in Hall.
    apply Hall. exact Hin. }
  assert (Hin_min : In minval secs)
    by (apply (Permutation_in _ Hp); left; reflexivity).
  split.
  - exists minval. split; [|split; [|split]].
    + intros d Hin. apply Hmin. rewrite <- Hsecs. apply in_map. exact Hin.
    + rewrite <- Hsecs in Hin_min. apply in_map_iff in Hin_min as (d & E & Hin).
      exists d. split; [exact Hin|]. rewrite E. reflexivity.
    + rewrite <- Hsecs in Hin_min. apply in_map_iff in Hin_min as (d & _ & Hin).
      destruct (Hd d Hin) as (kv & _ & Hf).
      apply finish_datum_spec in Hf as (_ & _ & Hz & _).
      intros Hq. apply Qeq_bool_iff in Hq. congruence.
    + intros d Hin. destruct (Hd d Hin) as (kv & Hkv & Hf).
      apply finish_datum_spec in Hf as (E1 & E2 & _ & E4 & E5 & E6 & _).
      split; [exact E5|]. split; [exact E4|]. split.
      * rewrite Heqsortedvals in E2. rewrite rank_dict_sorted in E2.
        destruct (existsb _ _) in E2; [|discriminate].
        inversion E2. rewrite Hsecs. reflexivity.
      * rewrite E6, <- E1. symmetry. apply Hraw.
        apply in_map. exact Hkv.
  - intros d Hin. destruct (Hd d Hin) as (kv & Hkv & Hf).
    apply finish_datum_spec in Hf as (_ & _ & _ & _ & _ & E6 & _).
    exists (snd kv). split; [apply in_map; exact Hkv | exact E6].
Qed.

Lemma row_analysed_perm (row row' : list Datum.t) :
  Permutation row row' -> row_analysed row -> row_analysed row'.
Proof.
  intros Hp (minval & Hmin & (d0 & Hd0 & Ed0) & Hnz & Hall).
  assert (Hin : forall d, In d row' -> In d row)
    by (intros d; apply Permutation_in, Permutation_sym, Hp).
  exists minval. split; [|split; [|split]].
  - intros d Hd. apply Hmin, Hin, Hd.
  - exists d0. split; [apply (Permutation_in _ Hp); exact Hd0 | exact Ed0].
  - exact Hnz.
  - intros d Hd. destruct (Hall d (Hin d Hd)) as (E1 & E2 & E3 & E4).
    repeat split; try assumption.
    rewrite E3. apply count_le_perm. apply Permutation_map. exact Hp.
Qed.

(** Every element stored by the first loop of [_build_table] was built
    from one of the trials. *)
Lemma group_trials_raw (trials : list Trial.t) :
  forall bi row ai raw,
    In (bi, row) (group_trials arenaprefixes benchprefixes trials) ->
    In (ai, raw) row ->
    exists trial, In trial trials /\ raw = make_raw arenaprefixes benchprefixes trial.
Proof.
  unfold group_trials.
  assert (G : forall (acc : dict (K:=nat) (V:=dict (K:=nat) (V:=Datum.raw))),
             (forall bi row ai raw, In (bi, row) acc -> In (ai, raw) row ->
                exists trial, In trial trials /\
                              raw = make_raw arenaprefixes benchprefixes trial) ->
             forall ts, (forall t, In t ts -> In t trials) ->
             forall bi row ai raw,
               In (bi, row) (fold_left (add_trial arenaprefixes benchprefixes) ts acc) ->
               In (ai, raw) row ->
               exists trial, In trial trials /\
                             raw = make_raw arenaprefixes benchprefixes trial).
  { intros acc Hacc ts. revert acc Hacc.
    induction ts as [|t ts IH]; intros acc Hacc Hts; simpl; [exact Hacc|].
    apply IH; [|intros t' Ht'; apply Hts; right; exact Ht'].
    intros bi row ai raw Hrow Hraw. unfold add_trial in Hrow.
    apply In_dict_set in Hrow as [Hrow | ->]; [eapply Hacc; eassumption|].
    apply In_dict_set in Hraw as [Hraw | ->].
    - destruct (dict_get Nat.eqb (Trial.benchindex t) acc) as [row0|] eqn:Eg;
        [|contradiction].
      apply dict_get_In in Eg as [k' Hk']. eapply Hacc; eassumption.
    - exists t. split; [apply Hts; left; reflexivity | reflexivity]. }
  apply G; [intros ? ? ? ? [] | auto].
Qed.

(** Every row of a table that was built is analysed, and its cells come
    from the trials. *)
Lemma build_table_rows (trials : list Trial.t) (tbl : table) :
  build_table' trials = Ok tbl ->
  forall row, In row tbl ->
    row_analysed row /\ forall d, In d row -> In (Datum.trialdata d) trials.
Proof.
  unfold _build_table.
  destruct (rmap _ (group_trials arenaprefixes benchprefixes trials))
    as [bybench|] eqn:Eb; simpl; [|discriminate].
  intros H row Hrow. inversion H; subst tbl. clear H.
  apply in_map_iff in Hrow as ([bi frow] & <- & Hkv). simpl.
  apply (Permutation_in _ (sorted_perm Nat.ltb fst bybench)) in Hkv.
  destruct (Forall2_In_r _ _ _ _ (rmap_Forall2 _ _ _ Eb) Hkv) as ([bi0 raws] & Hin0 & Hf).
  simpl in Hf.
  destruct (finish_row' raws) as [frow'|] eqn:Ef; simpl in Hf; [|discriminate].
  inversion Hf; subst bi0 frow'. clear Hf.
  assert (Hraw : forall raw, In raw (dict_values raws) ->
                   exists trial, In trial trials /\
                     raw = make_raw arenaprefixes benchprefixes trial).
  { intros raw Hr. apply in_map_iff in Hr as ([ai raw'] & <- & Hr).
    eapply group_trials_raw; eassumption. }
  destruct (finish_row_analysed raws frow) as [Ha Ht]; [|exact Ef|].
  { intros raw Hr. destruct (Hraw raw Hr) as (trial & _ & ->). reflexivity. }
  assert (Hp : Permutation (map snd frow) (map snd (sorted Nat.ltb fst frow)))
    by (apply Permutation_map, Permutation_sym, sorted_perm).
  split; [exact (row_analysed_perm _ _ Hp Ha)|].
  intros d Hd. apply (Permutation_in _ (Permutation_sym Hp)) in Hd.
  destruct (Ht d Hd) as (raw & Hr & ->).
  destruct (Hraw raw Hr) as (trial & Hin & ->). exact Hin.
Qed.

Lemma group_results_in (results : list Trial.t) :
  forall key ts, In (key, ts) (group_results results) ->
                 forall t, In t ts -> In t results.
Proof.
  unfold group_results.
  assert (G : forall ts0 (acc : dict (K:=string * string) (V:=list Trial.t)),
             (forall key ts, In (key, ts) acc -> forall t, In t ts -> In t results) ->
             (forall t, In t ts0 -> In t results) ->
             forall key ts,
               In (key, ts)
                  (fold_left
                     (fun resultdict trial =>
                        let key := (Trial.benchfile trial, Trial.arenafile trial) in
                        let sofar := match dict_get pair_eqb key resultdict with
                                     | Some l => l
                                     | None => []
                                     end in
                        dict_set pair_eqb key (sofar ++ [trial]) resultdict)
                     ts0 acc) ->
               forall t, In t ts -> In t results).
  { induction ts0 as [|t0 ts0 IH]; intros acc Hacc Hts; simpl; [exact Hacc|].
    apply IH; [|intros t' Ht'; apply Hts; right; exact Ht'].
    intros key ts Hin t Ht.
    apply In_dict_set in Hin as [Hin | ->]; [eapply Hacc; eassumption|].
    apply in_app_or in Ht as [Ht | [<- | []]]; [|apply Hts; left; reflexivity].
    destruct (dict_get pair_eqb _ acc) as [l|] eqn:Eg; [|contradiction].
    apply dict_get_In in Eg as [k' Hk']. eapply Hacc; eassumption. }
  apply G; [intros ? ? [] | auto].
Qed.

(** C3, amended: in every table that [BenchPrinter] builds from trials
    whose times are not negative, every row has a best cell; every cell has
    [reltime >= 1]; and a cell with [isbest] true has [reltime] equal to 1
    and a rank that is the least of its row.  (The code divides by the
    least time of the row whatever its sign.) *)
Theorem table_rank_invariant (results : list Trial.t)
        (tables : dict (K:=string * string) (V:=table)) :
  (forall t s, In t results -> Trial.mintime t = Some s -> (0 <= s)%Q) ->
  BenchPrinter_tables fmt_3g arenaprefixes benchprefixes results = Ok tables ->
  forall key tbl row,
    In (key, tbl) tables -> In row tbl ->
    (exists d, In d row /\ Datum.isbest d = true) /\
    forall d, In d row ->
      (1 <= Datum.reltime d)%Q /\
      (Datum.isbest d = true ->
       (Datum.reltime d == 1)%Q /\
       forall d', In d' row -> (Datum.rank d <= Datum.rank d')%nat).
Proof.
  intros Hpos Htabs key tbl row Htbl Hrow.
  unfold BenchPrinter_tables in Htabs.
  destruct (Forall2_In_r _ _ _ _ (rmap_Forall2 _ _ _ Htabs) Htbl)
    as ([key0 trials] & Hgrp & Hb).
  simpl in Hb.
  destruct (build_table' trials) as [tbl'|] eqn:Eb; simpl in Hb; [|discriminate].
  inversion Hb; subst key0 tbl'. clear Hb.
  destruct (build_table_rows trials tbl Eb row Hrow)
    as [(minval & Hmin & (d0 & Hd0 & Ed0) & Hnz & Hall) Htr].
  assert (Hsec : forall d, In d row -> (0 <= Datum.seconds d)%Q).
  { intros d Hd. destruct (Hall d Hd) as (_ & _ & _ & Em).
    apply (Hpos (Datum.trialdata d)); [|exact Em].
    eapply group_results_in; [exact Hgrp | apply Htr; exact Hd]. }
  assert (Hminpos : (0 < minval)%Q).
  { destruct (Qlt_le_dec 0 minval) as [H | H]; [exact H|].
    exfalso. apply Hnz. apply Qle_antisym; [exact H|].
    rewrite <- Ed0. apply Hsec. exact Hd0. }
  split.
  - exists d0. split; [exact Hd0|].
    destruct (Hall d0 Hd0) as (E1 & _). rewrite E1.
    apply Qeq_bool_iff. exact Ed0.
  - intros d Hd. destruct (Hall d Hd) as (E1 & E2 & E3 & _). split.
    + rewrite E2. apply Qle_shift_div_l; [exact Hminpos|].
      rewrite Qmult_1_l. apply Hmin. exact Hd.
    + intros Hbest. rewrite E1 in Hbest. apply Qeq_bool_iff in Hbest. split.
      * rewrite E2, Hbest. unfold Qdiv. apply Qmult_inv_r. exact Hnz.
      * intros d' Hd'. destruct (Hall d' Hd') as (_ & _ & E3' & _).
        rewrite E3, E3'. apply count_le_mono.
        rewrite Hbest. apply Hmin. exact Hd'.
Qed.

Lemma dict_set_nonempty {K V} (eqb : K -> K -> bool) k (v : V) (d : dict) :
  dict_set eqb k v d <> [].
Proof.
  destruct d as [|[k' v'] d]; simpl; [discriminate|].
  destruct (eqb k' k); discriminate.
Qed.

Lemma group_trials_nonempty (trials : list Trial.t) :
  forall bi row,
    In (bi, row) (group_trials arenaprefixes benchprefixes trials) -> row <> [].
Proof.
  unfold group_trials.
  assert (G : forall ts (acc : dict (K:=nat) (V:=dict (K:=nat) (V:=Datum.raw))),
             (forall bi row, In (bi, row) acc -> row <> []) ->
             forall bi row,
               In (bi, row) (fold_left (add_trial arenaprefixes benchprefixes) ts acc) ->
               row <> []).
  { induction ts as [|t ts IH]; intros acc Hacc; simpl; [exact Hacc|].
    apply IH. intros bi row Hin. unfold add_trial in Hin.
    apply In_dict_set in Hin as [Hin | ->]; [eapply Hacc; exact Hin|].
    apply dict_set_nonempty. }
  apply G. intros ? ? [].
Qed.

(** A row whose times are all measured and positive can be analysed. *)
Lemma finish_row_total (arenadict : dict (K:=nat) (V:=Datum.raw)) :
  arenadict <> [] ->
  (forall raw, In raw (dict_values arenadict) ->
               exists s, Datum.raw_seconds raw = Some s /\ (0 < s)%Q) ->
  exists row, finish_row' arenadict = Ok row.
Proof.
  intros Hne Hraw. unfold finish_row.
  destruct (rmap_ok raw_time (dict_values arenadict)) as [secs Es].
  { intros raw Hin. destruct (Hraw raw Hin) as (s & E & _).
    unfold raw_time. rewrite E. eauto. }
  rewrite Es. cbn [rbind].
  pose proof (rmap_Forall2 _ _ _ Es) as HF.
  assert (Hpos : forall s, In s secs -> (0 < s)%Q).
  { intros s Hin. destruct (Forall2_In_r _ _ _ _ HF Hin) as (raw & Hr & E).
    destruct (Hraw raw Hr) as (s' & E' & Hs'). unfold raw_time in E.
    rewrite E' in E. inversion E. subst. exact Hs'. }
  destruct (sorted_times secs) as [Hs Hp].
  assert (Hlen : List.length secs = List.length arenadict).
  { rewrite <- (Forall2_length HF). unfold dict_values. apply length_map. }
  remember (sorted Qltb (fun x => x) secs) as sortedvals.
  destruct sortedvals as [|minval rest].
  { apply Permutation_length in Hp. simpl in Hp.
    destruct arenadict; [congruence | simpl in Hlen; lia]. }
  cbn [list_get nth_error rbind].
  destruct (list_get_ok (minval :: rest) (List.length (minval :: rest) - 1))
    as [maxval Emax]; [simpl; lia|].
  rewrite Emax. cbn [rbind].
  destruct (best_units maxval) as [scale units].
  assert (Hmin : (0 < minval)%Q)
    by (apply Hpos, (Permutation_in _ Hp); left; reflexivity).
  apply rmap_ok. intros [k raw] Hin. simpl.
  destruct (Hraw raw) as (s & E & Hs0); [apply in_map_iff; exists (k, raw); auto|].
  unfold finish_datum, raw_time, float_div. rewrite E. cbn [rbind].
  rewrite Heqsortedvals, rank_dict_sorted, <- Heqsortedvals.
  assert (Hex : existsb (fun k0 => Qeq_bool k0 s) (minval :: rest) = true).
  { apply existsb_exists. exists s. split; [|apply Qeq_bool_iff; reflexivity].
    apply (Permutation_in _ (Permutation_sym Hp)).
    unfold raw_time in HF.
    clear - HF Hin E. revert secs HF.
    induction arenadict as [|[k0 raw0] ad IH]; intros secs HF; [contradiction|].
    inversion HF as [|? ? ? ? H0 Hrest]; subst. simpl in *.
    destruct Hin as [Hin | Hin].
    - inversion Hin; subst. rewrite E in H0. inversion H0. left. reflexivity.
    - right. apply IH; assumption. }
  rewrite Hex. cbn [rbind].
  assert (Hz : Qeq_bool minval 0 = false).
  { destruct (Qeq_bool minval 0) eqn:Ez; [|reflexivity].
    apply Qeq_bool_iff in Ez. rewrite Ez in Hmin.
    exfalso. exact (Qlt_irrefl _ Hmin). }
  rewrite Hz. cbn [rbind]. eauto.
Qed.

(** The table of trials that are all measured, with positive times, is
    built. *)
Lemma build_table_total (trials : list Trial.t) :
  (forall t, In t trials -> exists s, Trial.mintime t = Some s /\ (0 < s)%Q) ->
  exists tbl, build_table' trials = Ok tbl.
Proof.
  intros Hpos. unfold _build_table.
  destruct (rmap_ok (fun kv => row <-? finish_row' (snd kv) ; Ok (fst kv, row))
                    (group_trials arenaprefixes benchprefixes trials))
    as [bybench Eb].
  { intros [bi raws] Hin. simpl.
    destruct (finish_row_total raws) as [row Er].
    - eapply group_trials_nonempty. exact Hin.
    - intros raw Hr. apply in_map_iff in Hr as ([ai raw'] & <- & Hr).
      destruct (group_trials_raw trials bi raws ai raw' Hin Hr) as (t & Ht & ->).
      apply Hpos. exact Ht.
    - rewrite Er. simpl. eauto. }
  rewrite Eb. simpl. eauto.
Qed.

(** [BenchPrinter] builds its tables from every result set whose trials
    are measured, with positive times. *)
Lemma BenchPrinter_tables_total (results : list Trial.t) :
  (forall t, In t results -> exists s, Trial.mintime t = Some s /\ (0 < s)%Q) ->
  exists tables,
    BenchPrinter_tables fmt_3g arenaprefixes benchprefixes results = Ok tables.
Proof.
  intros Hpos. unfold BenchPrinter_tables. apply rmap_ok.
  intros [key trials] Hin. simpl.
  destruct (build_table_total trials) as [tbl Et].
  - intros t Ht. apply Hpos. eapply group_results_in; eassumption.
  - rewrite Et. simpl. eauto.
Qed.

Lemma sorted_last_max (l : list Q) :
  StronglySorted Qle l ->
  forall m, list_get l (List.length l - 1) = Ok m ->
            In m l /\ forall x, In x l -> (x <= m)%Q.
Proof.
  induction 1 as [|a l Hl IH Hall]; intros m Hm; [discriminate|].
  rewrite Forall_forall in Hall.
  destruct l as [|b l].
  - simpl in Hm. inversion Hm. subst. split; [left; reflexivity|].
    intros x [<- | []]. apply Qle_refl.
  - assert (Hm' : list_get (b :: l) (List.length (b :: l) - 1) = Ok m).
    { simpl in Hm. simpl. rewrite Nat.sub_0_r. exact Hm. }
    destruct (IH m Hm') as [Hin Hmax]. split; [right; exact Hin|].
    intros x [<- | Hx]; [apply Hall; exact Hin | apply Hmax; exact Hx].
Qed.

Lemma finish_row_scaled (arenadict : dict (K:=nat) (V:=Datum.raw))
      (row : dict (K:=nat) (V:=Datum.t)) :
  finish_row' arenadict = Ok row -> row_scaled (map snd row).
Proof.
  unfold finish_row.
  destruct (rmap raw_time (dict_values arenadict)) as [secs|] eqn:Es; simpl;
    [|discriminate].
  destruct (sorted_times secs) as [Hs Hp].
  remember (sorted Qltb (fun x => x) secs) as sortedvals.
  destruct sortedvals as [|minval rest] eqn:Esv; [discriminate|].
  cbn [list_get nth_error rbind].
  destruct (list_get (minval :: rest) (List.length (minval :: rest) - 1))
    as [maxval|] eqn:Emax; simpl; [|discriminate].
  destruct (sorted_last_max _ Hs maxval Emax) as [Hin Hmax].
  destruct (best_units maxval) as [scale units] eqn:Eu.
  intros Hr.
  pose proof (finished_times _ _ _ _ _ _ _ Es Hr) as Hsecs.
  pose proof (rmap_Forall2 _ _ _ Hr) as HF.
  exists maxval. split.
  - apply (Permutation_in _ Hp) in Hin. rewrite <- Hsecs in Hin.
    apply in_map_iff in Hin as (d & E & Hd). eauto.
  - intros d Hd.
    assert (Hs0 : In (Datum.seconds d) secs)
      by (rewrite <- Hsecs; apply in_map; exact Hd).
    apply in_map_iff in Hd as ([k d'] & <- & Hd).
    destruct (Forall2_In_r _ _ _ _ HF Hd) as (kv & _ & Hf).
    destruct (finish_datum' _ _ _ _ (snd kv)) as [d0|] eqn:Ed; simpl in Hf;
      [|discriminate].
    inversion Hf; subst. clear Hf. simpl.
    apply finish_datum_spec in Ed as (_ & _ & _ & _ & _ & _ & E7 & E8 & E9).
    split; [apply Hmax, (Permutation_in _ (Permutation_sym Hp)); exact Hs0|].
    rewrite E7, E8, E9, Eu. auto.
Qed.

Lemma row_scaled_perm (row row' : list Datum.t) :
  Permutation row row' -> row_scaled row -> row_scaled row'.
Proof.
  intros Hp (maxval & (d0 & Hd0 & E0) & Hall).
  exists maxval. split.
  - exists d0. split; [apply (Permutation_in _ Hp); exact Hd0 | exact E0].
  - intros d Hd. apply Hall. apply (Permutation_in _ (Permutation_sym Hp)). exact Hd.
Qed.

(** Every row of a table that was built is scaled for its greatest
    time; when that time is in the range of the ladder it is shown as a
    number in [1, 1000). *)
Lemma build_table_row_units (trials : list Trial.t) (tbl : table) :
  build_table' trials = Ok tbl ->
  forall row, In row tbl ->
    row_scaled row /\
    forall d, In d row ->
      (forall d', In d' row -> (Datum.seconds d' <= Datum.seconds d)%Q) ->
      (e_neg 15 <= Datum.seconds d)%Q -> (Datum.seconds d < e_pos 15)%Q ->
      (1 <= Datum.time d)%Q /\ (Datum.time d < 1000)%Q.
Proof.
  unfold _build_table.
  destruct (rmap _ (group_trials arenaprefixes benchprefixes trials))
    as [bybench|] eqn:Eb; simpl; [|discriminate].
  intros H row Hrow. inversion H; subst tbl. clear H.
  apply in_map_iff in Hrow as ([bi frow] & <- & Hkv). simpl.
  apply (Permutation_in _ (sorted_perm Nat.ltb fst bybench)) in Hkv.
  destruct (Forall2_In_r _ _ _ _ (rmap_Forall2 _ _ _ Eb) Hkv) as ([bi0 raws] & Hin0 & Hf).
  simpl in Hf.
  destruct (finish_row' raws) as [frow'|] eqn:Ef; simpl in Hf; [|discriminate].
  inversion Hf; subst bi0 frow'. clear Hf.
  assert (Hp : Permutation (map snd frow) (map snd (sorted Nat.ltb fst frow)))
    by (apply Permutation_map, Permutation_sym, sorted_perm).
  pose proof (row_scaled_perm _ _ Hp (finish_row_scaled raws frow Ef)) as Hsc.
  split; [exact Hsc|].
  destruct Hsc as (maxval & (d0 & Hd0 & E0) & Hall).
  intros d Hd Hgreatest Hlo Hhi.
  destruct (Hall d Hd) as (Hle & Esc & _ & Et).
  assert (Heq : (Datum.seconds d == maxval)%Q).
  { apply Qle_antisym; [exact Hle|]. rewrite <- E0. apply Hgreatest. exact Hd0. }
  assert (Hlo' : (e_neg 15 <= maxval)%Q) by (rewrite <- Heq; exact Hlo).
  assert (Hhi' : (maxval < e_pos 15)%Q) by (rewrite <- Heq; exact Hhi).
  destruct (best_units_scaled maxval Hlo' Hhi') as (H1 & H2 & _).
  rewrite Et, Esc, Heq. split; assumption.
Qed.

(** The rank of a cell is the number of cells of its row that are not
    slower: with no tie this is its position by ascending time, from 1;
    cells with equal times share the last position of their group. *)
Lemma table_rank_counts (trials : list Trial.t) (tbl : table) :
  build_table' trials = Ok tbl ->
  forall row d, In row tbl -> In d row ->
    Datum.rank d = count_le (Datum.seconds d) (map Datum.seconds row).
Proof.
  intros Hb row d Hrow Hd.
  destruct (build_table_rows trials tbl Hb row Hrow) as [(minval & _ & _ & _ & Hall) _].
  destruct (Hall d Hd) as (_ & _ & E & _). exact E.
Qed.
End TableFacts.

(** C2 at a tie: of three candidates, two share the lowest time of 1 s.
    Both are marked best, and both get rank 2, the last position of their
    group; no cell of the row has rank 1.  Without a tie the ranks are the
    positions by ascending time. *)
Theorem build_table_tied_best_ranks (fmt_3g : Q -> string) :
  (exists tbl,
      _build_table fmt_3g PrefixNone PrefixNone tied_trials = Ok tbl /\
      map (map Datum.seconds) tbl = [[1; 1; 2]%Q] /\
      map (map Datum.isbest) tbl = [[true; true; false]] /\
      map (map Datum.rank) tbl = [[2; 2; 3]%nat]) /\
  (exists tbl,
      _build_table fmt_3g PrefixNone PrefixNone square_trials = Ok tbl /\
      map (map Datum.seconds) tbl = [[1 # 2; 2]; [3; 5 # 2]]%Q /\
      map (map Datum.rank) tbl = [[1; 2]; [2; 1]]%nat).
Proof.
  split; eexists; (split; [reflexivity|]); repeat split; reflexivity.
Qed.

Lemma table_rank_invariant_witness :
  exists tables key tbl row,
    BenchPrinter_tables (fun _ => "") PrefixNone PrefixNone tied_trials = Ok tables /\
    In (key, tbl) tables /\ In row tbl /\
    map Datum.rank row = [2; 2; 3]%nat /\
    (exists d, In d row /\ Datum.isbest d = true) /\
    forall d, In d row ->
      (1 <= Datum.reltime d)%Q /\
      (Datum.isbest d = true ->
       (Datum.reltime d == 1)%Q /\
       forall d', In d' row -> (Datum.rank d <= Datum.rank d')%nat).
Proof.
  assert (Hpos : forall t s, In t tied_trials -> Trial.mintime t = Some s -> (0 <= s)%Q).
  { intros t s Hin Hs. simpl in Hin.
    destruct Hin as [<- | [<- | [<- | []]]]; simpl in Hs; inversion Hs;
      discriminate. }
  eexists. eexists. eexists. eexists.
  split; [vm_compute; reflexivity|].
  split; [left; reflexivity|].
  split; [left; reflexivity|].
  split; [reflexivity|].
  eapply (table_rank_invariant (fun _ => "") PrefixNone PrefixNone tied_trials _ Hpos);
    [vm_compute; reflexivity | left; reflexivity | left; reflexivity].
Defined.

(** C3 as stated fails on a time below zero.  Of two candidates with the
    times -1 s and 2 s the first is the best, with a relative time of 1;
    the relative time of the second is 2 / -1 = -2, which is less than
    1. *)
Lemma table_rank_negative_time :
  BenchPrinter_tables (fun _ => "") PrefixNone PrefixNone negative_trials
  = Ok [(("bench_zeros.py", "arena_zeros.py"), negative_table)] /\
  map (map Datum.seconds) negative_table = [[-1; 2]%Q] /\
  map (map Datum.isbest) negative_table = [[true; false]] /\
  map (map Datum.reltime) negative_table = [[1; -2]%Q] /\
  (-2 < 1)%Q.
Proof.
  repeat split.
Qed.

(** ** [to_gfm] *)

Lemma list_set_ok {A} (l : list A) (i : nat) (v : A) :
  (i < List.length l)%nat ->
  exists l', list_set l i v = Ok l' /\ List.length l' = List.length l.
Proof.
  revert i. induction l as [|x l IH]; intros i H; simpl in H; [lia|].
  destruct i as [|i]; simpl.
  - eexists. split; reflexivity.
  - destruct (IH i ltac:(lia)) as (l' & E & L). rewrite E. simpl.
    eexists. split; [reflexivity | simpl; lia].
Qed.

Lemma enumerate_from_bound {A} (l : list A) (start i : nat) (x : A) :
  In (i, x) (enumerate_from start l) -> (i < start + List.length l)%nat.
Proof.
  revert start. induction l as [|y l IH]; intros start; simpl; [contradiction|].
  intros [H | H]; [inversion H; lia|]. apply IH in H. lia.
Qed.

Lemma widen_row_ok (row : list string) :
  forall start maxwidths,
    (start + List.length row <= List.length maxwidths)%nat ->
    exists mw, rfold widen (enumerate_from start row) maxwidths = Ok mw /\
               List.length mw = List.length maxwidths.
Proof.
  induction row as [|sval row IH]; intros start maxwidths H; simpl in *; [eauto|].
  unfold widen at 1. simpl.
  destruct (list_get_ok maxwidths start ltac:(lia)) as [w Ew]. rewrite Ew. simpl.
  destruct (list_set_ok maxwidths start (Nat.max w (String.length sval)) ltac:(lia))
    as (mw1 & E1 & L1).
  rewrite E1. simpl.
  destruct (IH (S start) mw1 ltac:(lia)) as (mw & E & L).
  exists mw. split; [exact E | lia].
Qed.

Lemma max_widths_ok (data : list (list string)) :
  forall init,
    Forall (fun row => (List.length row <= List.length init)%nat) data ->
    exists mw, max_widths data init = Ok mw /\ List.length mw = List.length init.
Proof.
  unfold max_widths.
  induction data as [|row data IH]; intros init H; simpl; [eauto|].
  inversion H as [|? ? Hrow Hrest]; subst.
  destruct (widen_row_ok row 0 init ltac:(simpl; lia)) as (mw1 & E1 & L1).
  rewrite E1. simpl.
  destruct (IH mw1) as (mw & E & L).
  { eapply Forall_impl; [|exact Hrest]. intros r Hr. simpl in Hr. lia. }
  exists mw. split; [exact E | lia].
Qed.

Lemma justify_row_ok (maxwidths : list nat) (row : list string) :
  (List.length row <= List.length maxwidths)%nat ->
  exists r, rmap (justify maxwidths) (enumerate_from 0 row) = Ok r.
Proof.
  intros H. apply rmap_ok. intros [i sval] Hin.
  apply enumerate_from_bound in Hin. unfold justify. simpl.
  destruct (list_get_ok maxwidths i ltac:(lia)) as [w Ew]. rewrite Ew. simpl. eauto.
Qed.

Lemma row_text_ok (relative rank : bool) (row : list Datum.t) :
  row <> [] ->
  exists texts, row_text relative rank row = Ok texts /\
                List.length texts = S (List.length row).
Proof.
  destruct row as [|d row]; [congruence|]. intros _.
  unfold row_text. cbn [list_get nth_error rbind].
  eexists. split; [reflexivity|]. simpl. rewrite length_map. reflexivity.
Qed.

(** C8: asking for both the relative and the rank view is a [ValueError],
    whatever the table, and nothing is rendered; with at most one of them,
    a well-formed table is rendered and no error is raised. *)
Theorem to_gfm_relative_xor_rank (linesep : string) (tbl : table)
        (relative rank : bool) :
  to_gfm linesep tbl true true = Raise ValueError /\
  (relative && rank = false ->
   well_formed tbl ->
   exists gfm, to_gfm linesep tbl relative rank = Ok gfm).
Proof.
  split; [reflexivity|].
  intros Hconf Hwf. unfold to_gfm. rewrite Hconf.
  destruct tbl as [|first_row rest]; [contradiction|].
  cbn [list_get nth_error rbind]. unfold well_formed in Hwf.
  set (tbl := first_row :: rest) in *.
  set (column_names := "__Bench__ \ __Func__ " :: _).
  assert (Hcols : List.length column_names = S (List.length first_row))
    by (unfold column_names; simpl; rewrite length_map; reflexivity).
  assert (Hrows : exists rows,
             rmap (row_text relative rank) tbl = Ok rows /\
             Forall (fun r => (List.length r <= List.length column_names)%nat) rows).
  { clearbody tbl column_names. clear Hconf.
    induction Hwf as [|row t [Hne Hlen] Hrest IH]; simpl.
    - exists []. split; [reflexivity | constructor].
    - destruct (row_text_ok relative rank row Hne) as (texts & Et & Lt).
      rewrite Et. simpl. destruct IH as (rows & Er & Fr). rewrite Er. simpl.
      exists (texts :: rows). split; [reflexivity|].
      constructor; [lia | exact Fr]. }
  destruct Hrows as (rows & Er & Fr). rewrite Er. cbn [rbind].
  assert (Hdata : Forall (fun r => (List.length r
                                    <= List.length (repeat 0%nat (List.length column_names)))%nat)
                         (column_names :: rows)).
  { rewrite repeat_length. constructor; [lia | exact Fr]. }
  destruct (max_widths_ok _ _ Hdata) as (mw & Em & Lm).
  rewrite Em. cbn [rbind]. rewrite repeat_length in Lm.
  assert (Hjust : exists data,
             rmap (fun row => rmap (justify mw) (enumerate_from 0 row))
                  (column_names :: rows) = Ok data).
  { apply rmap_ok. intros row Hin. apply justify_row_ok.
    destruct Hin as [<- | Hin]; [lia|].
    rewrite Forall_forall in Fr. specialize (Fr _ Hin). lia. }
  destruct Hjust as (data & Ed). rewrite Ed. cbn [rbind].
  destruct mw as [|w0 mw]; [simpl in Lm; lia|].
  cbn [map rbind]. eauto.
Qed.

Lemma square_table_well_formed : well_formed square_table.
Proof.
  vm_compute. repeat constructor; (discriminate || lia).
Qed.

Lemma to_gfm_relative_xor_rank_witness :
  to_gfm "
" square_table true true = Raise ValueError /\
  exists gfm, to_gfm "
" square_table false true = Ok gfm.
Proof.
  destruct (to_gfm_relative_xor_rank "
" square_table false true) as [H1 H2].
  split; [exact H1|].
  apply H2; [reflexivity | exact square_table_well_formed].
Defined.

(** The rank view of the table of [square_trials]. *)
Lemma to_gfm_square_ranks :
  to_gfm "
" square_table false true
  = Ok "|__Bench__ \ __Func__ | __zeros_mul__ | __zeros_slow__ |
| -------------------:|:-------------:|:--------------:|
|        __bench_n2__ |     __1__     |       2        |
|       __bench_n10__ |       2       |     __1__      |".
Proof. reflexivity. Qed.

(** A later row that is longer than the first cannot be laid out: the
    widths are those of the header. *)
Lemma to_gfm_ragged :
  exists tbl,
    _build_table (fun _ => "t") PrefixNone PrefixNone
                 [measured 0 0 "bench_n2" "zeros_mul" 1;
                  measured 1 0 "bench_n10" "zeros_mul" 1;
                  measured 1 1 "bench_n10" "zeros_slow" 2] = Ok tbl /\
    to_gfm "
" tbl false false = Raise IndexError.
Proof. eexists. split; reflexivity. Qed.

(* ================================================================== *)
(** * Part IV: more properties of the package                          *)
(* ================================================================== *)

(** ** [_strip_prefix] *)

Lemma prefix_drop (pre s : string) :
  String.prefix pre s = true -> s = (pre ++ string_drop (String.length pre) s)%string.
Proof.
  revert s. induction pre as [|c pre IH]; intros s H; simpl.
  - reflexivity.
  - destruct s as [|c' s]; simpl in H; [discriminate|].
    destruct (ascii_dec c c') as [<- | Hne]; [|discriminate].
    simpl. f_equal. apply IH. exact H.
Qed.

Lemma find_first {A} (f : A -> bool) (l : list A) (x : A) :
  find f l = Some x ->
  exists l1 l2, l = l1 ++ x :: l2 /\ f x = true /\ forall y, In y l1 -> f y = false.
Proof.
  induction l as [|a l IH]; simpl; [discriminate|].
  destruct (f a) eqn:Ea.
  - intros H. inversion H. subst. exists [], l. repeat split; auto.
    intros y [].
  - intros H. destruct (IH H) as (l1 & l2 & -> & Hx & Hl1).
    exists (a :: l1), l2. repeat split; auto.
    intros y [<- | Hy]; auto.
Qed.

Lemma StronglySorted_app_r {A} (R : A -> A -> Prop) (l1 l2 : list A) (x : A) :
  StronglySorted R (l1 ++ x :: l2) -> forall y, In y l2 -> R x y.
Proof.
  induction l1 as [|a l1 IH]; simpl; intros H y Hy.
  - inversion H as [|? ? _ Hall]; subst. rewrite Forall_forall in Hall. auto.
  - inversion H; subst. apply IH; assumption.
Qed.

(** What [_strip_prefix] removes. *)
Lemma strip_prefix_spec (sval : string) (prefix : prefix_arg) :
  ((forall pre, In pre (prefix_list prefix) -> String.prefix pre sval = false) ->
   _strip_prefix sval prefix = sval) /\
  (forall pre, In pre (prefix_list prefix) -> String.prefix pre sval = true ->
     exists best,
       In best (prefix_list prefix) /\
       (String.length pre <= String.length best)%nat /\
       sval = (best ++ _strip_prefix sval prefix)%string).
Proof.
  assert (Hsort : forall ps,
             let l := sorted (fun a b => Nat.ltb b a) String.length ps in
             Permutation l ps /\
             StronglySorted (fun a b => (String.length b <= String.length a)%nat) l).
  { intros ps l. split; [apply sorted_perm|].
    assert (H : StronglySorted (key_le (fun a b => Nat.ltb b a) String.length) l).
    { apply sorted_sorted.
      - intros a b H. apply Nat.ltb_lt in H. apply Nat.ltb_ge. lia.
      - unfold not_after. intros a b c H1 H2.
        apply Nat.ltb_ge in H1, H2. apply Nat.ltb_ge. lia. }
    induction H as [|x r Hr IH Hall]; constructor; [exact IH|].
    eapply Forall_impl; [|exact Hall]. intros y Hy.
    unfold key_le, not_after in Hy. apply Nat.ltb_ge in Hy. exact Hy. }
  assert (Hlist : forall ps,
             _strip_prefix sval (PrefixList ps)
             = match find (fun pre => String.prefix pre sval)
                          (sorted (fun a b => Nat.ltb b a) String.length ps) with
               | Some pre => string_drop (String.length pre) sval
               | None => sval
               end) by reflexivity.
  assert (Hone : forall p, _strip_prefix sval (PrefixOne p)
                           = _strip_prefix sval (PrefixList [p])) by reflexivity.
  assert (G : forall ps,
             ((forall pre, In pre ps -> String.prefix pre sval = false) ->
              _strip_prefix sval (PrefixList ps) = sval) /\
             (forall pre, In pre ps -> String.prefix pre sval = true ->
                exists best, In best ps /\
                  (String.length pre <= String.length best)%nat /\
                  sval = (best ++ _strip_prefix sval (PrefixList ps))%string)).
  { intros ps. destruct (Hsort ps) as [Hp Hs]. rewrite Hlist.
    destruct (find _ _) as [best|] eqn:Ef.
    - destruct (find_first _ _ _ Ef) as (l1 & l2 & El & Hb & Hl1). split.
      + intros Hnone. rewrite Hnone in Hb; [discriminate|].
        apply (Permutation_in _ Hp). rewrite El. apply in_or_app. right. left.
        reflexivity.
      + intros pre Hin Hpre. exists best. split; [|split].
        * apply (Permutation_in _ Hp). rewrite El. apply in_or_app. right. left.
          reflexivity.
        * apply (Permutation_in _ (Permutation_sym Hp)) in Hin. rewrite El in Hin.
          apply in_app_or in Hin as [Hin | [<- | Hin]].
          -- rewrite (Hl1 _ Hin) in Hpre. discriminate.
          -- lia.
          -- rewrite El in Hs. exact (StronglySorted_app_r _ _ _ _ Hs _ Hin).
        * apply prefix_drop. exact Hb.
    - split; [reflexivity|]. intros pre Hin Hpre. exfalso.
      apply (Permutation_in _ (Permutation_sym Hp)) in Hin.
      pose proof (find_none _ _ Ef _ Hin) as Hn. simpl in Hn. congruence. }
  destruct prefix as [|p|ps]; simpl prefix_list.
  - split; [reflexivity | intros pre []].
  - rewrite Hone. apply G.
  - apply G.
Qed.

(** X1: [_strip_prefix] leaves the name alone when no prefix is given or
    none matches; otherwise it removes one of the given prefixes that the
    name starts with, and no matching prefix is longer than the one
    removed. *)
Theorem strip_prefix_longest (sval : string) (prefix : prefix_arg) :
  ((forall pre, In pre (prefix_list prefix) -> String.prefix pre sval = false) ->
   _strip_prefix sval prefix = sval) /\
  (forall pre, In pre (prefix_list prefix) -> String.prefix pre sval = true ->
     exists best,
       In best (prefix_list prefix) /\
       (String.length pre <= String.length best)%nat /\
       sval = (best ++ _strip_prefix sval prefix)%string).
Proof. exact (strip_prefix_spec sval prefix). Qed.

(** ** More on [numericstringkey] *)

Lemma string_length_app (s t : string) :
  String.length (s ++ t) = (String.length s + String.length t)%nat.
Proof. induction s as [|c s IH]; simpl; [reflexivity | rewrite IH; reflexivity]. Qed.

(** No piece of a split is longer than the string. *)
Lemma re_split_piece_length (s : string) :
  forall cur indig piece,
    In piece (re_split_digits s cur indig) ->
    (String.length piece <= String.length cur + String.length s)%nat.
Proof.
  induction s as [|c s IH]; intros cur indig piece; simpl.
  - destruct indig; simpl; intros H;
      repeat (destruct H as [<- | H]; [simpl; lia|]); destruct H.
  - destruct (is_digit c), indig; simpl; intros H.
    + apply IH in H. rewrite string_length_app in H. simpl in H. lia.
    + destruct H as [<- | H]; [lia|]. apply IH in H. simpl in H. lia.
    + destruct H as [<- | H]; [lia|]. apply IH in H. simpl in H. lia.
    + apply IH in H. rewrite string_length_app in H. simpl in H. lia.
Qed.

(** Under a limit that the string does not exceed, the key is the key
    without a limit. *)
Lemma numericstringkey_max_short (max_str_digits : nat) (s : string) :
  (max_str_digits = 0 \/ String.length s <= max_str_digits)%nat ->
  numericstringkey_max max_str_digits s = numericstringkey s.
Proof.
  intros H. unfold numericstringkey_max, numericstringkey.
  apply map_ext_in. intros piece Hin.
  apply re_split_piece_length in Hin. simpl in Hin.
  unfold py_int_max.
  destruct ((0 <? max_str_digits)%nat && (max_str_digits <? String.length piece)%nat)
    eqn:E; [|reflexivity].
  apply andb_true_iff in E as [E1 E2].
  apply Nat.ltb_lt in E1, E2. lia.
Qed.

(** X2: when no digit run exceeds the digit limit of [int] (on every
    interpreter without one, and under a limit for strings that are not
    longer than it: 4300 characters unless the limit was set), the key of
    a string has a str and an int in turn, starting with a str.  Comparing
    the keys of two such strings, as [nsorted] does, never sets an int
    against a str: it raises no [TypeError] in Python 3 and gives what
    [key_ltb] computes.  (A longer digit run stays a str under the limit,
    and the comparison can fail: lemma
    [numericstringkey_over_limit].) *)
Theorem numericstringkey_comparable (max_str_digits : nat) (s t : string) :
  (max_str_digits = 0 \/ String.length s <= max_str_digits)%nat ->
  (max_str_digits = 0 \/ String.length t <= max_str_digits)%nat ->
  key_shape false (numericstringkey_max max_str_digits s) /\
  key_lt3 (numericstringkey_max max_str_digits s)
          (numericstringkey_max max_str_digits t)
  = Ok (key_ltb (numericstringkey_max max_str_digits s)
                (numericstringkey_max max_str_digits t)).
Proof.
  intros Hs Ht.
  rewrite (numericstringkey_max_short _ s Hs), (numericstringkey_max_short _ t Ht).
  split; [apply numericstringkey_shape|].
  apply (key_lt3_shape false); apply numericstringkey_shape.
Qed.

Lemma numericstringkey_comparable_witness :
  key_shape false (numericstringkey_max 4300 "a2") /\
  key_lt3 (numericstringkey_max 4300 "a2") (numericstringkey_max 4300 "a10")
  = Ok true.
Proof.
  destruct (numericstringkey_comparable 4300 "a2" "a10") as [H1 H2];
    [right; simpl; lia | right; simpl; lia|].
  split; [exact H1|]. rewrite H2. reflexivity.
Defined.

(** Above the limit the run is not read: with the limit of 4300 digits,
    the key of 4301 nines holds the run as a str, and comparing it with the
    key of ["7"], which holds an int, is a [TypeError]. *)
Lemma numericstringkey_over_limit :
  numericstringkey_max 4300 (str_times "9" 4301)
  = [KStr ""; KStr (str_times "9" 4301); KStr ""] /\
  numericstringkey_max 4300 "7" = [KStr ""; KInt 7; KStr ""] /\
  key_lt3 (numericstringkey_max 4300 (str_times "9" 4301))
          (numericstringkey_max 4300 "7") = Raise TypeError.
Proof.
  split; [|split]; vm_compute; reflexivity.
Qed.




(** ** The indices of [runbenchmarks] *)

Section AssocFacts.
Context {K V : Type} (eqb : K -> K -> bool).
Hypothesis eqb_sym : forall a b, eqb a b = eqb b a.
Hypothesis eqb_trans : forall a b c, eqb a b = true -> eqb b c = true -> eqb a c = true.

(** Assigning the pairs of a list one after the other. *)
Lemma fold_dict_set {W} (g : W -> V) (x : K) (pairs : list (K * W)) :
  forall acc,
    dict_get eqb x
      (fold_left (fun d kv => dict_set eqb (fst kv) (g (snd kv)) d) pairs acc)
    = match assoc_last eqb x pairs with
      | Some w => Some (g w)
      | None => dict_get eqb x acc
      end.
Proof.
  induction pairs as [|[k w] r IH]; intros acc; simpl; [reflexivity|].
  rewrite IH. destruct (assoc_last eqb x r); [reflexivity|].
  rewrite (dict_get_set eqb eqb_sym eqb_trans).
  destruct (eqb k x); reflexivity.
Qed.

Lemma dict_of_assoc_last (x : K) (pairs : list (K * V)) :
  dict_get eqb x (dict_of eqb pairs) = assoc_last eqb x pairs.
Proof.
  unfold dict_of. rewrite (fold_dict_set (fun v => v)).
  destruct (assoc_last eqb x pairs); reflexivity.
Qed.

Hypothesis eqb_eq : forall a b, eqb a b = true <-> a = b.

(** In a dict, where each key occurs once, the last pair of a key is the
    only one. *)
Lemma assoc_last_NoDup (x : K) (pairs : list (K * V)) :
  NoDup (map fst pairs) -> assoc_last eqb x pairs = dict_get eqb x pairs.
Proof.
  induction pairs as [|[k v] r IH]; simpl; intros H; [reflexivity|].
  inversion H as [|? ? Hk Hr]; subst. rewrite (IH Hr).
  destruct (eqb k x) eqn:E.
  - apply eqb_eq in E. subst x.
    destruct (dict_get eqb k r) as [v'|] eqn:Eg; [|reflexivity].
    exfalso. apply Hk. clear - Eg eqb_eq.
    induction r as [|[k' v''] r IH]; simpl in *; [discriminate|].
    destruct (eqb k' k) eqn:E'; [left; apply eqb_eq; exact E' | right; auto].
  - destruct (dict_get eqb x r); reflexivity.
Qed.
End AssocFacts.

Lemma string_eqb_trans (a b c : string) :
  String.eqb a b = true -> String.eqb b c = true -> String.eqb a c = true.
Proof. rewrite !String.eqb_eq. congruence. Qed.

(** The index stored for a name is a position of the name in the list. *)
Lemma assoc_last_enumerate (name : string) (l : list string) :
  forall start,
    match assoc_last String.eqb name
            (map (fun ix => (snd ix, fst ix)) (enumerate_from start l)) with
    | Some i => (start <= i)%nat /\ nth_error l (i - start) = Some name
    | None => ~ In name l
    end.
Proof.
  induction l as [|x l IH]; intros start; simpl; [auto|].
  specialize (IH (S start)).
  destruct (assoc_last String.eqb name _) as [i|].
  - destruct IH as [Hle Hn]. split; [lia|].
    replace (i - start)%nat with (S (i - S start)) by lia. exact Hn.
  - destruct (String.eqb x name) eqn:E.
    + apply String.eqb_eq in E. subst x. split; [lia|].
      rewrite Nat.sub_diag. reflexivity.
    + apply String.eqb_neq in E. intros [H | H]; [congruence | exact (IH H)].
Qed.

(** The indices of the functions of a file. *)
Lemma get_index_spec (d : dict (K:=string) (V:=list string))
        (filename : string) :
  NoDup (map fst d) ->
  (dict_get String.eqb filename d = None ->
   forall funcname, get_index (make_indices d) filename funcname = Raise KeyError) /\
  (forall funcnames,
      dict_get String.eqb filename d = Some funcnames ->
      forall funcname,
        (~ In funcname funcnames ->
         get_index (make_indices d) filename funcname = Raise KeyError) /\
        (In funcname funcnames ->
         exists i,
           get_index (make_indices d) filename funcname = Ok i /\
           nth_error (nsorted funcnames) i = Some funcname /\
           (NoDup funcnames ->
            forall j, nth_error (nsorted funcnames) j = Some funcname -> j = i))).
Proof.
  intros Hnd.
  assert (Hget : dict_get String.eqb filename (make_indices d)
                 = match dict_get String.eqb filename d with
                   | Some funcnames =>
                       Some (dict_of String.eqb
                               (map (fun ix => (snd ix, fst ix))
                                    (enumerate_from 0 (nsorted funcnames))))
                   | None => None
                   end).
  { unfold make_indices.
    rewrite (fold_dict_set String.eqb String.eqb_sym string_eqb_trans
               (fun funcnames =>
                  dict_of String.eqb
                    (map (fun ix => (snd ix, fst ix))
                         (enumerate_from 0 (nsorted funcnames))))).
    rewrite (assoc_last_NoDup String.eqb String.eqb_eq _ _ Hnd).
    destruct (dict_get String.eqb filename d); reflexivity. }
  split.
  - intros Hnone funcname. unfold get_index. rewrite Hget, Hnone. reflexivity.
  - intros funcnames Hsome funcname. unfold get_index. rewrite Hget, Hsome.
    rewrite (dict_of_assoc_last String.eqb String.eqb_sym string_eqb_trans).
    pose proof (assoc_last_enumerate funcname (nsorted funcnames) 0) as H.
    assert (Hperm : Permutation (nsorted funcnames) funcnames) by apply sorted_perm.
    destruct (assoc_last String.eqb funcname _) as [i|].
    + destruct H as [_ Hn]. rewrite Nat.sub_0_r in Hn. split.
      * intros Hnot. exfalso. apply Hnot.
        apply (Permutation_in _ Hperm). eapply nth_error_In. exact Hn.
      * intros _. exists i. split; [reflexivity|]. split; [exact Hn|].
        intros Hnd' j Hj.
        assert (Hnds : NoDup (nsorted funcnames))
          by (eapply Permutation_NoDup; [apply Permutation_sym; exact Hperm | exact Hnd']).
        apply (proj1 (NoDup_nth_error _) Hnds).
        -- apply nth_error_Some. congruence.
        -- congruence.
    + split; [reflexivity|]. intros Hin. exfalso. apply H.
      apply (Permutation_in _ (Permutation_sym Hperm)). exact Hin.
Qed.

(** X4: the index of a function of a file is a position of its name in the
    naturally sorted names of the file, the only one when no name is listed
    twice; asking for a name that the file does not list, or for a file
    that is not in the dict, is a [KeyError]. *)
Theorem get_index_position (d : dict (K:=string) (V:=list string))
        (filename : string) :
  NoDup (map fst d) ->
  (dict_get String.eqb filename d = None ->
   forall funcname, get_index (make_indices d) filename funcname = Raise KeyError) /\
  (forall funcnames,
      dict_get String.eqb filename d = Some funcnames ->
      forall funcname,
        (~ In funcname funcnames ->
         get_index (make_indices d) filename funcname = Raise KeyError) /\
        (In funcname funcnames ->
         exists i,
           get_index (make_indices d) filename funcname = Ok i /\
           nth_error (nsorted funcnames) i = Some funcname /\
           (NoDup funcnames ->
            forall j, nth_error (nsorted funcnames) j = Some funcname -> j = i))).
Proof. exact (get_index_spec d filename). Qed.

Lemma get_index_position_witness :
  get_index (make_indices demo_arenadict) "arena_zeros.py" "zeros_other"
  = Raise KeyError /\
  exists i,
    get_index (make_indices demo_arenadict) "arena_zeros.py" "zeros_slow" = Ok i /\
    nth_error (nsorted ["zeros_slow"; "zeros_mul"; "zeros_repeat"]) i
    = Some "zeros_slow".
Proof.
  assert (Hnd : NoDup (map fst demo_arenadict))
    by (repeat constructor; intros []).
  destruct (get_index_position demo_arenadict "arena_zeros.py" Hnd) as [_ H].
  specialize (H _ eq_refl). split.
  - apply (proj1 (H "zeros_other")). simpl. intros [E | [E | [E | []]]]; discriminate.
  - destruct (proj2 (H "zeros_slow")) as (i & E & Hn & _); [left; reflexivity|].
    exists i. split; assumption.
Defined.

(** ** The trial dict *)

Lemma partition_at_eq (sep s : string) :
  partition_at sep s
  = if String.prefix sep s then Some ("", string_drop (String.length sep) s)
    else match s with
         | EmptyString => None
         | String c r =>
             match partition_at sep r with
             | Some (a, b) => Some (String c a, b)
             | None => None
             end
         end.
Proof. destruct s; reflexivity. Qed.

Lemma prefix_app (sep b : string) : String.prefix sep (sep ++ b) = true.
Proof.
  induction sep as [|c sep IH]; simpl; [destruct b; reflexivity|].
  destruct (ascii_dec c c); [exact IH | congruence].
Qed.

Lemma partition_at_join (sep s a b : string) :
  partition_at sep s = Some (a, b) -> s = (a ++ sep ++ b)%string.
Proof.
  revert a b. induction s as [|c s IH]; intros a b; rewrite partition_at_eq;
    destruct (String.prefix sep _) eqn:Ep;
    try (intros H; inversion H; subst; simpl; apply (prefix_drop sep); exact Ep);
    try discriminate.
  destruct (partition_at sep s) as [[a' b']|] eqn:Er; [|discriminate].
  intros H. inversion H. subst. simpl. f_equal. apply IH. reflexivity.
Qed.

Lemma partition_at_none (sep s : string) :
  partition_at sep s = None -> forall a b, s <> (a ++ sep ++ b)%string.
Proof.
  induction s as [|c s IH]; rewrite partition_at_eq;
    destruct (String.prefix sep _) eqn:Ep; try discriminate.
  - intros _ a b E. destruct a; simpl in E; [|discriminate].
    rewrite E, prefix_app in Ep. discriminate.
  - destruct (partition_at sep s) as [[a' b']|] eqn:Er; [discriminate|].
    intros _ a b E. destruct a as [|c' a]; simpl in E.
    + rewrite E, prefix_app in Ep. discriminate.
    + inversion E. subst. exact (IH eq_refl a b eq_refl).
Qed.

(** The text before the first occurrence holds no earlier occurrence. *)
Lemma partition_at_first (sep s a b : string) :
  partition_at sep s = Some (a, b) ->
  forall a' b', s = (a' ++ sep ++ b')%string ->
                (String.length a <= String.length a')%nat.
Proof.
  revert a b. induction s as [|c s IH]; intros a b; rewrite partition_at_eq;
    destruct (String.prefix sep _) eqn:Ep;
    try (intros H; inversion H; simpl; lia); try discriminate.
  destruct (partition_at sep s) as [[a0 b0]|] eqn:Er; [|discriminate].
  intros H a' b' E. inversion H. subst.
  destruct a' as [|c' a']; simpl in E.
  - rewrite E, prefix_app in Ep. discriminate.
  - inversion E. subst. simpl.
    pose proof (IH a0 b eq_refl a' b' eq_refl). lia.
Qed.

(** X5: the trial dict of a cell can be built only when the base name is
    not empty and occurs in the candidate's name; the candidate's name is
    then its prefix, the base name and its suffix put together, split at
    the first occurrence of the base name, and the measurement fields are
    unset.  With an empty base name, or a candidate's name that does not
    hold it, building the dict is a [ValueError]. *)
Theorem make_trial_names (name : string)
        (arenaindices benchindices : dict (K:=string) (V:=dict (K:=string) (V:=nat)))
        (bench : string * string * string * string)
        (arena : string * string * string) :
  (forall trial,
      make_trial name arenaindices benchindices bench arena = Ok trial ->
      name <> "" /\
      Trial.arenaname trial
      = (Trial.arenaprefix trial ++ name ++ Trial.arenasuffix trial)%string /\
      (forall a b, Trial.arenaname trial = (a ++ name ++ b)%string ->
                   (String.length (Trial.arenaprefix trial) <= String.length a)%nat) /\
      Trial.arenaname trial = snd (fst arena) /\
      Trial.setupstring trial = (snd (fst bench) ++ snd arena)%string /\
      Trial.benchstring trial = snd bench /\
      Trial.loops trial = None /\ Trial.mintime trial = None /\
      Trial.times trial = None) /\
  (name = "" ->
   make_trial name arenaindices benchindices bench arena = Raise ValueError) /\
  ((forall a b, snd (fst arena) <> (a ++ name ++ b)%string) ->
   make_trial name arenaindices benchindices bench arena = Raise ValueError).
Proof.
  destruct bench as [[[bf bn] bs] bb], arena as [[af an] asu]. simpl.
  unfold make_trial, split1. split; [|split].
  - intros trial. destruct (String.eqb name "") eqn:En; simpl; [discriminate|].
    apply String.eqb_neq in En.
    destruct (partition_at name an) as [[a b]|] eqn:Ep; simpl; [|discriminate].
    destruct (get_index arenaindices af an); simpl; [|discriminate].
    destruct (get_index benchindices bf bn); simpl; [|discriminate].
    intros H. inversion H. subst. simpl.
    split; [exact En|]. split; [exact (partition_at_join _ _ _ _ Ep)|].
    split; [exact (partition_at_first _ _ _ _ Ep)|]. repeat split.
  - intros ->. reflexivity.
  - intros Hno. destruct (String.eqb name ""); [reflexivity|].
    destruct (partition_at name an) as [[a b]|] eqn:Ep; [|reflexivity].
    exfalso. exact (Hno a b (partition_at_join _ _ _ _ Ep)).
Qed.

Lemma make_trial_names_witness :
  exists trial,
    make_trial demo_name (make_indices demo_arenadict) (make_indices demo_benchdict)
               (demo_bench "bench_n2") (demo_arena "zeros_mul") = Ok trial /\
    Trial.arenaprefix trial = "" /\ Trial.arenasuffix trial = "_mul" /\
    Trial.arenaname trial
    = (Trial.arenaprefix trial ++ demo_name ++ Trial.arenasuffix trial)%string.
Proof.
  eexists. split; [vm_compute; reflexivity|].
  split; [reflexivity|]. split; [reflexivity|].
  eapply (proj1 (make_trial_names demo_name (make_indices demo_arenadict)
                   (make_indices demo_benchdict)
                   (demo_bench "bench_n2") (demo_arena "zeros_mul"))).
  vm_compute. reflexivity.
Defined.

(** ** More on [runbenchmarks] *)

(** [min(times)] is one of the times, and none is less. *)
Lemma py_min_least (times : list Q) (m : Q) :
  py_min times = Ok m -> In m times /\ forall x, In x times -> (m <= x)%Q.
Proof.
  destruct times as [|x r]; [discriminate|]. simpl. intros H.
  injection H as Hm. subst m.
  assert (G : forall l a,
             let m' := fold_left (fun m y => if Qltb y m then y else m) l a in
             (m' = a \/ In m' l) /\ (m' <= a)%Q /\ forall y, In y l -> (m' <= y)%Q).
  { induction l as [|y l IH]; intros a; simpl.
    - split; [auto|]. split; [apply Qle_refl | intros y []].
    - destruct (Qltb y a) eqn:E.
      + destruct (IH y) as (H1 & H2 & H3). apply Qltb_lt in E.
        split; [destruct H1; auto|]. split.
        * eapply Qle_trans; [exact H2 | apply Qlt_le_weak; exact E].
        * intros z [<- | Hz]; auto.
      + destruct (IH a) as (H1 & H2 & H3). apply Qltb_ge in E.
        split; [destruct H1; auto|]. split; [exact H2|].
        intros z [<- | Hz]; [eapply Qle_trans; eassumption | auto]. }
  destruct (G r x) as (H1 & H2 & H3). split.
  - destruct H1 as [-> | H1]; [left; reflexivity | right; exact H1].
  - intros y [<- | Hy]; auto.
Qed.

Section MoreRunFacts.
Variables T U : Type.
Variable timer_timeit : T -> string -> string -> Z -> Q * T.
Variable getarenasetup :
  string -> string -> list string -> bool -> dict (K:=string) (V:=string).
Variable getbenchsetup : string -> string.
Variable getbenchstrings : string -> list string -> dict (K:=string) (V:=string).
Variable name : string.
Variables arenadict benchdict : dict (K:=string) (V:=list string).
Variables verbose cython : bool.
Variables (mintime : Q) (numrepeat : Z).

Local Abbreviation arenalist' := (getarenalist getarenasetup name arenadict cython).
Local Abbreviation benchlist' := (getbenchlist getbenchsetup getbenchstrings benchdict).
Local Abbreviation make_trial' :=
  (make_trial name (make_indices arenadict) (make_indices benchdict)).
Local Abbreviation measure' := (measure T U timer_timeit mintime numrepeat).
Local Abbreviation run_cell' :=
  (run_cell T U timer_timeit name (make_indices arenadict)
            (make_indices benchdict) mintime numrepeat).
Local Abbreviation run_arenas' :=
  (run_arenas T U timer_timeit name (make_indices arenadict)
              (make_indices benchdict) mintime numrepeat).
Local Abbreviation run_benches' :=
  (run_benches T U timer_timeit name (make_indices arenadict)
               (make_indices benchdict) mintime numrepeat).
Local Abbreviation runbenchmarks' :=
  (runbenchmarks T U timer_timeit getarenasetup getbenchsetup getbenchstrings
                 name arenadict benchdict verbose cython mintime numrepeat).

(** The outcome of a measurement. *)
Lemma measure_outcome (trial0 : Trial.t) (w : world T U) :
  exists trial w' loops m times,
    measure' trial0 w = (Ok trial, w') /\
    trial = Trial.update trial0 loops m times /\
    Trial.pending trial = Trial.pending trial0 /\
    (1 <= loops)%Z /\
    List.length times = S (Z.to_nat (numrepeat - 1)) /\
    In m times /\ (forall x, In x times -> (m <= x)%Q).
Proof.
  destruct (bettertimeit_spec T U timer_timeit (Trial.benchstring trial0)
              (Trial.setupstring trial0) mintime numrepeat w)
    as (loops & pre & c & repeats & w' & E & _ & _ & _ & Hl & _ & _ & _ & _ & R & _).
  remember (map (fun x => (x / inject_Z loops)%Q)
                (map call_reading repeats ++ [call_reading c])) as times.
  assert (Hlen : List.length times = S (Z.to_nat (numrepeat - 1))).
  { subst times. rewrite length_map, length_app, length_map, R. simpl. lia. }
  destruct (py_min times) as [m|e] eqn:Em.
  - exists (Trial.update trial0 loops m times), w', loops, m, times.
    split.
    + unfold measure. rewrite (bind_ok _ _ _ _ _ _ _ E).
      unfold bind, lift. rewrite Em. reflexivity.
    + destruct (py_min_least times m Em) as [Hin Hmin].
      repeat split; auto.
  - destruct times; [simpl in Hlen; lia | discriminate].
Qed.

(** X6: measuring a trial always succeeds and fills the three measurement
    fields and nothing else: [loops] is at least 1, [times] has
    [numrepeat] entries (one when [numrepeat] is less than 1), and
    [mintime] is one of the times and the least of them. *)
Theorem measure_fields (trial0 : Trial.t) (w : world T U) :
  exists trial w' loops m times,
    measure' trial0 w = (Ok trial, w') /\
    trial = Trial.update trial0 loops m times /\
    Trial.pending trial = Trial.pending trial0 /\
    (1 <= loops)%Z /\
    List.length times = S (Z.to_nat (numrepeat - 1)) /\
    In m times /\ (forall x, In x times -> (m <= x)%Q).
Proof. exact (measure_outcome trial0 w). Qed.

Lemma run_arenas_raise tf cb bench al1 arena al2 r1 r2 (w1 w2 : world T U) e :
  run_arenas' tf cb bench al1 r1 w1 = (Ok (Continue r2), w2) ->
  make_trial' bench arena = Raise e ->
  run_arenas' tf cb bench (al1 ++ arena :: al2) r1 w1 = (Raise e, w2).
Proof.
  intros H1 Ht. rewrite run_arenas_app, H1. simpl. unfold bind at 1.
  rewrite (run_cell_raise T U timer_timeit mintime numrepeat name _ _
             tf cb bench arena r2 w2 e Ht).
  reflexivity.
Qed.

(** X7: when the trial dict of a cell cannot be built, the whole run
    raises where it stands: [runbenchmarks] raises the error of that cell,
    the trials measured before it are not returned, and the timer is not
    called again, neither for this cell nor for the ones after it. *)
Theorem runbenchmarks_raises
        (tf cb : option (hook U)) (w : world T U)
        bl1 bench bl2 al1 arena al2 r1 w1 r2 w2 e :
  benchlist' = bl1 ++ bench :: bl2 ->
  arenalist' = al1 ++ arena :: al2 ->
  run_benches' tf
    match cb with
    | None => if verbose then Some (ProgressPrinter U) else None
    | Some c => Some c
    end bl1 arenalist' [] w = (Ok (Continue r1), w1) ->
  run_arenas' tf
    match cb with
    | None => if verbose then Some (ProgressPrinter U) else None
    | Some c => Some c
    end bench al1 r1 w1 = (Ok (Continue r2), w2) ->
  make_trial' bench arena = Raise e ->
  runbenchmarks' tf cb w = (Raise e, w2).
Proof.
  intros Hb Ha H1 H2 Ht. unfold runbenchmarks.
  rewrite Hb. rewrite Ha in *.
  set (cb' := match cb with
              | None => if verbose then Some (ProgressPrinter U) else None
              | Some c => Some c
              end) in *.
  erewrite bind_raise; [reflexivity|].
  rewrite run_benches_app, H1. simpl. unfold bind at 1.
  rewrite (run_arenas_raise tf cb' bench al1 arena al2 r1 r2 w1 w2 e H2 Ht).
  reflexivity.
Qed.
End MoreRunFacts.

Lemma runbenchmarks_raises_witness :
  odd_run = (Raise ValueError, snd odd_run) /\
  List.length (w_log (snd odd_run)) = 7%nat /\
  Forall (fun c => call_setup c
                   = "import bench_zeros.py;load zeros_mul from arena_zeros.py;")
         (w_log (snd odd_run)).
Proof.
  pose proof (runbenchmarks_raises nat nat (steady_timer (1 # 1000))
                demo_arenasetup demo_benchsetup demo_benchstrings
                demo_name odd_arenadict demo_benchdict false false (1 # 4) 3
                None None (world0 0%nat)
                [] (demo_bench "bench_n2") [demo_bench "bench_n10"]
                [demo_arena "zeros_mul"] (demo_arena "zzz") []) as H.
  eassert (E : _);
    [eapply H;
     [reflexivity | reflexivity | vm_compute; reflexivity | vm_compute; reflexivity
      | vm_compute; reflexivity] |].
  split; [unfold odd_run; rewrite E; reflexivity|].
  split; [vm_compute; reflexivity|].
  vm_compute. repeat constructor.
Defined.

Lemma with_user_same {T U} (w : world T U) : with_user w (w_user w) = w.
Proof. destruct w. reflexivity. Qed.

Lemma filter_all {A} (f : A -> bool) (l : list A) :
  (forall x, In x l -> f x = true) -> filter f l = l.
Proof.
  induction l as [|x l IH]; intros H; simpl; [reflexivity|].
  rewrite (H x (or_introl eq_refl)). f_equal. apply IH.
  intros y Hy. apply H. right. exact Hy.
Qed.

Section NoFilterFacts.
Variables T U : Type.
Variable timer_timeit : T -> string -> string -> Z -> Q * T.
Variables (mintime : Q) (numrepeat : Z).
Variable name : string.
Variables arenaindices benchindices :
  dict (K:=string) (V:=dict (K:=string) (V:=nat)).
Variable cb : option (hook U).

Local Abbreviation run_cell' :=
  (run_cell T U timer_timeit name arenaindices benchindices mintime numrepeat).
Local Abbreviation run_arenas' :=
  (run_arenas T U timer_timeit name arenaindices benchindices mintime numrepeat).
Local Abbreviation run_benches' :=
  (run_benches T U timer_timeit name arenaindices benchindices mintime numrepeat).
Local Abbreviation pass_all := (Some (@pure_hook U (fun _ => PyNone))).

(** Without a filter a cell runs as with a filter that lets all pass. *)
Lemma run_cell_no_filter bench arena results (w : world T U) :
  run_cell' None cb bench arena results w
  = run_cell' pass_all cb bench arena results w.
Proof.
  destruct (make_trial name arenaindices benchindices bench arena) as [trial0|e] eqn:Et.
  - rewrite (run_cell_keep T U timer_timeit mintime numrepeat name _ _
               (pure_hook (fun _ => PyNone)) cb bench arena results w trial0
               PyNone (w_user w) Et eq_refl eq_refl).
    rewrite with_user_same. reflexivity.
  - rewrite !(run_cell_raise T U timer_timeit mintime numrepeat name _ _
                _ cb bench arena results w e Et).
    reflexivity.
Qed.

Lemma run_arenas_no_filter bench arenalist :
  forall results (w : world T U),
    run_arenas' None cb bench arenalist results w
    = run_arenas' pass_all cb bench arenalist results w.
Proof.
  induction arenalist as [|a al IH]; intros results w; [reflexivity|].
  simpl. unfold bind. rewrite run_cell_no_filter.
  destruct (run_cell' pass_all cb bench a results w) as [[[r|r]|e] w1];
    [apply IH | reflexivity | reflexivity].
Qed.

Lemma run_benches_no_filter benchlist arenalist :
  forall results (w : world T U),
    run_benches' None cb benchlist arenalist results w
    = run_benches' pass_all cb benchlist arenalist results w.
Proof.
  induction benchlist as [|b bl IH]; intros results w; [reflexivity|].
  simpl. unfold bind. rewrite run_arenas_no_filter.
  destruct (run_arenas' pass_all cb b arenalist results w) as [[[r|r]|e] w1];
    [apply IH | reflexivity | reflexivity].
Qed.
End NoFilterFacts.

Section FullMatrix.
Variables T U : Type.
Variable timer_timeit : T -> string -> string -> Z -> Q * T.
Variable getarenasetup :
  string -> string -> list string -> bool -> dict (K:=string) (V:=string).
Variable getbenchsetup : string -> string.
Variable getbenchstrings : string -> list string -> dict (K:=string) (V:=string).
Variable name : string.
Variables arenadict benchdict : dict (K:=string) (V:=list string).
Variables verbose cython : bool.
Variables (mintime : Q) (numrepeat : Z).

Local Abbreviation arenalist' := (getarenalist getarenasetup name arenadict cython).
Local Abbreviation benchlist' := (getbenchlist getbenchsetup getbenchstrings benchdict).
Local Abbreviation runbenchmarks' :=
  (runbenchmarks T U timer_timeit getarenasetup getbenchsetup getbenchstrings
                 name arenadict benchdict verbose cython mintime numrepeat).

(** X8: without a filter, with a callback that never says [False] (or
    none), and when the trial dict of every cell can be built, the run
    returns one measured trial for every pair of a workload and a
    candidate, workload by workload in the order of the sorted lists, and
    the timer was called for every one of them. *)
Theorem runbenchmarks_full_matrix (cb : option (hook U)) (w : world T U)
        (trials0 : list Trial.t) :
  (forall g, cb = Some g -> forall t u, is_False (fst (g t u)) = false) ->
  all_trials name (make_indices arenadict) (make_indices benchdict)
             benchlist' arenalist' = Ok trials0 ->
  exists results calls w',
    runbenchmarks' None cb w = (Ok results, w') /\
    w_log w' = w_log w ++ calls /\
    map Trial.pending results = trials0 /\
    List.length results = (List.length benchlist' * List.length arenalist')%nat /\
    (forall t0, In t0 trials0 ->
       exists c, In c calls /\
                 call_for (Trial.benchstring t0) (Trial.setupstring t0) c).
Proof.
  intros Hcb Hts.
  set (cb' := match cb with
              | None => if verbose then Some (ProgressPrinter U) else None
              | Some c => Some c
              end).
  assert (Hcb' : forall g, cb' = Some g ->
                           forall t u, is_False (fst (g t u)) = false).
  { intros g Hg. unfold cb' in Hg. destruct cb as [c|].
    - apply Hcb. exact Hg.
    - destruct verbose; [|discriminate]. inversion Hg. reflexivity. }
  destruct (run_benches_filtered T U timer_timeit mintime numrepeat name _ _
              (fun _ => PyNone) cb' Hcb' benchlist' arenalist' trials0 [] w Hts)
    as (new & calls & w' & E & L & P & _ & M).
  rewrite filter_all in P by reflexivity.
  exists new, calls, w'. split; [|split; [exact L | split; [exact P | split]]].
  - unfold runbenchmarks. cbv zeta. fold cb'. unfold bind.
    rewrite run_benches_no_filter, E. reflexivity.
  - rewrite <- (length_map Trial.pending), P.
    unfold all_trials in Hts.
    rewrite <- (Forall2_length (rmap_Forall2 _ _ _ Hts)).
    apply length_prod.
  - intros t0 Hin. apply M; [exact Hin | reflexivity].
Qed.
End FullMatrix.

Lemma runbenchmarks_full_matrix_witness :
  exists results w',
    demo_run None None = (Ok results, w') /\
    List.length results = 6%nat /\
    cells_of results
    = [("bench_n2", "zeros_mul"); ("bench_n2", "zeros_repeat");
       ("bench_n2", "zeros_slow"); ("bench_n10", "zeros_mul");
       ("bench_n10", "zeros_repeat"); ("bench_n10", "zeros_slow")].
Proof.
  edestruct (runbenchmarks_full_matrix nat nat (steady_timer (1 # 1000))
               demo_arenasetup demo_benchsetup demo_benchstrings
               demo_name demo_arenadict demo_benchdict false false (1 # 4) 3
               None (world0 0%nat))
    as (results & calls & w' & E & _ & _ & Hlen & _);
    [discriminate | vm_compute; reflexivity |].
  exists results, w'. split; [exact E|]. split; [exact Hlen|].
  unfold demo_run in E |- *.
  assert (E' := E). vm_compute in E'. inversion E'. reflexivity.
Defined.

(** ** More on [bettertimeit] *)

Lemma grow_loops_factor (runtime mintime : Q) (loops : Z) :
  exists i, (1 <= i <= 3)%Z /\ grow_loops runtime mintime loops = (loops * 2 ^ i)%Z.
Proof.
  unfold grow_loops.
  repeat match goal with
         | |- context [if ?b then _ else _] => destruct b
         end;
    first [ exists 1%Z; split; [lia | reflexivity]
          | exists 2%Z; split; [lia | reflexivity]
          | exists 3%Z; split; [lia | reflexivity] ].
Qed.

Lemma Qmult_le_nonneg_l (x y z : Q) :
  (x <= y)%Q -> (0 <= z)%Q -> (z * x <= z * y)%Q.
Proof.
  intros H Hz. rewrite (Qmult_comm z x), (Qmult_comm z y).
  apply Qmult_le_compat_r; assumption.
Qed.

(** What the ladder does to the reading of a timer that is proportional
    to the loop count: after a probe that did not exceed [mintime], the
    next one reads at most twice [mintime]. *)
Lemma grow_loops_aims_short (cost runtime mintime : Q) (loops : Z) :
  (0 <= mintime)%Q ->
  (runtime == cost * inject_Z loops)%Q ->
  Qgtb runtime mintime = false ->
  (cost * inject_Z (grow_loops runtime mintime loops) <= 2 * mintime)%Q.
Proof.
  intros Hm Er Hnot. apply Qltb_ge in Hnot.
  assert (Hmul : forall f : Z,
             (cost * inject_Z (loops * f) == inject_Z f * runtime)%Q).
  { intros f. rewrite Er, inject_Z_mult. ring. }
  assert (Hdiv : forall (d : positive) (f : Z),
             Qgtb runtime (mintime / inject_Z (Zpos d)) = false ->
             (inject_Z f * (1 # d) <= 2)%Q -> (0 <= f)%Z ->
             (inject_Z f * runtime <= 2 * mintime)%Q).
  { intros d f Hle Hf Hf0. apply Qltb_ge in Hle.
    assert (Hf0' : (0 <= inject_Z f)%Q)
      by (unfold Qle; simpl; lia).
    eapply Qle_trans.
    - exact (Qmult_le_nonneg_l _ _ _ Hle Hf0').
    - unfold Qdiv.
      assert (Einv : (/ inject_Z (Z.pos d) == 1 # d)%Q) by reflexivity.
      rewrite Einv.
      setoid_replace (inject_Z f * (mintime * (1 # d)))%Q
        with ((inject_Z f * (1 # d)) * mintime)%Q by ring.
      apply Qmult_le_compat_r; assumption. }
  unfold grow_loops.
  destruct (Qgtb runtime (mintime / 2)) eqn:E2.
  { rewrite Hmul.
    setoid_replace (2 * mintime)%Q with (inject_Z 2 * mintime)%Q by reflexivity.
    apply Qmult_le_nonneg_l; [exact Hnot | vm_compute; discriminate]. }
  destruct (Qgtb runtime (mintime / 4)) eqn:E4.
  { rewrite Hmul. apply (Hdiv 2%positive 4%Z E2); [vm_compute; discriminate | lia]. }
  destruct (Qgtb runtime (mintime / 8)) eqn:E8.
  { rewrite Hmul. apply (Hdiv 4%positive 8%Z E4); [vm_compute; discriminate | lia]. }
  destruct (Qgtb runtime (mintime / 16)) eqn:E16.
  { rewrite Hmul. apply (Hdiv 8%positive 2%Z E8); [vm_compute; discriminate | lia]. }
  destruct (Qgtb runtime (mintime / 32)) eqn:E32.
  { rewrite Hmul. apply (Hdiv 16%positive 8%Z E16); [vm_compute; discriminate | lia]. }
  destruct (Qgtb runtime (mintime / 64)) eqn:E64.
  { rewrite Hmul. apply (Hdiv 32%positive 8%Z E32); [vm_compute; discriminate | lia]. }
  rewrite Hmul. apply (Hdiv 64%positive 2%Z E64); [vm_compute; discriminate | lia].
Qed.

Section MoreTimerFacts.
Variables T U : Type.
Variable timer_timeit : T -> string -> string -> Z -> Q * T.
Variables statements setup : string.

Local Abbreviation timeit' := (timeit T U timer_timeit statements setup).
Local Abbreviation probe' := (probe T U timer_timeit statements setup).
Local Abbreviation bettertimeit' := (bettertimeit T U timer_timeit statements setup).

Lemma probe_S (mintime : Q) (k : nat) (loops : Z) (rt : option Q)
      (w : world T U) :
  probe' mintime (S k) loops rt w
  = bind T U (timeit' loops)
      (fun runtime =>
         if Qgtb runtime mintime then ret T U (loops, Some runtime)
         else probe' mintime k (grow_loops runtime mintime loops) (Some runtime))
      w.
Proof. reflexivity. Qed.

(** The loop count stays a power of two, with at most three more factors
    of two per round. *)
Lemma probe_power_of_two (mintime : Q) (n : nat) :
  forall (loops : Z) (rt : option Q) (w : world T U) (j : Z),
    (0 <= j)%Z -> loops = (2 ^ j)%Z ->
    exists loops' rt' w' j',
      probe' mintime n loops rt w = (Ok (loops', rt'), w') /\
      loops' = (2 ^ j')%Z /\ (j <= j' <= j + 3 * Z.of_nat n)%Z.
Proof.
  induction n as [|n IH]; intros loops rt w j Hj ->.
  - exists (2 ^ j)%Z, rt, w, j. split; [reflexivity|]. split; [reflexivity | lia].
  - destruct (timeit_spec T U timer_timeit statements setup (2 ^ j)%Z w)
      as (c & w1 & E1 & _).
    cbn [probe]. unfold bind at 1. rewrite E1.
    destruct (Qgtb (call_reading c) mintime).
    + exists (2 ^ j)%Z, (Some (call_reading c)), w1, j.
      split; [reflexivity|]. split; [reflexivity | lia].
    + destruct (grow_loops_factor (call_reading c) mintime (2 ^ j)%Z) as (i & Hi & Eg).
      destruct (IH (grow_loops (call_reading c) mintime (2 ^ j)%Z)
                   (Some (call_reading c)) w1 (j + i)%Z ltac:(lia))
        as (loops' & rt' & w' & j' & E & El & Hj').
      { rewrite Eg, Z.pow_add_r by lia. reflexivity. }
      exists loops', rt', w', j'. split; [exact E|]. split; [exact El | lia].
Qed.

(** X9: the loop count that [bettertimeit] returns is a power of two,
    from 2^0 to 2^96, whatever the timer reads; it is at least 2^32 when
    no probe exceeded [mintime]. *)
Theorem bettertimeit_loops_power_of_two (mintime : Q) (numrepeat : Z)
        (w : world T U) :
  exists times loops w' k,
    bettertimeit' mintime numrepeat w = (Ok (times, loops), w') /\
    loops = (2 ^ k)%Z /\ (0 <= k <= 96)%Z /\
    ((forall x, In x times -> (x * inject_Z loops <= mintime)%Q) -> (32 <= k)%Z).
Proof.
  destruct (bettertimeit_spec T U timer_timeit statements setup mintime numrepeat w)
    as (loops & pre & c & repeats & w' & E & _ & _ & _ & Hl & _ & _ & C & D & _ & _).
  destruct (probe_power_of_two mintime 32 1%Z None w 0%Z ltac:(lia) eq_refl)
    as (loops' & rt' & w1 & k & Ep & El & Hk).
  assert (Heq : loops' = loops).
  { unfold bettertimeit in E. unfold bind at 1 in E. rewrite Ep in E.
    unfold bind at 1 in E.
    destruct (timer_repeat T U timer_timeit statements setup (numrepeat - 1) loops' w1)
      as [[rs|e] w2]; [|discriminate].
    unfold bind in E. destruct rt' as [r|]; simpl in E; [|discriminate].
    unfold ret in E. inversion E. reflexivity. }
  rewrite Heq in El.
  eexists. exists loops, w', k. split; [exact E|]. split; [exact El|].
  split; [lia|].
  intros Hnone.
  assert (Hc : converged mintime c = false).
  { unfold converged. apply Qltb_ge.
    assert (Hin : In (call_reading c / inject_Z loops)%Q
                     (map (fun x => (x / inject_Z loops)%Q)
                          (map call_reading repeats ++ [call_reading c]))).
    { apply (in_map (fun x => (x / inject_Z loops)%Q)).
      apply in_or_app. right. left. reflexivity. }
    specialize (Hnone _ Hin).
    assert (Hnz : ~ (inject_Z loops == 0)%Q)
      by (intros H; unfold Qeq in H; simpl in H; lia).
    rewrite <- (Qmult_div_r (call_reading c) (inject_Z loops) Hnz).
    rewrite Qmult_comm. exact Hnone. }
  destruct (D Hc) as [_ D2].
  destruct (Z.lt_ge_cases k 32) as [Hlt | Hge]; [|exact Hge].
  exfalso. rewrite El in D2.
  assert (2 ^ k < 2 ^ 32)%Z by (apply Z.pow_lt_mono_r; lia). lia.
Qed.

(** A timer whose reading is the loop count times a constant cost. *)
Variable cost : Q.
Hypothesis proportional :
  forall t loops,
    (fst (timer_timeit t statements setup loops) == cost * inject_Z loops)%Q.

Lemma timeit_proportional (loops : Z) (w : world T U) r w1 :
  timeit' loops w = (Ok r, w1) -> (r == cost * inject_Z loops)%Q.
Proof.
  unfold timeit. pose proof (proportional (w_timer w) loops) as H.
  destruct (timer_timeit (w_timer w) statements setup loops) as [r' t].
  intros E. inversion E. subst. exact H.
Qed.

(** From a loop count whose reading is at most twice [mintime], the
    probing loop ends on such a reading. *)
Lemma probe_proportional (mintime : Q) (k : nat) :
  (0 <= mintime)%Q ->
  forall (loops : Z) (rt : option Q) (w : world T U),
    (cost * inject_Z loops <= 2 * mintime)%Q ->
    exists loops' r w',
      probe' mintime (S k) loops rt w = (Ok (loops', Some r), w') /\
      (r <= 2 * mintime)%Q.
Proof.
  intros Hm. induction k as [|k IH]; intros loops rt w Hle;
    destruct (timeit_spec T U timer_timeit statements setup loops w)
      as (c & w1 & E1 & _);
    pose proof (timeit_proportional loops w _ _ E1) as Er;
    cbn [probe]; unfold bind at 1; rewrite E1;
    destruct (Qgtb (call_reading c) mintime) eqn:Ec.
  - eexists. eexists. eexists. split; [reflexivity|]. rewrite Er. exact Hle.
  - eexists. eexists. eexists. split; [reflexivity|]. rewrite Er. exact Hle.
  - eexists. eexists. eexists. split; [reflexivity|]. rewrite Er. exact Hle.
  - exact (IH _ (Some (call_reading c)) w1
               (grow_loops_aims_short cost _ _ _ Hm Er Ec)).
Qed.

(** X10: with a timer whose reading is proportional to the loop count and
    [mintime >= 0], the last probe reads at most twice [mintime], unless
    the very first probe, of a single loop, already exceeded [mintime] (and
    then [loops] is 1): the measured runtime stays in
    (mintime, 2 * mintime] whenever probing had to grow the loop count and
    converged. *)
Theorem bettertimeit_runtime_at_most_double (mintime : Q) (numrepeat : Z)
        (w : world T U) :
  (0 <= mintime)%Q ->
  exists times loops pre c repeats w',
    bettertimeit' mintime numrepeat w = (Ok (times, loops), w') /\
    w_log w' = w_log w ++ (pre ++ [c]) ++ repeats /\
    last times 0%Q = (call_reading c / inject_Z loops)%Q /\
    (loops = 1%Z \/ (call_reading c <= 2 * mintime)%Q) /\
    (loops <> 1%Z -> converged mintime c = true ->
     (mintime < call_reading c)%Q /\ (call_reading c <= 2 * mintime)%Q).
Proof.
  intros Hm.
  destruct (probe_spec T U timer_timeit statements setup mintime 31 1%Z None w
              ltac:(lia))
    as (loops & pre & c & w1 & E1 & L1 & _).
  destruct (repeat_n_spec T U timer_timeit statements setup
              (Z.to_nat (numrepeat - 1)) loops w1)
    as (repeats & w2 & E2 & L2 & _).
  assert (Hbound : loops = 1%Z \/ (call_reading c <= 2 * mintime)%Q).
  { destruct (timeit_spec T U timer_timeit statements setup 1%Z w)
      as (c0 & w0 & E0 & _).
    pose proof (timeit_proportional 1%Z w _ _ E0) as Er.
    rewrite probe_S in E1. unfold bind at 1 in E1. rewrite E0 in E1.
    destruct (Qgtb (call_reading c0) mintime) eqn:Ec.
    - unfold ret in E1. inversion E1. left. reflexivity.
    - right.
      destruct (probe_proportional mintime 30 Hm
                  (grow_loops (call_reading c0) mintime 1)
                  (Some (call_reading c0)) w0
                  (grow_loops_aims_short cost _ _ _ Hm Er Ec))
        as (loops' & r & w' & Ep & Hr).
      rewrite Ep in E1. inversion E1. subst. exact Hr. }
  exists (map (fun x => (x / inject_Z loops)%Q)
              (map call_reading repeats ++ [call_reading c])),
         loops, pre, c, repeats, w2.
  split.
  - unfold bettertimeit. unfold bind at 1. rewrite E1.
    unfold timer_repeat. unfold bind at 1. rewrite E2. reflexivity.
  - split; [rewrite L2, L1, <- app_assoc; reflexivity|].
    split; [rewrite map_app; simpl; apply last_last|].
    split; [exact Hbound|].
    intros Hne Hc. split; [apply Qltb_lt; exact Hc|].
    destruct Hbound as [H | H]; [congruence | exact H].
Qed.
End MoreTimerFacts.

Lemma bettertimeit_runtime_at_most_double_witness :
  exists times loops pre c repeats w',
    bettertimeit nat unit (steady_timer (1 # 1000)) "stmt" "setup" (1 # 4) 3
                 (world0 tt) = (Ok (times, loops), w') /\
    w_log w' = w_log (world0 tt) ++ (pre ++ [c]) ++ repeats /\
    last times 0%Q = (call_reading c / inject_Z loops)%Q /\
    (loops = 1%Z \/ (call_reading c <= 2 * (1 # 4))%Q) /\
    (loops <> 1%Z -> converged (1 # 4) c = true ->
     (1 # 4 < call_reading c)%Q /\ (call_reading c <= 2 * (1 # 4))%Q).
Proof.
  apply (bettertimeit_runtime_at_most_double nat unit (steady_timer (1 # 1000))
           "stmt" "setup" (1 # 1000)).
  - intros t loops. reflexivity.
  - vm_compute. discriminate.
Defined.

(** ** Dicts and their keys *)

Section DictKeyFacts.
Context {K V : Type} (eqb : K -> K -> bool).
Hypothesis eqb_eq : forall a b, eqb a b = true <-> a = b.

Lemma eqb_eq_sym (a b : K) : eqb a b = eqb b a.
Proof.
  destruct (eqb a b) eqn:E1, (eqb b a) eqn:E2; try reflexivity.
  - apply eqb_eq in E1. subst. rewrite (proj2 (eqb_eq b b) eq_refl) in E2. discriminate.
  - apply eqb_eq in E2. subst. rewrite (proj2 (eqb_eq a a) eq_refl) in E1. discriminate.
Qed.

Lemma eqb_eq_trans (a b c : K) :
  eqb a b = true -> eqb b c = true -> eqb a c = true.
Proof.
  intros H1 H2. apply eqb_eq in H1, H2. subst. apply eqb_eq. reflexivity.
Qed.

Lemma dict_get_set_eq (k x : K) (v : V) (d : dict) :
  dict_get eqb x (dict_set eqb k v d)
  = if eqb k x then Some v else dict_get eqb x d.
Proof. apply dict_get_set; [apply eqb_eq_sym | apply eqb_eq_trans]. Qed.

Lemma dict_set_keys (k : K) (v : V) (d : dict) (k' : K) :
  In k' (map fst (dict_set eqb k v d)) <-> k' = k \/ In k' (map fst d).
Proof.
  induction d as [|[k0 v0] d IH]; simpl.
  - split; intros [H | H]; auto.
  - destruct (eqb k0 k) eqn:E; simpl.
    + apply eqb_eq in E. subst k0. split; [intros [H | H]; auto|].
      intros [H | [H | H]]; auto.
    + rewrite IH. split; [intros [H | [H | H]]; auto|].
      intros [H | [H | H]]; auto.
Qed.

Lemma dict_set_NoDup (k : K) (v : V) (d : dict) :
  NoDup (map fst d) -> NoDup (map fst (dict_set eqb k v d)).
Proof.
  induction d as [|[k0 v0] d IH]; simpl; intros H.
  - constructor; [intros [] | constructor].
  - inversion H as [|? ? Hk Hd]; subst.
    destruct (eqb k0 k) eqn:E; simpl; [constructor; assumption|].
    constructor; [|apply IH; exact Hd].
    rewrite dict_set_keys. intros [-> | Hin]; [|exact (Hk Hin)].
    rewrite (proj2 (eqb_eq k k) eq_refl) in E. discriminate.
Qed.

Lemma dict_get_key (k : K) (d : dict (V:=V)) :
  dict_get eqb k d <> None <-> In k (map fst d).
Proof.
  induction d as [|[k0 v0] d IH]; simpl; [split; [congruence | intros []]|].
  destruct (eqb k0 k) eqn:E.
  - apply eqb_eq in E. subst. split; [auto | discriminate].
  - rewrite IH. split; [auto|]. intros [-> | H]; [|exact H].
    rewrite (proj2 (eqb_eq k k) eq_refl) in E. discriminate.
Qed.

Lemma dict_get_item (k : K) (v : V) (d : dict) :
  dict_get eqb k d = Some v -> In (k, v) d.
Proof.
  induction d as [|[k0 v0] d IH]; simpl; [discriminate|].
  destruct (eqb k0 k) eqn:E.
  - apply eqb_eq in E. subst. intros H. inversion H. auto.
  - auto.
Qed.

Lemma dict_item_get (k : K) (v : V) (d : dict) :
  NoDup (map fst d) -> In (k, v) d -> dict_get eqb k d = Some v.
Proof.
  induction d as [|[k0 v0] d IH]; simpl; [intros _ []|].
  intros H. inversion H as [|? ? Hk Hd]; subst.
  intros [Hin | Hin].
  - inversion Hin; subst. rewrite (proj2 (eqb_eq k k) eq_refl). reflexivity.
  - destruct (eqb k0 k) eqn:E; [|auto].
    apply eqb_eq in E. subst. exfalso. apply Hk.
    apply in_map_iff. exists (k, v). auto.
Qed.
End DictKeyFacts.

(** ** [findarenas] and [findbenchmarks] *)

Lemma collect_funcs (scan : string -> list string) (filenames : list string) :
  forall (acc : dict (K:=string) (V:=list string)) (f : string),
    let d := fold_left (fun d filename =>
                          match scan filename with
                          | [] => d
                          | _ :: _ => dict_set String.eqb filename (scan filename) d
                          end) filenames acc in
    (NoDup (map fst acc) -> NoDup (map fst d)) /\
    dict_get String.eqb f d
    = match scan f with
      | [] => dict_get String.eqb f acc
      | _ :: _ => if existsb (String.eqb f) filenames then Some (scan f)
                  else dict_get String.eqb f acc
      end.
Proof.
  induction filenames as [|x r IH]; intros acc f; simpl.
  - split; [auto|]. destruct (scan f); reflexivity.
  - destruct (IH (match scan x with
                  | [] => acc
                  | _ :: _ => dict_set String.eqb x (scan x) acc
                  end) f) as [IH1 IH2].
    split.
    + intros H. apply IH1. destruct (scan x); [exact H|].
      apply (dict_set_NoDup String.eqb String.eqb_eq). exact H.
    + rewrite IH2. destruct (scan f) as [|y ys] eqn:Ef.
      * destruct (scan x) as [|z zs] eqn:Ex; [reflexivity|].
        rewrite (dict_get_set_eq String.eqb String.eqb_eq).
        destruct (String.eqb x f) eqn:E; [|reflexivity].
        apply String.eqb_eq in E. subst. congruence.
      * destruct (existsb (String.eqb f) r); [rewrite orb_true_r; reflexivity|].
        rewrite orb_false_r.
        destruct (String.eqb f x) eqn:E.
        -- apply String.eqb_eq in E. subst x. rewrite Ef.
           rewrite (dict_get_set_eq String.eqb String.eqb_eq), String.eqb_refl.
           reflexivity.
        -- destruct (scan x) as [|z zs]; [reflexivity|].
           rewrite (dict_get_set_eq String.eqb String.eqb_eq).
           rewrite String.eqb_sym, E. reflexivity.
Qed.

Lemma existsb_eqb_In (f : string) (l : list string) :
  existsb (String.eqb f) l = true <-> In f l.
Proof.
  rewrite existsb_exists. split.
  - intros (x & Hx & E). apply String.eqb_eq in E. subst. exact Hx.
  - intros H. exists f. split; [exact H | apply String.eqb_refl].
Qed.

Section FinderFacts.
Variable os_path_join : string -> string -> string -> string.
Variable getsourcedir : string.
Variable glob : string -> list string.
Variable scanfuncs : string -> list string -> bool -> list string.

Lemma glob_paths_found (suffix : string) (paths : list string) (filename : string) :
  In filename (glob_paths glob suffix paths) <-> found_by glob suffix paths filename.
Proof.
  unfold glob_paths, found_by. rewrite in_flat_map. reflexivity.
Qed.

(** X11: the dict of [findarenas] has a file once, however many patterns
    matched it; it maps exactly the files that some pattern (with the
    suffix [.py], or [.pyx] for cython, added where it is missing) globs
    and in which [scanfuncs] finds a function, to the functions found: no
    file is mapped to an empty list.  The same holds of [findbenchmarks],
    which always looks for [.py] files and scans for the prefixes as they
    are. *)
Theorem finders_entries (name : string) (cython : bool) (prefixes : list string)
        (paths : option (list string)) (filename : string) (funcs : list string) :
  let patterns := match paths with
                  | None => getpaths os_path_join getsourcedir name None None
                                     (Some prefixes)
                  | Some paths => paths
                  end in
  let arenadict := findarenas os_path_join getsourcedir glob scanfuncs
                              name cython prefixes paths in
  let benchdict := findbenchmarks os_path_join getsourcedir glob scanfuncs
                                  name prefixes paths in
  (NoDup (map fst arenadict) /\
   (dict_get String.eqb filename arenadict = Some funcs <->
    funcs <> [] /\
    funcs = scanfuncs filename (map (fun prefix => prefix ++ name)%string prefixes)
                      cython /\
    found_by glob (if cython then ".pyx" else ".py")%string patterns filename)) /\
  (NoDup (map fst benchdict) /\
   (dict_get String.eqb filename benchdict = Some funcs <->
    funcs <> [] /\
    funcs = scanfuncs filename prefixes false /\
    found_by glob ".py"%string patterns filename)).
Proof.
  intros patterns arenadict benchdict.
  assert (G : forall scan suffix,
             let d := fold_left (fun d filename =>
                          match scan filename with
                          | [] => d
                          | _ :: _ => dict_set String.eqb filename (scan filename) d
                          end) (glob_paths glob suffix patterns) [] in
             NoDup (map fst d) /\
             (dict_get String.eqb filename d = Some funcs <->
              funcs <> [] /\ funcs = scan filename /\
              found_by glob suffix patterns filename)).
  { intros scan suffix d.
    destruct (collect_funcs scan (glob_paths glob suffix patterns) [] filename)
      as [H1 H2].
    split; [apply H1; constructor|].
    fold d in H2. rewrite H2. cbn [dict_get].
    rewrite <- glob_paths_found, <- existsb_eqb_In.
    destruct (scan filename) as [|y ys]; [split; [discriminate | intros (H & -> & _); congruence]|].
    destruct (existsb (String.eqb filename) (glob_paths glob suffix patterns)).
    - split; [intros H; inversion H; repeat split; discriminate|].
      intros (_ & -> & _). reflexivity.
    - split; [discriminate | intros (_ & _ & H); discriminate]. }
  split.
  - exact (G (fun filename =>
                scanfuncs filename
                          (map (fun prefix => (prefix ++ name)%string) prefixes) cython)
             (if cython then ".pyx" else ".py")%string).
  - exact (G (fun filename => scanfuncs filename prefixes false) ".py"%string).
Qed.
End FinderFacts.

(** ** The groups of [BenchPrinter] *)

Lemma pair_eqb_eq (a b : string * string) : pair_eqb a b = true <-> a = b.
Proof.
  destruct a as [a1 a2], b as [b1 b2]. unfold pair_eqb. simpl.
  rewrite andb_true_iff, !String.eqb_eq. split.
  - intros [-> ->]. reflexivity.
  - intros H. inversion H. auto.
Qed.

Lemma pair_eqb_refl (a : string * string) : pair_eqb a a = true.
Proof. apply pair_eqb_eq. reflexivity. Qed.

(** The groups, by their keys. *)
Lemma group_results_lookup (results : list Trial.t) :
  NoDup (map fst (group_results results)) /\
  forall key,
    dict_get pair_eqb key (group_results results)
    = match filter (in_group key) results with
      | [] => None
      | t :: ts => Some (t :: ts)
      end.
Proof.
  unfold group_results.
  set (step := fun (resultdict : dict (K:=string * string) (V:=list Trial.t)) trial =>
                 dict_set pair_eqb (Trial.benchfile trial, Trial.arenafile trial)
                   (match dict_get pair_eqb
                            (Trial.benchfile trial, Trial.arenafile trial) resultdict with
                    | Some l => l
                    | None => []
                    end ++ [trial]) resultdict).
  assert (G : forall rest acc done,
             NoDup (map fst acc) ->
             (forall key, dict_get pair_eqb key acc
                          = match filter (in_group key) done with
                            | [] => None
                            | t :: ts => Some (t :: ts)
                            end) ->
             NoDup (map fst (fold_left step rest acc)) /\
             forall key, dict_get pair_eqb key (fold_left step rest acc)
                         = match filter (in_group key) (done ++ rest) with
                           | [] => None
                           | t :: ts => Some (t :: ts)
                           end).
  { induction rest as [|t rest IH]; intros acc done Hnd Hacc; simpl.
    - rewrite app_nil_r. split; assumption.
    - replace (done ++ t :: rest) with ((done ++ [t]) ++ rest)
        by (rewrite <- app_assoc; reflexivity).
      apply IH.
      + apply (dict_set_NoDup pair_eqb pair_eqb_eq). exact Hnd.
      + intros key. unfold step at 1.
        rewrite (dict_get_set_eq pair_eqb pair_eqb_eq).
        rewrite filter_app. cbn [filter]. unfold in_group at 2.
        destruct (pair_eqb (Trial.benchfile t, Trial.arenafile t) key) eqn:E.
        * apply pair_eqb_eq in E. rewrite E, Hacc.
          destruct (filter (in_group key) done); reflexivity.
        * rewrite app_nil_r. apply Hacc. }
  destruct (G results [] []) as [H1 H2]; [constructor | reflexivity|].
  split; [exact H1 | exact H2].
Qed.

(** X12: [BenchPrinter] puts every trial into the group of its pair
    (benchfile, arenafile): the group of a pair holds the trials of that
    pair, all of them, in the order of the results; a pair with no trial
    has no group (and no empty table is built for it), and no pair has two
    groups. *)
Theorem group_results_by_files (results : list Trial.t) :
  NoDup (map fst (group_results results)) /\
  forall key,
    dict_get pair_eqb key (group_results results)
    = match filter (in_group key) results with
      | [] => None
      | t :: ts => Some (t :: ts)
      end.
Proof. exact (group_results_lookup results). Qed.

(** ** The layout of a table *)

Lemma find_last_app {A} (p : A -> bool) (l1 l2 : list A) :
  find p (l1 ++ l2)
  = match find p l1 with
    | Some x => Some x
    | None => find p l2
    end.
Proof.
  induction l1 as [|x l1 IH]; simpl; [reflexivity|].
  destruct (p x); [reflexivity | exact IH].
Qed.

Lemma nat_ltb_asym (a b : nat) : Nat.ltb a b = true -> Nat.ltb b a = false.
Proof. rewrite Nat.ltb_lt, Nat.ltb_ge. lia. Qed.

Lemma nat_not_after_trans (a b c : nat) :
  not_after Nat.ltb a b -> not_after Nat.ltb b c -> not_after Nat.ltb a c.
Proof. unfold not_after. rewrite !Nat.ltb_ge. lia. Qed.

(** Sorting by keys that are all different gives strictly ascending
    keys. *)
Lemma sorted_strict {A} (key : A -> nat) (l : list A) :
  NoDup (map key l) ->
  StronglySorted Nat.lt (map key (sorted Nat.ltb key l)).
Proof.
  intros Hnd.
  assert (Hnd' : NoDup (map key (sorted Nat.ltb key l))).
  { eapply Permutation_NoDup; [|exact Hnd].
    apply Permutation_map, Permutation_sym, sorted_perm. }
  pose proof (sorted_sorted Nat.ltb key nat_ltb_asym nat_not_after_trans l) as Hs.
  induction Hs as [|x r Hr IH Hall]; simpl; [constructor|].
  inversion Hnd' as [|? ? Hx Hr']; subst.
  constructor; [apply IH; exact Hr'|].
  rewrite Forall_forall in *. intros k Hk.
  apply in_map_iff in Hk as (y & <- & Hy).
  specialize (Hall y Hy). unfold key_le, not_after in Hall.
  apply Nat.ltb_ge in Hall.
  assert (key x <> key y) by (intros E; apply Hx; rewrite E; apply in_map; exact Hy).
  lia.
Qed.

Section LayoutFacts.
Variable fmt_3g : Q -> string.
Variables arenaprefixes benchprefixes : prefix_arg.

Local Abbreviation make_raw' := (make_raw arenaprefixes benchprefixes).
Local Abbreviation add_trial' := (add_trial arenaprefixes benchprefixes).
Local Abbreviation group_trials' := (group_trials arenaprefixes benchprefixes).
Local Abbreviation build_table'' := (_build_table fmt_3g arenaprefixes benchprefixes).

Lemma cell_at_add_trial (g : dict (K:=nat) (V:=dict (K:=nat) (V:=Datum.raw)))
      (t : Trial.t) (bi ai : nat) :
  cell_at bi ai (add_trial' g t)
  = if (Trial.benchindex t =? bi)%nat && (Trial.arenaindex t =? ai)%nat
    then Some (make_raw' t) else cell_at bi ai g.
Proof.
  unfold add_trial, cell_at.
  rewrite (dict_get_set_eq Nat.eqb Nat.eqb_eq).
  destruct (Trial.benchindex t =? bi)%nat eqn:E; [|reflexivity].
  cbn [andb]. rewrite (dict_get_set_eq Nat.eqb Nat.eqb_eq).
  destruct (Trial.arenaindex t =? ai)%nat; [reflexivity|].
  apply Nat.eqb_eq in E. subst bi.
  destruct (dict_get Nat.eqb (Trial.benchindex t) g); reflexivity.
Qed.

Lemma cell_at_group (trials : list Trial.t) :
  forall acc bi ai,
    cell_at bi ai (fold_left add_trial' trials acc)
    = match last_trial_at bi ai trials with
      | Some t => Some (make_raw' t)
      | None => cell_at bi ai acc
      end.
Proof.
  induction trials as [|t r IH]; intros acc bi ai; [reflexivity|].
  cbn [fold_left]. rewrite IH. unfold last_trial_at. cbn [rev].
  rewrite find_last_app.
  destruct (find _ (rev r)); [reflexivity|].
  rewrite cell_at_add_trial. cbn [find].
  destruct ((Trial.benchindex t =? bi)%nat && (Trial.arenaindex t =? ai)%nat);
    reflexivity.
Qed.

(** No row index and, in a row, no column index is stored twice. *)
Lemma group_trials_keys (trials : list Trial.t) :
  NoDup (map fst (group_trials' trials)) /\
  forall bi row, In (bi, row) (group_trials' trials) -> NoDup (map fst row).
Proof.
  unfold group_trials.
  assert (G : forall ts (acc : dict (K:=nat) (V:=dict (K:=nat) (V:=Datum.raw))),
             NoDup (map fst acc) ->
             (forall bi row, In (bi, row) acc -> NoDup (map fst row)) ->
             NoDup (map fst (fold_left add_trial' ts acc)) /\
             forall bi row, In (bi, row) (fold_left add_trial' ts acc) ->
                            NoDup (map fst row)).
  { induction ts as [|t ts IH]; intros acc H1 H2; simpl; [split; assumption|].
    apply IH.
    - apply (dict_set_NoDup Nat.eqb Nat.eqb_eq). exact H1.
    - intros bi row Hin. unfold add_trial in Hin.
      apply In_dict_set in Hin as [Hin | ->]; [eapply H2; exact Hin|].
      apply (dict_set_NoDup Nat.eqb Nat.eqb_eq).
      destruct (dict_get Nat.eqb (Trial.benchindex t) acc) as [row0|] eqn:Eg;
        [|constructor].
      apply (dict_get_item Nat.eqb Nat.eqb_eq) in Eg. eapply H2. exact Eg. }
  apply G; [constructor | intros ? ? []].
Qed.

(** The elements that the first loop stores are those of the last trial
    of every cell. *)
Lemma group_trials_cells (trials : list Trial.t) (bi ai : nat) (raw : Datum.raw) :
  (exists row, In (bi, row) (group_trials' trials) /\ In (ai, raw) row) <->
  (exists t, last_trial_at bi ai trials = Some t /\ raw = make_raw' t).
Proof.
  destruct (group_trials_keys trials) as [K1 K2].
  pose proof (cell_at_group trials [] bi ai) as Hc.
  fold (group_trials' trials) in Hc.
  unfold cell_at at 2 in Hc. cbn [dict_get] in Hc.
  split.
  - intros (row & Hrow & Hraw).
    unfold cell_at in Hc.
    rewrite (dict_item_get Nat.eqb Nat.eqb_eq _ _ _ K1 Hrow) in Hc.
    rewrite (dict_item_get Nat.eqb Nat.eqb_eq _ _ _ (K2 _ _ Hrow) Hraw) in Hc.
    destruct (last_trial_at bi ai trials) as [t|]; [|discriminate].
    exists t. split; [reflexivity | congruence].
  - intros (t & Et & ->). rewrite Et in Hc. unfold cell_at in Hc.
    destruct (dict_get Nat.eqb bi (group_trials' trials)) as [row|] eqn:Er;
      [|discriminate].
    exists row. split; apply (dict_get_item Nat.eqb Nat.eqb_eq); assumption.
Qed.

Lemma last_trial_at_indices (bi ai : nat) (trials : list Trial.t) (t : Trial.t) :
  last_trial_at bi ai trials = Some t ->
  In t trials /\ Trial.benchindex t = bi /\ Trial.arenaindex t = ai.
Proof.
  unfold last_trial_at. intros H. apply find_some in H as [Hin Hp].
  apply andb_true_iff in Hp as [H1 H2]. apply Nat.eqb_eq in H1, H2.
  split; [apply in_rev; exact Hin | split; assumption].
Qed.

(** The second loop keeps the keys and the identity of the elements. *)
Lemma finish_row_cells (raws : dict (K:=nat) (V:=Datum.raw))
      (frow : dict (K:=nat) (V:=Datum.t)) :
  finish_row fmt_3g raws = Ok frow ->
  Forall2 (fun kraw kd =>
             fst kd = fst kraw /\
             Datum.benchindex (snd kd) = Datum.raw_benchindex (snd kraw) /\
             Datum.arenaindex (snd kd) = Datum.raw_arenaindex (snd kraw) /\
             Datum.trialdata (snd kd) = Datum.raw_trialdata (snd kraw))
          raws frow.
Proof.
  unfold finish_row.
  destruct (rmap raw_time (dict_values raws)) as [secs|]; simpl; [|discriminate].
  destruct (list_get (sorted Qltb (fun x => x) secs) 0) as [minval|];
    simpl; [|discriminate].
  destruct (list_get (sorted Qltb (fun x => x) secs) _) as [maxval|];
    simpl; [|discriminate].
  destruct (best_units maxval) as [scale units].
  intros H. apply rmap_Forall2 in H.
  eapply Forall2_impl; [|exact H].
  intros [k raw] [k' d]. simpl.
  unfold finish_datum.
  destruct (raw_time raw) as [s|]; simpl; [|discriminate].
  destruct (dict_get Qeq_bool s _) as [r|]; simpl; [|discriminate].
  destruct (float_div s minval) as [rel|]; simpl; [|discriminate].
  intros E. inversion E. simpl. repeat split.
Qed.

Lemma Forall2_fst_eq {A B C} (R : A * B -> A * C -> Prop)
      (l : list (A * B)) (l' : list (A * C)) :
  Forall2 R l l' -> (forall x y, R x y -> fst y = fst x) -> map fst l' = map fst l.
Proof.
  induction 1 as [|x y l l' Hxy H IH]; intros Hf; simpl; [reflexivity|].
  rewrite (Hf x y Hxy), IH by exact Hf. reflexivity.
Qed.

Lemma Forall2_In_l {A B} (R : A -> B -> Prop) (l : list A) (l' : list B) (x : A) :
  Forall2 R l l' -> In x l -> exists y, In y l' /\ R x y.
Proof.
  induction 1 as [|a b l l' Hab H IH]; simpl; [contradiction|].
  intros [<- | Hx]; [eauto|].
  destruct (IH Hx) as (y & Hy & Hr). eauto.
Qed.

(** The rows of a table that was built, with their row indices and the
    column indices of their cells, before the final sorting. *)
Lemma build_table_struct (trials : list Trial.t) (tbl : table) :
  build_table'' trials = Ok tbl ->
  exists bybench : dict (K:=nat) (V:=dict (K:=nat) (V:=Datum.t)),
    tbl = map (fun kv => map snd (sorted Nat.ltb fst (snd kv)))
              (sorted Nat.ltb fst bybench) /\
    NoDup (map fst bybench) /\
    (forall bi frow, In (bi, frow) bybench ->
       frow <> [] /\ NoDup (map fst frow) /\
       forall ai d, In (ai, d) frow ->
         Datum.benchindex d = bi /\ Datum.arenaindex d = ai /\
         last_trial_at bi ai trials = Some (Datum.trialdata d)) /\
    (forall bi ai t, last_trial_at bi ai trials = Some t ->
       exists frow d, In (bi, frow) bybench /\ In (ai, d) frow /\
                      Datum.trialdata d = t).
Proof.
  unfold _build_table.
  destruct (rmap _ (group_trials' trials)) as [bybench|] eqn:Eb; simpl; [|discriminate].
  intros H. inversion H. clear H. exists bybench. split; [reflexivity|].
  destruct (group_trials_keys trials) as [K1 K2].
  assert (HF : Forall2 (fun kraws kfrow =>
                          fst kfrow = fst kraws /\
                          finish_row fmt_3g (snd kraws) = Ok (snd kfrow))
                       (group_trials' trials) bybench).
  { eapply Forall2_impl; [|exact (rmap_Forall2 _ _ _ Eb)].
    intros [bi raws] [bi' frow]. simpl.
    destruct (finish_row fmt_3g raws); simpl; [|discriminate].
    intros E. inversion E. auto. }
  split.
  { rewrite (Forall2_fst_eq _ _ _ HF); [exact K1 | intros x y [E _]; exact E]. }
  split.
  - intros bi frow Hin.
    destruct (Forall2_In_r _ _ _ _ HF Hin) as ([bi0 raws] & Hraws & E & Ef).
    simpl in E, Ef. subst bi0.
    pose proof (finish_row_cells raws frow Ef) as Hc.
    split.
    { pose proof (group_trials_nonempty arenaprefixes benchprefixes trials bi raws Hraws).
      destruct Hc; [congruence | discriminate]. }
    split.
    { rewrite (Forall2_fst_eq _ _ _ Hc); [exact (K2 _ _ Hraws)|].
      intros x y (E & _). exact E. }
    intros ai d Hd.
    destruct (Forall2_In_r _ _ _ _ Hc Hd) as ([ai0 raw] & Hraw & E1 & E2 & E3 & E4).
    simpl in E1, E2, E3, E4. subst ai0.
    destruct (proj1 (group_trials_cells trials bi ai raw)) as (t & Et & ->);
      [exists raws; auto|].
    destruct (last_trial_at_indices _ _ _ _ Et) as (_ & I1 & I2).
    rewrite E2, E3, E4. simpl. auto.
  - intros bi ai t Et.
    destruct (proj2 (group_trials_cells trials bi ai (make_raw' t)))
      as (raws & Hraws & Hraw); [eauto|].
    destruct (Forall2_In_l _ _ _ _ HF Hraws) as ([bi0 frow] & Hfrow & E & Ef).
    simpl in E, Ef. subst bi0.
    destruct (Forall2_In_l _ _ _ _ (finish_row_cells raws frow Ef) Hraw)
      as ([ai0 d] & Hd & E1 & _ & _ & E4).
    simpl in E1, E4. subst ai0.
    exists frow, d. auto.
Qed.

(** X13: the rows of a table are in the strictly ascending order of their
    row indices and the cells of a row in the strictly ascending order of
    their column indices; no row is empty, and all cells of a row carry
    the index of the row.  So no two cells of the table share both
    indices. *)
Theorem build_table_layout (trials : list Trial.t) (tbl : table) :
  build_table'' trials = Ok tbl ->
  exists bis,
    StronglySorted Nat.lt bis /\
    Forall2 (fun bi row =>
               row <> [] /\
               Forall (fun d => Datum.benchindex d = bi) row /\
               StronglySorted Nat.lt (map Datum.arenaindex row))
            bis tbl.
Proof.
  intros Hb.
  destruct (build_table_struct trials tbl Hb) as (bybench & -> & Hnd & Hrows & _).
  clear Hb.
  exists (map fst (sorted Nat.ltb fst bybench)).
  split; [apply sorted_strict; exact Hnd|].
  assert (Hin : forall kv, In kv (sorted Nat.ltb fst bybench) -> In kv bybench)
    by (intros kv; apply Permutation_in, sorted_perm).
  induction (sorted Nat.ltb fst bybench) as [|[bi frow] rest IH]; simpl;
    constructor.
  - destruct (Hrows bi frow (Hin _ (or_introl eq_refl))) as (Hne & Hk & Hcells).
    assert (Hcells' : forall kd, In kd (sorted Nat.ltb fst frow) ->
                        Datum.benchindex (snd kd) = bi /\
                        Datum.arenaindex (snd kd) = fst kd).
    { intros [ai d] Hd. apply (Permutation_in _ (sorted_perm _ _ _)) in Hd.
      destruct (Hcells ai d Hd) as (E1 & E2 & _). simpl. auto. }
    split.
    { intros E. apply Hne.
      pose proof (sorted_length Nat.ltb fst frow) as L.
      apply map_eq_nil in E. rewrite E in L. destruct frow; [reflexivity | discriminate]. }
    split.
    { rewrite Forall_forall. intros d Hd.
      apply in_map_iff in Hd as (kd & <- & Hkd). apply Hcells'. exact Hkd. }
    assert (E : map Datum.arenaindex (map snd (sorted Nat.ltb fst frow))
                = map fst (sorted Nat.ltb fst frow)).
    { rewrite map_map. apply map_ext_in. intros kd Hkd. apply Hcells'. exact Hkd. }
    rewrite E. apply sorted_strict. exact Hk.
  - apply IH. intros kv Hkv. apply Hin. right. exact Hkv.
Qed.

(** X14: a table has one cell for every pair of a row index and a column
    index that occurs among the trials, and the cell is built from the
    last trial of that pair: a later trial of the same cell replaces the
    earlier ones. *)
Theorem build_table_cells (trials : list Trial.t) (tbl : table) :
  build_table'' trials = Ok tbl ->
  forall bi ai t,
    last_trial_at bi ai trials = Some t <->
    exists row d, In row tbl /\ In d row /\
                  Datum.benchindex d = bi /\ Datum.arenaindex d = ai /\
                  Datum.trialdata d = t.
Proof.
  intros Hb bi ai t.
  destruct (build_table_struct trials tbl Hb) as (bybench & -> & Hnd & Hrows & Hall).
  split.
  - intros Et. destruct (Hall bi ai t Et) as (frow & d & Hfrow & Hd & E).
    destruct (Hrows bi frow Hfrow) as (_ & _ & Hcells).
    destruct (Hcells ai d Hd) as (E1 & E2 & _).
    exists (map snd (sorted Nat.ltb fst frow)), d.
    split.
    { apply in_map_iff. exists (bi, frow). split; [reflexivity|].
      apply (Permutation_in _ (Permutation_sym (sorted_perm _ _ _))). exact Hfrow. }
    split; [|auto].
    apply in_map_iff. exists (ai, d). split; [reflexivity|].
    apply (Permutation_in _ (Permutation_sym (sorted_perm _ _ _))). exact Hd.
  - intros (row & d & Hrow & Hd & E1 & E2 & E3).
    apply in_map_iff in Hrow as ([bi0 frow] & <- & Hfrow).
    apply (Permutation_in _ (sorted_perm _ _ _)) in Hfrow.
    apply in_map_iff in Hd as ([ai0 d0] & Ed & Hd). simpl in Ed. subst d0.
    apply (Permutation_in _ (sorted_perm _ _ _)) in Hd.
    destruct (Hrows bi0 frow Hfrow) as (_ & _ & Hcells).
    destruct (Hcells ai0 d Hd) as (I1 & I2 & Et).
    rewrite <- E1, <- E2, <- E3, I1, I2. exact Et.
Qed.
End LayoutFacts.

(** ** The errors of [_build_table] *)

Lemma rmap_raise {A B} (f : A -> result B) (l : list A) (e : exn) :
  rmap f l = Raise e -> exists x, In x l /\ f x = Raise e.
Proof.
  induction l as [|x l IH]; simpl; [discriminate|].
  destruct (f x) as [y|e'] eqn:Ef; simpl.
  - destruct (rmap f l) as [ys|e'']; simpl; [discriminate|].
    intros H. inversion H. subst.
    destruct (IH eq_refl) as (z & Hz & Ez). eauto.
  - intros H. inversion H. subst. eauto.
Qed.

(** When [e] is the only exception that [f] raises on the list, and it
    does raise it, then so does the loop. *)
Lemma rmap_only_raise {A B} (f : A -> result B) (l : list A) (e : exn) :
  (forall x, In x l -> (exists y, f x = Ok y) \/ f x = Raise e) ->
  (exists x, In x l /\ f x = Raise e) ->
  rmap f l = Raise e.
Proof.
  induction l as [|x l IH]; intros Hall (z & Hz & Ez); simpl; [contradiction|].
  destruct (Hall x (or_introl eq_refl)) as [[y Ey] | Ex].
  - rewrite Ey. simpl. rewrite IH; [reflexivity | |].
    + intros x' Hx'. apply Hall. right. exact Hx'.
    + destruct Hz as [-> | Hz]; [congruence | eauto].
  - rewrite Ex. reflexivity.
Qed.

Section TableErrors.
Variable fmt_3g : Q -> string.
Variables arenaprefixes benchprefixes : prefix_arg.

(** A row whose elements all have a time is analysed unless its least
    time is zero, and then the division of the first element by it
    fails. *)
Lemma finish_row_outcome (raws : dict (K:=nat) (V:=Datum.raw)) :
  raws <> [] ->
  (forall raw, In raw (dict_values raws) ->
               exists s, Datum.raw_seconds raw = Some s) ->
  exists minval,
    (exists raw, In raw (dict_values raws) /\ Datum.raw_seconds raw = Some minval) /\
    (forall raw s, In raw (dict_values raws) -> Datum.raw_seconds raw = Some s ->
                   (minval <= s)%Q) /\
    (if Qeq_bool minval 0 then finish_row fmt_3g raws = Raise ZeroDivisionError
     else exists row, finish_row fmt_3g raws = Ok row).
Proof.
  intros Hne Hraw. unfold finish_row.
  destruct (rmap_ok raw_time (dict_values raws)) as [secs Es].
  { intros raw Hin. destruct (Hraw raw Hin) as (s & E).
    unfold raw_time. rewrite E. eauto. }
  rewrite Es. cbn [rbind].
  pose proof (rmap_Forall2 _ _ _ Es) as HF.
  assert (Hsecs1 : forall s, In s secs ->
                     exists raw, In raw (dict_values raws) /\
                                 Datum.raw_seconds raw = Some s).
  { intros s Hin. destruct (Forall2_In_r _ _ _ _ HF Hin) as (raw & Hr & E).
    exists raw. split; [exact Hr|]. unfold raw_time in E.
    destruct (Datum.raw_seconds raw); [inversion E; reflexivity | discriminate]. }
  assert (Hsecs2 : forall raw s, In raw (dict_values raws) ->
                     Datum.raw_seconds raw = Some s -> In s secs).
  { intros raw s Hin E. destruct (Forall2_In_l _ _ _ _ HF Hin) as (s' & Hs' & E').
    unfold raw_time in E'. rewrite E in E'. inversion E'. subst. exact Hs'. }
  destruct (sorted_times secs) as [Hs Hp].
  assert (Hlen : List.length secs = List.length raws).
  { rewrite <- (Forall2_length HF). unfold dict_values. apply length_map. }
  remember (sorted Qltb (fun x => x) secs) as sortedvals.
  destruct sortedvals as [|minval rest].
  { apply Permutation_length in Hp. simpl in Hp.
    destruct raws; [congruence | simpl in Hlen; lia]. }
  cbn [list_get nth_error rbind].
  destruct (list_get_ok (minval :: rest) (List.length (minval :: rest) - 1))
    as [maxval Emax]; [simpl; lia|].
  rewrite Emax. cbn [rbind].
  destruct (best_units maxval) as [scale units].
  exists minval. split.
  { apply Hsecs1, (Permutation_in _ Hp). left. reflexivity. }
  split.
  { intros raw s Hin E.
    pose proof (Permutation_in _ (Permutation_sym Hp) (Hsecs2 raw s Hin E)) as Hs2.
    inversion Hs as [|? ? _ Hall]; subst.
    destruct Hs2 as [<- | Hrest]; [apply Qle_refl|].
    rewrite Forall_forall in Hall. apply Hall. exact Hrest. }
  assert (Hrank : forall raw s, In raw (dict_values raws) ->
                    Datum.raw_seconds raw = Some s ->
                    exists r, dict_get Qeq_bool s (rank_dict (minval :: rest)) = Some r).
  { intros raw s Hin E.
    rewrite Heqsortedvals, rank_dict_sorted, <- Heqsortedvals.
    assert (Hex : existsb (fun k0 => Qeq_bool k0 s) (minval :: rest) = true).
    { apply existsb_exists. exists s. split; [|apply Qeq_bool_iff; reflexivity].
      apply (Permutation_in _ (Permutation_sym Hp)). eapply Hsecs2; eassumption. }
    rewrite Hex. eauto. }
  destruct (Qeq_bool minval 0) eqn:Hz.
  - destruct raws as [|[k raw] raws']; [congruence|].
    cbn [rmap fst snd].
    destruct (Hraw raw (or_introl eq_refl)) as (s & E).
    destruct (Hrank raw s (or_introl eq_refl) E) as (r & Er).
    unfold finish_datum at 1, raw_time, float_div. rewrite E. cbn [rbind].
    rewrite Er. cbn [rbind]. rewrite Hz. reflexivity.
  - apply rmap_ok. intros [k raw] Hin. simpl.
    assert (Hin' : In raw (dict_values raws))
      by (apply in_map_iff; exists (k, raw); auto).
    destruct (Hraw raw Hin') as (s & E).
    destruct (Hrank raw s Hin' E) as (r & Er).
    unfold finish_datum, raw_time, float_div. rewrite E. cbn [rbind].
    rewrite Er. cbn [rbind]. rewrite Hz. cbn [rbind]. eauto.
Qed.

(** A row is not analysed only when an element has no time or when the
    least time is zero. *)
Lemma finish_row_raises (raws : dict (K:=nat) (V:=Datum.raw)) (e : exn) :
  raws <> [] ->
  finish_row fmt_3g raws = Raise e ->
  (e = TypeError /\
   exists raw, In raw (dict_values raws) /\ Datum.raw_seconds raw = None) \/
  (e = ZeroDivisionError /\
   exists raw s, In raw (dict_values raws) /\ Datum.raw_seconds raw = Some s /\
                 (s == 0)%Q).
Proof.
  intros Hne H.
  destruct (rmap raw_time (dict_values raws)) as [secs|e'] eqn:Es.
  - right.
    destruct (finish_row_outcome raws Hne) as (minval & (raw & Hin & E) & _ & Hout).
    { intros raw Hin.
      destruct (Forall2_In_l _ _ _ _ (rmap_Forall2 _ _ _ Es) Hin) as (s & _ & E).
      unfold raw_time in E.
      destruct (Datum.raw_seconds raw); [eauto | discriminate]. }
    destruct (Qeq_bool minval 0) eqn:Hz.
    + rewrite Hout in H. inversion H. split; [reflexivity|].
      exists raw, minval. repeat split; [exact Hin | exact E|].
      apply Qeq_bool_iff. exact Hz.
    + destruct Hout as [row Er]. congruence.
  - left. unfold finish_row in H. rewrite Es in H. simpl in H. inversion H. subst e'.
    destruct (rmap_raise _ _ _ Es) as (raw & Hin & E).
    unfold raw_time in E.
    destruct (Datum.raw_seconds raw) eqn:Er; [discriminate|].
    inversion E. split; [reflexivity | eauto].
Qed.

(** The two ways in which [_build_table] fails. *)
Lemma build_table_raises (trials : list Trial.t) (e : exn) :
  _build_table fmt_3g arenaprefixes benchprefixes trials = Raise e ->
  (e = TypeError /\ exists t, In t trials /\ Trial.mintime t = None) \/
  (e = ZeroDivisionError /\
   exists t s, In t trials /\ Trial.mintime t = Some s /\ (s == 0)%Q).
Proof.
  unfold _build_table.
  destruct (rmap _ (group_trials arenaprefixes benchprefixes trials))
    as [bybench|e'] eqn:Eb; simpl; [discriminate|].
  intros H. inversion H. subst e'. clear H.
  destruct (rmap_raise _ _ _ Eb) as ([bi raws] & Hin & Ef). simpl in Ef.
  destruct (finish_row fmt_3g raws) as [row|e'] eqn:Er; simpl in Ef; [discriminate|].
  inversion Ef. subst e'. clear Ef.
  assert (Hraw : forall raw, In raw (dict_values raws) ->
                   exists t, In t trials /\
                             Datum.raw_seconds raw = Trial.mintime t).
  { intros raw Hr. apply in_map_iff in Hr as ([ai raw'] & <- & Hr).
    destruct (group_trials_raw arenaprefixes benchprefixes trials bi raws ai raw'
                Hin Hr) as (t & Ht & ->).
    exists t. split; [exact Ht | reflexivity]. }
  destruct (finish_row_raises raws e
              (group_trials_nonempty arenaprefixes benchprefixes trials bi raws Hin) Er)
    as [(-> & raw & Hr & E) | (-> & raw & s & Hr & E & Hz)];
    destruct (Hraw raw Hr) as (t & Ht & Et); rewrite Et in E.
  - left. split; [reflexivity | eauto].
  - right. split; [reflexivity|]. exists t, s. auto.
Qed.

(** X15: a table is not built only for one of two reasons: a trial that
    was not measured (its [mintime] is [None]: [TypeError]), or a trial
    whose best time is zero ([ZeroDivisionError], from the relative
    time).  In particular neither the look-up of a rank nor the access to
    the least and the greatest time of a row ever fails. *)
Theorem build_table_raises_only (trials : list Trial.t) (e : exn) :
  _build_table fmt_3g arenaprefixes benchprefixes trials = Raise e ->
  (e = TypeError /\ exists t, In t trials /\ Trial.mintime t = None) \/
  (e = ZeroDivisionError /\
   exists t s, In t trials /\ Trial.mintime t = Some s /\ (s == 0)%Q).
Proof. exact (build_table_raises trials e). Qed.

(** X16: when all trials are measured and no time is negative, a trial
    with a best time of zero that is the last of its cell makes
    [_build_table] raise [ZeroDivisionError]. *)
Theorem build_table_zero_time (trials : list Trial.t) (bi ai : nat) (t0 : Trial.t)
        (s0 : Q) :
  (forall t, In t trials -> exists s, Trial.mintime t = Some s /\ (0 <= s)%Q) ->
  last_trial_at bi ai trials = Some t0 ->
  Trial.mintime t0 = Some s0 -> (s0 == 0)%Q ->
  _build_table fmt_3g arenaprefixes benchprefixes trials = Raise ZeroDivisionError.
Proof.
  intros Hall Hlast Hs0 Hz. unfold _build_table.
  assert (Hraw : forall bi raws raw,
             In (bi, raws) (group_trials arenaprefixes benchprefixes trials) ->
             In raw (dict_values raws) ->
             exists s, Datum.raw_seconds raw = Some s /\ (0 <= s)%Q).
  { intros bi' raws raw Hin Hr. apply in_map_iff in Hr as ([ai' raw'] & <- & Hr).
    destruct (group_trials_raw arenaprefixes benchprefixes trials bi' raws ai' raw'
                Hin Hr) as (t & Ht & ->).
    apply Hall. exact Ht. }
  assert (Hrow : forall bi raws,
             In (bi, raws) (group_trials arenaprefixes benchprefixes trials) ->
             exists minval,
               (0 <= minval)%Q /\
               (forall raw s, In raw (dict_values raws) ->
                              Datum.raw_seconds raw = Some s -> (minval <= s)%Q) /\
               (if Qeq_bool minval 0
                then finish_row fmt_3g raws = Raise ZeroDivisionError
                else exists row, finish_row fmt_3g raws = Ok row)).
  { intros bi' raws Hin.
    destruct (finish_row_outcome raws) as (minval & (raw & Hr & E) & Hmin & Hout).
    - eapply group_trials_nonempty. exact Hin.
    - intros raw Hr. destruct (Hraw bi' raws raw Hin Hr) as (s & E & _). eauto.
    - exists minval. split; [|split; assumption].
      destruct (Hraw bi' raws raw Hin Hr) as (s & E' & Hs). congruence. }
  rewrite (rmap_only_raise _ _ ZeroDivisionError); [reflexivity | |].
  - intros [bi' raws] Hin. simpl.
    destruct (Hrow bi' raws Hin) as (minval & _ & _ & Hout).
    destruct (Qeq_bool minval 0).
    + right. rewrite Hout. reflexivity.
    + left. destruct Hout as [row Er]. rewrite Er. simpl. eauto.
  - destruct (proj2 (group_trials_cells arenaprefixes benchprefixes trials bi ai
                       (make_raw arenaprefixes benchprefixes t0)))
      as (raws & Hraws & Hr0); [eauto|].
    exists (bi, raws). split; [exact Hraws|]. simpl.
    destruct (Hrow bi raws Hraws) as (minval & Hnn & Hmin & Hout).
    assert (Hle : (minval <= s0)%Q).
    { apply (Hmin (make_raw arenaprefixes benchprefixes t0)); [|exact Hs0].
      apply in_map_iff. exists (ai, make_raw arenaprefixes benchprefixes t0). auto. }
    assert (Hm0 : Qeq_bool minval 0 = true).
    { apply Qeq_bool_iff. apply Qle_antisym; [|exact Hnn].
      rewrite <- Hz. exact Hle. }
    rewrite Hm0 in Hout. rewrite Hout. reflexivity.
Qed.
End TableErrors.

(** ** More on [to_gfm] *)

Lemma widen_row_raises (row : list string) :
  forall start maxwidths,
    (start <= List.length maxwidths)%nat ->
    (List.length maxwidths < start + List.length row)%nat ->
    rfold widen (enumerate_from start row) maxwidths = Raise IndexError.
Proof.
  induction row as [|sval row IH]; intros start maxwidths H1 H2; simpl in *; [lia|].
  unfold widen at 1. simpl.
  destruct (Nat.eq_dec start (List.length maxwidths)) as [E | E].
  - unfold list_get.
    rewrite (proj2 (nth_error_None maxwidths start)) by lia. reflexivity.
  - destruct (list_get_ok maxwidths start ltac:(lia)) as [w Ew]. rewrite Ew. simpl.
    destruct (list_set_ok maxwidths start (Nat.max w (String.length sval)) ltac:(lia))
      as (mw1 & E1 & L1).
    rewrite E1. simpl. apply IH; lia.
Qed.

Lemma max_widths_raises (data : list (list string)) :
  forall init,
    (exists row, In row data /\ (List.length init < List.length row)%nat) ->
    max_widths data init = Raise IndexError.
Proof.
  unfold max_widths.
  induction data as [|row data IH]; intros init (bad & Hin & Hbad); simpl;
    [contradiction|].
  destruct (Nat.le_gt_cases (List.length row) (List.length init)) as [Hle | Hgt].
  - destruct (widen_row_ok row 0 init ltac:(simpl; lia)) as (mw1 & E1 & L1).
    rewrite E1. simpl. apply IH. exists bad. rewrite L1.
    destruct Hin as [-> | Hin]; [lia | auto].
  - rewrite widen_row_raises; [reflexivity | lia | simpl; lia].
Qed.

Lemma row_text_length (relative rank : bool) (row : list Datum.t)
      (texts : list string) :
  row_text relative rank row = Ok texts ->
  row <> [] /\ List.length texts = S (List.length row).
Proof.
  destruct row as [|d row]; [discriminate|].
  unfold row_text. cbn [list_get nth_error rbind]. intros H. inversion H.
  split; [discriminate|]. simpl. rewrite length_map. reflexivity.
Qed.

(** X17: [to_gfm] raises [IndexError] on a table that it cannot lay out:
    one without a row, with an empty row, or with a row that has more
    cells than the first, whose cells give the header its columns.  (Rows
    of different lengths come from a run in which the filter skipped some
    cells.) *)
Theorem to_gfm_index_error (linesep : string) (tbl : table) (relative rank : bool) :
  relative && rank = false ->
  tbl = [] \/
  (exists row, In row tbl /\
               (row = [] \/ (List.length (hd [] tbl) < List.length row)%nat)) ->
  to_gfm linesep tbl relative rank = Raise IndexError.
Proof.
  intros Hconf Hbad. unfold to_gfm. rewrite Hconf.
  destruct tbl as [|first_row rest]; [reflexivity|].
  destruct Hbad as [Hbad | (bad & Hin & Hbad)]; [discriminate|].
  cbn [list_get nth_error rbind hd] in *.
  set (tbl := first_row :: rest) in *.
  destruct (rmap (row_text relative rank) tbl) as [rows|e] eqn:Er.
  - cbn [rbind].
    rewrite max_widths_raises; [reflexivity|].
    destruct (Forall2_In_l _ _ _ _ (rmap_Forall2 _ _ _ Er) Hin) as (texts & Ht & Et).
    apply row_text_length in Et as [Hne Hlen].
    exists texts. split; [right; exact Ht|].
    rewrite repeat_length. simpl. rewrite length_map.
    destruct Hbad as [-> | Hbad]; [congruence | lia].
  - destruct (rmap_raise _ _ _ Er) as (row & _ & Erow).
    destruct row as [|d row]; [|discriminate].
    inversion Erow. reflexivity.
Qed.

Lemma str_times_length (s : string) (n : nat) :
  String.length (str_times s n) = (n * String.length s)%nat.
Proof.
  induction n as [|n IH]; simpl; [reflexivity|].
  rewrite string_length_app, IH. reflexivity.
Qed.

(** A text that is not longer than the width is centred to the width. *)
Lemma center_length (sval : string) (width : nat) :
  (String.length sval <= width)%nat -> String.length (center sval width) = width.
Proof.
  intros H. unfold center.
  destruct (width <=? String.length sval)%nat eqn:E.
  - apply Nat.leb_le in E. lia.
  - apply Nat.leb_gt in E.
    set (marg := (width - String.length sval)%nat).
    assert (Hleft : (marg / 2 + (if Nat.odd marg && Nat.odd width then 1 else 0)
                     <= marg)%nat).
    { pose proof (Nat.div_mod_eq marg 2) as Hdm.
      destruct (Nat.odd marg) eqn:Eo; cbn [andb].
      - assert (marg mod 2 = 1)%nat.
        { rewrite <- Nat.bit0_mod, Nat.bit0_odd, Eo. reflexivity. }
        destruct (Nat.odd width); lia.
      - lia. }
    set (left := (marg / 2 + (if Nat.odd marg && Nat.odd width then 1 else 0))%nat)
      in *.
    rewrite !string_length_app, !str_times_length.
    change (String.length " ") with 1%nat. unfold marg in *. lia.
Qed.

Lemma list_get_nth {A} (l : list A) (i : nat) (x d : A) :
  list_get l i = Ok x -> nth i l d = x /\ (i < List.length l)%nat.
Proof.
  unfold list_get. destruct (nth_error l i) as [y|] eqn:E; [|discriminate].
  intros H. inversion H. subst. split.
  - apply nth_error_nth. exact E.
  - apply nth_error_Some. congruence.
Qed.

Lemma list_set_nth {A} (l : list A) (i : nat) (v d : A) (l' : list A) :
  list_set l i v = Ok l' ->
  forall j, nth j l' d = if (j =? i)%nat then v else nth j l d.
Proof.
  revert i l'. induction l as [|x l IH]; intros i l' H; simpl in H; [destruct i; discriminate|].
  destruct i as [|i].
  - inversion H. intros [|j]; reflexivity.
  - destruct (list_set l i v) as [r|] eqn:E; simpl in H; [|discriminate].
    inversion H. intros [|j]; [reflexivity|]. simpl. apply (IH i r E).
Qed.

(** The widths after a row are not less than before, and not less than
    the lengths of the texts of the row. *)
Lemma widen_row_bounds (row : list string) :
  forall start maxwidths,
    (start + List.length row <= List.length maxwidths)%nat ->
    exists mw,
      rfold widen (enumerate_from start row) maxwidths = Ok mw /\
      List.length mw = List.length maxwidths /\
      (forall i, (nth i maxwidths 0 <= nth i mw 0)%nat) /\
      (forall j, (j < List.length row)%nat ->
                 (String.length (nth j row "") <= nth (start + j) mw 0)%nat).
Proof.
  induction row as [|sval row IH]; intros start maxwidths H; simpl in *.
  - exists maxwidths. repeat split; [lia | intros; lia].
  - unfold widen at 1. simpl.
    destruct (list_get_ok maxwidths start ltac:(lia)) as [w Ew]. rewrite Ew. simpl.
    destruct (list_set_ok maxwidths start (Nat.max w (String.length sval)) ltac:(lia))
      as (mw1 & E1 & L1).
    rewrite E1. simpl.
    destruct (IH (S start) mw1 ltac:(lia)) as (mw & E & L & Hmono & Hrow).
    pose proof (list_set_nth _ _ _ 0%nat _ E1) as Hset.
    destruct (list_get_nth _ _ _ 0%nat Ew) as [Hw _].
    exists mw. split; [exact E|]. split; [lia|]. split.
    + intros i. specialize (Hmono i). rewrite Hset in Hmono.
      destruct (i =? start)%nat eqn:Ei; [|exact Hmono].
      apply Nat.eqb_eq in Ei. subst i. lia.
    + intros [|j] Hj.
      * rewrite Nat.add_0_r. specialize (Hmono start). rewrite Hset in Hmono.
        rewrite Nat.eqb_refl in Hmono. lia.
      * replace (start + S j)%nat with (S start + j)%nat by lia.
        apply Hrow. lia.
Qed.

Lemma max_widths_bounds (data : list (list string)) :
  forall init,
    Forall (fun row => (List.length row <= List.length init)%nat) data ->
    exists mw,
      max_widths data init = Ok mw /\
      List.length mw = List.length init /\
      (forall i, (nth i init 0 <= nth i mw 0)%nat) /\
      (forall row, In row data ->
         forall j, (j < List.length row)%nat ->
                   (String.length (nth j row "") <= nth j mw 0)%nat).
Proof.
  unfold max_widths.
  induction data as [|row data IH]; intros init H; simpl.
  - exists init. repeat split; [lia | intros ? []].
  - inversion H as [|? ? Hrow Hrest]; subst.
    destruct (widen_row_bounds row 0 init ltac:(simpl; lia))
      as (mw1 & E1 & L1 & M1 & R1).
    rewrite E1. simpl.
    destruct (IH mw1) as (mw & E & L & M & R).
    { eapply Forall_impl; [|exact Hrest]. intros r Hr. simpl in Hr. lia. }
    exists mw. split; [exact E|]. split; [lia|]. split.
    + intros i. specialize (M1 i). specialize (M i). lia.
    + intros r [<- | Hr] j Hj.
      * specialize (R1 j Hj). specialize (M j). simpl in R1. lia.
      * apply R; assumption.
Qed.

(** Every text of a justified row has the width of its column. *)
Lemma justify_row_widths (maxwidths : list nat) (row : list string) :
  forall start,
    (start + List.length row <= List.length maxwidths)%nat ->
    (forall j, (j < List.length row)%nat ->
               (String.length (nth j row "") <= nth (start + j) maxwidths 0)%nat) ->
    exists r,
      rmap (justify maxwidths) (enumerate_from start row) = Ok r /\
      map String.length r = firstn (List.length row) (skipn start maxwidths).
Proof.
  induction row as [|sval row IH]; intros start Hlen Hrow; simpl in *.
  - exists []. split; reflexivity.
  - destruct (list_get_ok maxwidths start ltac:(lia)) as [w Ew].
    destruct (list_get_nth _ _ _ 0%nat Ew) as [Hw _].
    unfold justify at 1. simpl. rewrite Ew. cbn [rbind].
    destruct (IH (S start) ltac:(lia)) as (r & Er & Lr).
    { intros j Hj. replace (S start + j)%nat with (start + S j)%nat by lia.
      apply (Hrow (S j)). lia. }
    rewrite Er. cbn [rbind]. eexists. split; [reflexivity|].
    pose proof (Hrow 0%nat ltac:(lia)) as H0. rewrite Nat.add_0_r, Hw in H0.
    simpl in H0.
    assert (Hsk : skipn start maxwidths = w :: skipn (S start) maxwidths).
    { clear - Ew. unfold list_get in Ew.
      destruct (nth_error maxwidths start) as [x|] eqn:E; [|discriminate].
      inversion Ew. subst x. clear Ew.
      revert start E. induction maxwidths as [|y l IHl]; intros [|n] E;
        simpl in *; try discriminate.
      - inversion E. reflexivity.
      - apply IHl. exact E. }
    rewrite Hsk. cbn [map firstn]. rewrite Lr. f_equal.
    destruct start as [|n].
    + rewrite string_length_app, str_times_length. simpl. lia.
    + apply center_length. exact H0.
Qed.

(** The length of a line of the table, from the lengths of its texts. *)
Lemma line_length (row : list string) :
  row <> [] ->
  String.length ("|" ++ String.concat "|" row ++ "|")
  = (list_sum (map String.length row) + List.length row + 1)%nat.
Proof.
  intros Hne.
  assert (G : (String.length (String.concat "|" row) + 1
               = list_sum (map String.length row) + List.length row)%nat).
  { induction row as [|x r IH]; [congruence|].
    destruct r as [|y r]; [simpl; lia|].
    change (String.concat "|" (x :: y :: r))
      with (x ++ "|" ++ String.concat "|" (y :: r))%string.
    rewrite !string_length_app.
    specialize (IH ltac:(discriminate)). simpl in *. lia. }
  rewrite !string_length_app. simpl. lia.
Qed.

Lemma rmap_ok_Forall {A B} (f : A -> result B) (P : B -> Prop) (l : list A) :
  (forall x, In x l -> exists y, f x = Ok y /\ P y) ->
  exists ys, rmap f l = Ok ys /\ Forall P ys /\ List.length ys = List.length l.
Proof.
  induction l as [|x l IH]; intros H; simpl.
  - exists []. repeat split. constructor.
  - destruct (H x (or_introl eq_refl)) as (y & Ey & Py). rewrite Ey. simpl.
    destruct IH as (ys & Eys & Pys & L); [intros z Hz; apply H; right; exact Hz|].
    rewrite Eys. simpl. exists (y :: ys). repeat split; [|simpl; lia].
    constructor; assumption.
Qed.

Lemma headerbar_length (w : nat) :
  (2 <= w)%nat -> String.length (":" ++ str_times "-" (w - 2) ++ ":") = w.
Proof.
  intros H. rewrite !string_length_app, str_times_length. simpl. lia.
Qed.

(** X18: the table of a full matrix is rendered with one line for the
    header, one for the bar below it and one for every row, and all the
    lines have the same length: the columns are aligned. *)
Theorem to_gfm_aligned (linesep : string) (tbl : table) (relative rank : bool) :
  relative && rank = false ->
  rectangular tbl ->
  exists lines width,
    to_gfm linesep tbl relative rank = Ok (String.concat linesep lines) /\
    List.length lines = (List.length tbl + 2)%nat /\
    Forall (fun line => String.length line = width) lines.
Proof.
  intros Hconf Hrect. unfold to_gfm. rewrite Hconf.
  destruct tbl as [|first_row rest]; [contradiction|].
  cbn [list_get nth_error rbind]. destruct Hrect as [Hfirst Hrect].
  set (tbl := first_row :: rest) in *.
  set (column_names := "__Bench__ \ __Func__ " :: _).
  set (n := S (List.length first_row)).
  assert (Hcols : List.length column_names = n)
    by (unfold column_names; simpl; rewrite length_map; reflexivity).
  assert (Hnames : forall j, (j < n)%nat ->
                     (2 <= String.length (nth j column_names ""))%nat).
  { intros [|j] Hj; [simpl; lia|].
    unfold column_names. cbn [nth].
    destruct (nth_in_or_default j
                (map (fun datum => (" __" ++ Datum.arenashort datum ++ "__ ")%string) first_row)
                "") as [Hin | E].
    - apply in_map_iff in Hin as (d & <- & _). simpl. lia.
    - exfalso.
      assert (Hlt : (j < List.length
                        (map (fun datum => (" __" ++ Datum.arenashort datum ++ "__ ")%string)
                             first_row))%nat)
        by (rewrite length_map; unfold n in Hj; lia).
      pose proof (nth_In _ "" Hlt) as Hin. rewrite E in Hin.
      apply in_map_iff in Hin as (d & Ed & _). discriminate. }
  destruct (rmap_ok_Forall (row_text relative rank)
              (fun texts => List.length texts = n) tbl) as (rows & Er & Fr & Lr).
  { intros row Hin. rewrite Forall_forall in Hrect. specialize (Hrect row Hin).
    destruct (row_text_ok relative rank row) as (texts & Et & Lt).
    - intros ->. simpl in Hrect. destruct first_row; [congruence | discriminate].
    - exists texts. split; [exact Et|]. unfold n. lia. }
  rewrite Er. cbn [rbind].
  assert (Hdata : Forall (fun r => List.length r = n) (column_names :: rows))
    by (constructor; assumption).
  destruct (max_widths_bounds (column_names :: rows)
              (repeat 0%nat (List.length column_names)))
    as (mw & Em & Lm & _ & Hb).
  { rewrite repeat_length. eapply Forall_impl; [|exact Hdata].
    intros r Hr. simpl in Hr. lia. }
  rewrite Em. cbn [rbind]. rewrite repeat_length, Hcols in Lm.
  assert (Hwide : Forall (fun w => (2 <= w)%nat) mw).
  { apply Forall_nth. intros j d Hj. rewrite (nth_indep _ d 0%nat Hj).
    specialize (Hb column_names (or_introl eq_refl) j ltac:(lia)).
    specialize (Hnames j ltac:(lia)). lia. }
  destruct (rmap_ok_Forall
              (fun row => rmap (justify mw) (enumerate_from 0 row))
              (fun r => map String.length r = mw) (column_names :: rows))
    as (data & Ed & Fd & Ld).
  { intros row Hin.
    assert (Hlen : List.length row = n)
      by (rewrite Forall_forall in Hdata; apply Hdata; exact Hin).
    destruct (justify_row_widths mw row 0 ltac:(simpl; lia)) as (r & Ej & Lj).
    - intros j Hj. apply Hb; assumption.
    - exists r. split; [exact Ej|].
      rewrite Lj. cbn [skipn]. rewrite Hlen, <- Lm. apply firstn_all. }
  rewrite Ed. cbn [rbind].
  destruct mw as [|w0 mw]; [simpl in Lm; unfold n in Lm; lia|].
  cbn [map rbind].
  destruct data as [|header rest']; [simpl in Ld; lia|].
  set (headerbar := (" " ++ string_drop 1 (":" ++ str_times "-" (w0 - 2) ++ ":"))%string
                    :: map (fun length => (":" ++ str_times "-" (length - 2) ++ ":")%string) mw).
  assert (Hbar : map String.length headerbar = w0 :: mw).
  { unfold headerbar. inversion Hwide as [|? ? H0 Hrest]; subst.
    cbn [map]. f_equal.
    - cbn [string_drop append String.length].
      rewrite string_length_app, str_times_length. simpl. lia.
    - rewrite map_map. rewrite <- (map_id mw) at 2.
      apply map_ext_in. intros w Hw. apply headerbar_length.
      rewrite Forall_forall in Hrest. apply Hrest. exact Hw. }
  exists (map (fun row => ("|" ++ String.concat "|" row ++ "|")%string)
              (header :: headerbar :: rest')),
         (list_sum (w0 :: mw) + List.length (w0 :: mw) + 1)%nat.
  split; [reflexivity|]. split.
  - rewrite length_map. simpl in *. lia.
  - apply Forall_map.
    assert (Hall : Forall (fun r => map String.length r = w0 :: mw)
                          (header :: headerbar :: rest')).
    { inversion Fd; subst. constructor; [assumption|]. constructor; assumption. }
    eapply Forall_impl; [|exact Hall].
    intros r Hr. rewrite line_length.
    + rewrite Hr, <- (length_map String.length r), Hr. reflexivity.
    + intros ->. discriminate.
Qed.

(** ** [BenchRunner.to_gfm] and the report of [quickstart] *)

Lemma pair_strict_total : strict_total pair_eqb pair_ltb.
Proof.
  pose proof string_strict_total as O.
  constructor.
  - apply pair_eqb_eq.
  - intros [a1 a2]. unfold pair_ltb. simpl. rewrite String.eqb_refl.
    apply (st_irrefl _ _ O).
  - intros [a1 a2] [b1 b2] [c1 c2]. unfold pair_ltb. simpl.
    destruct (String.eqb a1 b1) eqn:Eab.
    + apply String.eqb_eq in Eab. subst b1.
      destruct (String.eqb a1 c1) eqn:Eac; [apply (st_trans _ _ O) | auto].
    + destruct (String.eqb b1 c1) eqn:Ebc.
      * apply String.eqb_eq in Ebc. subst c1. rewrite Eab. auto.
      * intros H1 H2. pose proof (st_trans _ _ O _ _ _ H1 H2) as H3.
        destruct (String.eqb a1 c1) eqn:Eac; [|exact H3].
        apply String.eqb_eq in Eac. subst c1.
        rewrite (st_irrefl _ _ O) in H3. discriminate.
  - intros [a1 a2] [b1 b2]. unfold pair_ltb. simpl.
    destruct (String.eqb a1 b1) eqn:Eab.
    + apply String.eqb_eq in Eab. subst b1. rewrite String.eqb_refl.
      destruct (st_total _ _ O a2 b2) as [H | [-> | H]]; auto.
    + rewrite String.eqb_sym, Eab.
      destruct (st_total _ _ O a1 b1) as [H | [-> | H]]; auto.
      rewrite String.eqb_refl in Eab. discriminate.
Qed.

(** Sorting by keys that are all different gives strictly ascending
    keys, in every strict total order. *)
Lemma sorted_strict_by {A K} (eqb ltb : K -> K -> bool) (O : strict_total eqb ltb)
      (key : A -> K) (l : list A) :
  NoDup (map key l) ->
  StronglySorted (fun a b => ltb a b = true) (map key (sorted ltb key l)).
Proof.
  intros Hnd.
  assert (Hnd' : NoDup (map key (sorted ltb key l))).
  { eapply Permutation_NoDup; [|exact Hnd].
    apply Permutation_map, Permutation_sym, sorted_perm. }
  pose proof (sorted_sorted ltb key (st_asym _ _ O) (not_after_trans _ _ O) l) as Hs.
  induction Hs as [|x r Hr IH Hall]; simpl; [constructor|].
  inversion Hnd' as [|? ? Hx Hr']; subst.
  constructor; [apply IH; exact Hr'|].
  rewrite Forall_forall in *. intros k Hk.
  apply in_map_iff in Hk as (y & <- & Hy).
  specialize (Hall y Hy). unfold key_le, not_after in Hall.
  destruct (st_total _ _ O (key x) (key y)) as [H | [H | H]];
    [exact H | | congruence].
  exfalso. apply Hx. rewrite H. apply in_map. exact Hy.
Qed.

Lemma rev_last {A} (l : list A) (d : A) :
  match rev l with
  | [] => l = []
  | x :: _ => l <> [] /\ last l d = x
  end.
Proof.
  destruct l as [|a l] using rev_ind; [reflexivity|].
  rewrite rev_app_distr. simpl. split; [destruct l; discriminate|].
  apply last_last.
Qed.

Lemma last_of_map {A B} (f : A -> B) (l : list A) (d : A) :
  last (map f l) (f d) = f (last l d).
Proof.
  induction l as [|x l IH]; [reflexivity|].
  destruct l as [|y l]; [reflexivity|]. exact IH.
Qed.

Section RunnerFacts.
Variable fmt_3g : Q -> string.
Variable linesep : string.
Variable name : string.
Variables arenaprefixes benchprefixes : list string.

Local Abbreviation printer_tables' :=
  (printer_tables fmt_3g name arenaprefixes benchprefixes).
Local Abbreviation BenchRunner_to_gfm' :=
  (BenchRunner_to_gfm fmt_3g linesep name arenaprefixes benchprefixes).
Local Abbreviation quickstart_report' :=
  (quickstart_report fmt_3g linesep name arenaprefixes benchprefixes).

Lemma printer_tables_keys (results : list Trial.t)
      (tables : dict (K:=string * string) (V:=table)) :
  printer_tables' results = Ok tables ->
  map fst tables = map fst (group_results results).
Proof.
  unfold printer_tables, BenchPrinter_tables. intros H.
  apply rmap_Forall2 in H.
  apply (Forall2_fst_eq _ _ _ H).
  intros [k ts] [k' tbl]. simpl.
  destruct (_build_table _ _ _ ts); simpl; [|discriminate].
  intros E. inversion E. reflexivity.
Qed.

(** The pairs of files that have a table are those of the trials. *)
Lemma group_results_keys (results : list Trial.t) (benchfile arenafile : string) :
  In (benchfile, arenafile) (map fst (group_results results)) <->
  exists t, In t results /\ Trial.benchfile t = benchfile /\
            Trial.arenafile t = arenafile.
Proof.
  rewrite <- (dict_get_key pair_eqb pair_eqb_eq).
  rewrite (proj2 (group_results_lookup results)).
  split.
  - destruct (filter (in_group (benchfile, arenafile)) results) as [|t ts] eqn:E;
      [congruence|]. intros _.
    assert (Hin : In t (filter (in_group (benchfile, arenafile)) results))
      by (rewrite E; left; reflexivity).
    apply filter_In in Hin as [Hin Hg]. unfold in_group in Hg.
    apply pair_eqb_eq in Hg. inversion Hg. eauto.
  - intros (t & Hin & <- & <-).
    assert (Hf : In t (filter (in_group (Trial.benchfile t, Trial.arenafile t)) results))
      by (apply filter_In; split; [exact Hin | apply pair_eqb_refl]).
    destruct (filter _ results); [contradiction | discriminate].
Qed.

(** X19: [BenchRunner.to_gfm] returns one entry for every pair of a
    benchmark file and an arena file that has a trial, and no other, in
    the strictly ascending order of (benchfile, arenafile). *)
Theorem BenchRunner_to_gfm_entries (results : list Trial.t) (relative rank : bool)
        (out : list (string * string * string)) :
  BenchRunner_to_gfm' results relative rank = Ok out ->
  StronglySorted (fun a b => pair_ltb a b = true)
                 (map (fun e => (snd (fst e), fst (fst e))) out) /\
  forall benchfile arenafile,
    (exists val, In (arenafile, benchfile, val) out) <->
    (exists t, In t results /\ Trial.benchfile t = benchfile /\
               Trial.arenafile t = arenafile).
Proof.
  unfold BenchRunner_to_gfm.
  destruct (printer_tables' results) as [tables|] eqn:Et; simpl; [|discriminate].
  intros H. apply rmap_Forall2 in H.
  assert (Hkeys : map (fun e : string * string * string => (snd (fst e), fst (fst e))) out
                  = map fst (sorted pair_ltb fst tables)).
  { clear - H. induction H as [|[[bf af] tbl] e l l' Hxy H IH]; simpl; [reflexivity|].
    rewrite IH. f_equal.
    destruct (to_gfm linesep tbl relative rank); simpl in Hxy; [|discriminate].
    inversion Hxy. reflexivity. }
  pose proof (printer_tables_keys results tables Et) as Ek.
  split.
  - rewrite Hkeys. apply (sorted_strict_by pair_eqb pair_ltb pair_strict_total).
    rewrite Ek. apply group_results_lookup.
  - intros benchfile arenafile.
    rewrite <- group_results_keys, <- Ek.
    assert (Hp : Permutation (map fst (sorted pair_ltb fst tables)) (map fst tables))
      by apply Permutation_map, sorted_perm.
    split.
    + intros (val & Hin). apply (Permutation_in _ Hp). rewrite <- Hkeys.
      apply in_map_iff. exists (arenafile, benchfile, val). auto.
    + intros Hin. apply (Permutation_in _ (Permutation_sym Hp)) in Hin.
      rewrite <- Hkeys in Hin. apply in_map_iff in Hin as ([[af bf] val] & E & Hin).
      simpl in E. inversion E. subst. eauto.
Qed.

(** X20: with both flags, [BenchRunner.to_gfm] raises [ValueError] as
    soon as there is a table to render; but of no results at all it
    returns the empty list, whatever the flags. *)
Theorem BenchRunner_to_gfm_both_flags (results : list Trial.t) (relative rank : bool) :
  BenchRunner_to_gfm' [] relative rank = Ok [] /\
  (results <> [] ->
   (exists tables, printer_tables' results = Ok tables) ->
   BenchRunner_to_gfm' results true true = Raise ValueError).
Proof.
  split; [reflexivity|].
  intros Hne (tables & Et). unfold BenchRunner_to_gfm. rewrite Et. cbn [rbind].
  assert (Hk : map fst (sorted pair_ltb fst tables) <> []).
  { destruct results as [|t r]; [congruence|].
    assert (Hin : In (Trial.benchfile t, Trial.arenafile t)
                     (map fst (sorted pair_ltb fst tables))).
    { apply (Permutation_in _ (Permutation_map fst
                                 (Permutation_sym (sorted_perm pair_ltb fst tables)))).
      rewrite (printer_tables_keys _ _ Et). apply group_results_keys.
      exists t. split; [left; reflexivity | auto]. }
    intros E. rewrite E in Hin. contradiction. }
  destruct (sorted pair_ltb fst tables) as [|[[bf af] tbl] rest];
    [exfalso; apply Hk; reflexivity|].
  reflexivity.
Qed.

(** X21: under every [**Rank:**] heading [quickstart] prints the rank view
    of the last table, not of the table at hand: the report has, for each
    entry of [BenchRunner.to_gfm], the time view and the relative view of
    its table, and the same rank view in all blocks. *)
Theorem quickstart_report_ranks (results : list Trial.t) (out : list string) :
  quickstart_report' results = Ok out ->
  exists times reltimes ranks,
    BenchRunner_to_gfm' results false false = Ok times /\
    BenchRunner_to_gfm' results true false = Ok reltimes /\
    BenchRunner_to_gfm' results false true = Ok ranks /\
    out = List.concat
            (map (fun tr =>
                    report_block (fst (fst (fst tr))) (snd (fst (fst tr)))
                                 (snd (fst tr)) (snd (snd tr))
                                 (snd (last ranks ("", "", ""))))
                 (combine times reltimes)).
Proof.
  unfold quickstart_report, BenchRunner_to_gfm.
  destruct (printer_tables' results) as [tables|] eqn:Et; cbn [rbind]; [|discriminate].
  generalize (sorted pair_ltb fst tables). intros items.
  destruct (rmap _ items) as [resultlist|] eqn:Er; cbn [rbind]; [|discriminate].
  assert (Hviews :
            rmap (fun kv : string * string * table =>
                    let (y, table) := kv in
                    let (benchfile, arenafile) := y in
                    val <-? to_gfm linesep table false false ;
                    Ok (arenafile, benchfile, val)) items
            = Ok (map (fun r => (fst (fst (fst (fst r))), snd (fst (fst (fst r))),
                                 snd (fst (fst r)))) resultlist) /\
            rmap (fun kv : string * string * table =>
                    let (y, table) := kv in
                    let (benchfile, arenafile) := y in
                    val <-? to_gfm linesep table true false ;
                    Ok (arenafile, benchfile, val)) items
            = Ok (map (fun r => (fst (fst (fst (fst r))), snd (fst (fst (fst r))),
                                 snd (fst r))) resultlist) /\
            rmap (fun kv : string * string * table =>
                    let (y, table) := kv in
                    let (benchfile, arenafile) := y in
                    val <-? to_gfm linesep table false true ;
                    Ok (arenafile, benchfile, val)) items
            = Ok (map (fun r => (fst (fst (fst (fst r))), snd (fst (fst (fst r))),
                                 snd r)) resultlist)).
  { clear - Er. revert resultlist Er.
    induction items as [|[[bf af] tbl] items IH]; intros resultlist Er;
      simpl in Er.
    - inversion Er. repeat split.
    - destruct (to_gfm linesep tbl false false) as [t|] eqn:E1; simpl in Er;
        [|discriminate].
      destruct (to_gfm linesep tbl true false) as [r|] eqn:E2; simpl in Er;
        [|discriminate].
      destruct (to_gfm linesep tbl false true) as [k|] eqn:E3; simpl in Er;
        [|discriminate].
      destruct (rmap _ items) as [rl|] eqn:Erl in Er; simpl in Er; [|discriminate].
      inversion Er. subst resultlist. clear Er.
      destruct (IH rl Erl) as (H1 & H2 & H3).
      cbn [rmap]. rewrite E1, E2, E3. cbn [rbind].
      rewrite H1, H2, H3. repeat split. }
  destruct Hviews as (H1 & H2 & H3). rewrite H1, H2, H3.
  intros H.
  eexists. eexists. eexists.
  split; [reflexivity|]. split; [reflexivity|]. split; [reflexivity|].
  set (ranks := map _ resultlist).
  pose proof (rev_last resultlist ("", "", "", "", "")) as Hl.
  destruct (rev resultlist) as [|[[[[af0 bf0] t0] r0] k0] rr].
  { subst resultlist. simpl in H. inversion H. reflexivity. }
  destruct Hl as [_ Hl].
  assert (Ek : snd (last ranks ("", "", "")) = k0).
  { unfold ranks.
    change ("", "", "") with ((fun r : string * string * string * string * string =>
                                (fst (fst (fst (fst r))), snd (fst (fst (fst r))), snd r))
                               ("", "", "", "", "")).
    rewrite last_of_map, Hl. reflexivity. }
  rewrite Ek. clear - H.
  revert out H. generalize k0. clear k0.
  induction resultlist as [|[[[[af bf] t] r] k] rl IH]; intros k0 out H; simpl in H.
  - inversion H. reflexivity.
  - destruct (rmap _ rl) as [blocks|] eqn:Eb in H; simpl in H; [|discriminate].
    inversion H. subst out. clear H.
    cbn [map combine List.concat fst snd].
    refine (f_equal (fun x => report_block af bf t r k0 ++ x)%list _).
    apply (IH k0). simpl. rewrite Eb. reflexivity.
Qed.
End RunnerFacts.

(** ** The lists of [runbenchmarks] *)

Lemma keyseq_entry_le (f1 n1 f2 n2 : string) (r1 r2 : list string) :
  keyseq_ltb (numericstringkey_seq (f2 :: n2 :: r2))
             (numericstringkey_seq (f1 :: n1 :: r1)) = false ->
  entry_le (f1, n1) (f2, n2).
Proof.
  pose proof key_strict_total as O.
  unfold keyseq_ltb, numericstringkey_seq, entry_le, not_after. simpl.
  destruct (key_eqb (numericstringkey f2) (numericstringkey f1)) eqn:Ef.
  - apply (st_eq _ _ O) in Ef. rewrite Ef. intros H.
    split; [apply (st_irrefl _ _ O)|]. intros _.
    destruct (key_eqb (numericstringkey n2) (numericstringkey n1)) eqn:En;
      [|exact H].
    apply (st_eq _ _ O) in En. rewrite En. apply (st_irrefl _ _ O).
  - intros H. split; [exact H|]. intros E.
    apply (st_eq _ _ O) in E. rewrite E in Ef.
    rewrite (proj2 (st_eq _ _ O _ _) eq_refl) in Ef. discriminate.
Qed.

Lemma file_items_flat {V W X} (d : dict (K:=string) (V:=V))
      (items : string -> V -> list W) (mk : string -> W -> X)
      (proj : X -> string * W) :
  (forall f x, proj (mk f x) = (f, x)) ->
  map proj (flat_map (fun kv => map (mk (fst kv)) (items (fst kv) (snd kv))) d)
  = file_items d items.
Proof.
  intros H. unfold file_items.
  induction d as [|[f v] d IH]; [reflexivity|].
  cbn [flat_map fst snd]. rewrite map_app, IH, map_map. f_equal.
  apply map_ext. intros x. apply H.
Qed.

Section ListFacts.
Variable getarenasetup :
  string -> string -> list string -> bool -> dict (K:=string) (V:=string).
Variable getbenchsetup : string -> string.
Variable getbenchstrings : string -> list string -> dict (K:=string) (V:=string).

(** X22: [getarenalist] lists the functions of all arena files, each
    with its file and its setup text, file by file in the natural order of
    the file names and, for one file, in the natural order of the function
    names; [getbenchlist] does the same for the benchmarks.  So
    [runbenchmarks] visits the benchmarks, and for each of them the
    arenas, in this order. *)
Theorem getlists_order (name : string)
        (arenadict benchdict : dict (K:=string) (V:=list string)) (cython : bool) :
  let arenalist := getarenalist getarenasetup name arenadict cython in
  let benchlist := getbenchlist getbenchsetup getbenchstrings benchdict in
  (Permutation (map (fun a => (fst (fst a), (snd (fst a), snd a))) arenalist)
               (file_items arenadict
                  (fun arenafile funcnames =>
                     getarenasetup name arenafile funcnames cython)) /\
   StronglySorted entry_le (map fst arenalist)) /\
  (Permutation (map (fun b => (fst (fst (fst b)), (snd (fst (fst b)), snd b)))
                    benchlist)
               (file_items benchdict getbenchstrings) /\
   Forall (fun b => snd (fst b) = getbenchsetup (fst (fst (fst b)))) benchlist /\
   StronglySorted entry_le (map (fun b => fst (fst b)) benchlist)).
Proof.
  pose proof (lex_strict_total key_eqb key_ltb key_strict_total) as O.
  intros arenalist benchlist.
  assert (Hsorted : forall {A} (fields : A -> list string) (entry : A -> string * string)
                           (l : list A),
             (forall a b, keyseq_ltb (numericstringkey_seq (fields b))
                                     (numericstringkey_seq (fields a)) = false ->
                          entry_le (entry a) (entry b)) ->
             StronglySorted entry_le (map entry (nsorted_by fields l))).
  { intros A fields entry l Hle. unfold nsorted_by.
    pose proof (sorted_sorted keyseq_ltb (fun x => numericstringkey_seq (fields x))
                  (st_asym _ _ O) (not_after_trans _ _ O) l) as Hs.
    induction Hs as [|x r Hr IH Hall]; simpl; constructor; [exact IH|].
    rewrite Forall_forall in *. intros e He.
    apply in_map_iff in He as (y & <- & Hy). apply Hle. apply Hall. exact Hy. }
  split; [split | split; [|split]].
  - rewrite <- (file_items_flat arenadict
                  (fun arenafile funcnames =>
                     getarenasetup name arenafile funcnames cython)
                  (fun f ns => (f, fst ns, snd ns))
                  (fun a => (fst (fst a), (snd (fst a), snd a))))
      by (intros f [n x]; reflexivity).
    unfold arenalist, getarenalist, nsorted_by.
    apply Permutation_map. apply sorted_perm.
  - unfold arenalist, getarenalist. apply Hsorted.
    intros [[f1 n1] s1] [[f2 n2] s2] H.
    exact (keyseq_entry_le f1 n1 f2 n2 [s1] [s2] H).
  - rewrite <- (file_items_flat benchdict getbenchstrings
                  (fun f ns => (f, fst ns, getbenchsetup f, snd ns))
                  (fun b => (fst (fst (fst b)), (snd (fst (fst b)), snd b))))
      by (intros f [n x]; reflexivity).
    unfold benchlist, getbenchlist, nsorted_by.
    apply Permutation_map. apply sorted_perm.
  - unfold benchlist, getbenchlist, nsorted_by.
    rewrite Forall_forall. intros b Hb.
    apply (Permutation_in _ (sorted_perm _ _ _)) in Hb.
    apply in_flat_map in Hb as ([f ns] & _ & Hb).
    apply in_map_iff in Hb as (x & <- & _). reflexivity.
  - unfold benchlist, getbenchlist. apply Hsorted.
    intros [[[f1 n1] s1] b1] [[[f2 n2] s2] b2] H.
    exact (keyseq_entry_le f1 n1 f2 n2 [s1; b1] [s2; b2] H).
Qed.
End ListFacts.

(** ** Nothing to run *)

Section EmptyRun.
Variables T U : Type.
Variable timer_timeit : T -> string -> string -> Z -> Q * T.
Variable getarenasetup :
  string -> string -> list string -> bool -> dict (K:=string) (V:=string).
Variable getbenchsetup : string -> string.
Variable getbenchstrings : string -> list string -> dict (K:=string) (V:=string).

Lemma run_benches_no_arena name arenaindices benchindices mintime numrepeat
      (tf cb : option (hook U)) benchlist :
  forall results (w : world T U),
    run_benches T U timer_timeit name arenaindices benchindices mintime numrepeat
                tf cb benchlist [] results w
    = (Ok (Continue results), w).
Proof.
  induction benchlist as [|b bl IH]; intros results w; [reflexivity|].
  simpl. unfold bind, ret. simpl. apply IH.
Qed.

(** X23: with no arena function or no benchmark to run (an empty
    [arenadict] or [benchdict], for one), [runbenchmarks] returns the
    empty list and calls neither the timer nor a hook. *)
Theorem runbenchmarks_nothing_to_run (name : string)
        (arenadict benchdict : dict (K:=string) (V:=list string))
        (verbose cython : bool) (mintime : Q) (numrepeat : Z)
        (tf cb : option (hook U)) (w : world T U) :
  getarenalist getarenasetup name arenadict cython = [] \/
  getbenchlist getbenchsetup getbenchstrings benchdict = [] ->
  runbenchmarks T U timer_timeit getarenasetup getbenchsetup getbenchstrings
                name arenadict benchdict verbose cython mintime numrepeat tf cb w
  = (Ok [], w).
Proof.
  intros H. unfold runbenchmarks. cbv zeta. unfold bind.
  destruct H as [-> | ->].
  - rewrite run_benches_no_arena. reflexivity.
  - reflexivity.
Qed.
End EmptyRun.

Lemma runbenchmarks_nothing_to_run_witness :
  runbenchmarks nat nat (steady_timer (1 # 1000))
                demo_arenasetup demo_benchsetup demo_benchstrings
                demo_name [] demo_benchdict true false (1 # 4) 3
                (Some (stop_after 0)) None (world0 0%nat)
  = (Ok [], world0 0%nat).
Proof.
  apply (runbenchmarks_nothing_to_run nat nat (steady_timer (1 # 1000))
           demo_arenasetup demo_benchsetup demo_benchstrings).
  left. reflexivity.
Defined.

(** ** The properties on the scenarios *)

Lemma build_table_layout_witness :
  exists bis,
    StronglySorted Nat.lt bis /\
    Forall2 (fun bi row =>
               row <> [] /\
               Forall (fun d => Datum.benchindex d = bi) row /\
               StronglySorted Nat.lt (map Datum.arenaindex row))
            bis square_table.
Proof.
  apply (build_table_layout (fun _ => "t") PrefixNone PrefixNone square_trials).
  reflexivity.
Defined.

Lemma build_table_cells_witness :
  exists row d,
    In row rerun_table /\ In d row /\
    Datum.benchindex d = 0%nat /\ Datum.arenaindex d = 0%nat /\
    Datum.trialdata d = measured 0 0 "bench_n2" "zeros_mul" 2.
Proof.
  apply (build_table_cells (fun _ => "t") PrefixNone PrefixNone rerun_trials
           rerun_table eq_refl).
  reflexivity.
Defined.

Lemma build_table_raises_only_witness :
  (ZeroDivisionError = TypeError /\
   exists t, In t zero_trials /\ Trial.mintime t = None) \/
  (ZeroDivisionError = ZeroDivisionError /\
   exists t s, In t zero_trials /\ Trial.mintime t = Some s /\ (s == 0)%Q).
Proof.
  apply (build_table_raises_only (fun _ => "t") PrefixNone PrefixNone zero_trials).
  reflexivity.
Defined.

Lemma build_table_zero_time_witness :
  _build_table (fun _ => "t") PrefixNone PrefixNone zero_trials
  = Raise ZeroDivisionError.
Proof.
  apply (build_table_zero_time (fun _ => "t") PrefixNone PrefixNone zero_trials
           0%nat 1%nat (measured 0 1 "bench_n2" "zeros_slow" 0) 0%Q).
  - intros t [<- | [<- | []]]; eexists; (split; [reflexivity | discriminate]).
  - reflexivity.
  - reflexivity.
  - reflexivity.
Defined.

Lemma to_gfm_index_error_witness :
  to_gfm demo_linesep ragged_table false false = Raise IndexError.
Proof.
  apply to_gfm_index_error; [reflexivity|].
  right. exists (nth 1 ragged_table []).
  split; [right; left; reflexivity|]. right. vm_compute. lia.
Defined.

Lemma to_gfm_aligned_witness :
  exists lines width,
    to_gfm demo_linesep square_table false true
    = Ok (String.concat demo_linesep lines) /\
    List.length lines = (List.length square_table + 2)%nat /\
    Forall (fun line => String.length line = width) lines.
Proof.
  apply to_gfm_aligned; [reflexivity|].
  vm_compute. split; [discriminate|]. repeat constructor.
Defined.

Lemma BenchRunner_to_gfm_entries_witness :
  StronglySorted (fun a b => pair_ltb a b = true)
                 (map (fun e => (snd (fst e), fst (fst e)))
                      (two_file_views false false)) /\
  forall benchfile arenafile,
    (exists val, In (arenafile, benchfile, val) (two_file_views false false)) <->
    (exists t, In t two_file_trials /\ Trial.benchfile t = benchfile /\
               Trial.arenafile t = arenafile).
Proof.
  apply (BenchRunner_to_gfm_entries (fun _ => "t") demo_linesep demo_name
           default_arenaprefixes default_benchprefixes two_file_trials false false).
  vm_compute. reflexivity.
Defined.

Lemma quickstart_report_ranks_witness :
  exists times reltimes ranks,
    BenchRunner_to_gfm (fun _ => "t") demo_linesep demo_name
                       default_arenaprefixes default_benchprefixes
                       two_file_trials false false = Ok times /\
    BenchRunner_to_gfm (fun _ => "t") demo_linesep demo_name
                       default_arenaprefixes default_benchprefixes
                       two_file_trials true false = Ok reltimes /\
    BenchRunner_to_gfm (fun _ => "t") demo_linesep demo_name
                       default_arenaprefixes default_benchprefixes
                       two_file_trials false true = Ok ranks /\
    two_file_report
    = List.concat
        (map (fun tr =>
                report_block (fst (fst (fst tr))) (snd (fst (fst tr)))
                             (snd (fst tr)) (snd (snd tr))
                             (snd (last ranks (""%string, ""%string, ""%string))))
             (combine times reltimes)).
Proof.
  apply (quickstart_report_ranks (fun _ => "t") demo_linesep demo_name
           default_arenaprefixes default_benchprefixes two_file_trials).
  vm_compute. reflexivity.
Defined.

(** ** From the run to the tables *)

Section MeasuredResults.
Variables T U : Type.
Variable timer_timeit : T -> string -> string -> Z -> Q * T.
Variable getarenasetup :
  string -> string -> list string -> bool -> dict (K:=string) (V:=string).
Variable getbenchsetup : string -> string.
Variable getbenchstrings : string -> list string -> dict (K:=string) (V:=string).
Variable name : string.
Variables arenaindices benchindices :
  dict (K:=string) (V:=dict (K:=string) (V:=nat)).
Variables (mintime : Q) (numrepeat : Z).
Variables tf cb : option (hook U).

Lemma says_False_total (h : option (hook U)) (trial : Trial.t) (w : world T U) :
  exists b w', says_False T U h trial w = (Ok b, w').
Proof.
  destruct h as [f|]; simpl; [|unfold ret; eauto].
  unfold bind, call_hook, ret. destruct (f trial (w_user w)) as [v u]. eauto.
Qed.

Lemma run_cell_measured_inv bench arena results (w w' : world T U) f :
  run_cell T U timer_timeit name arenaindices benchindices mintime numrepeat
           tf cb bench arena results w = (Ok f, w') ->
  Forall is_measured results -> Forall is_measured (flow_results f).
Proof.
  intros H Hres. unfold run_cell in H. unfold bind at 1 in H. unfold lift in H.
  destruct (make_trial name arenaindices benchindices bench arena) as [trial0|];
    [|discriminate].
  unfold bind at 1 in H.
  destruct (says_False_total tf trial0 w) as (skip & w1 & Es). rewrite Es in H.
  destruct skip.
  - unfold ret in H. inversion H. exact Hres.
  - unfold bind at 1 in H.
    destruct (measure_outcome T U timer_timeit mintime numrepeat trial0 w1)
      as (trial & wm & loops & m & times & Em & -> & _ & Hl & _ & Hin & Hmin).
    rewrite Em in H. unfold bind at 1 in H.
    destruct (says_False_total cb (Trial.update trial0 loops m times) wm)
      as (stop & w2 & Ec).
    rewrite Ec in H.
    assert (Hnew : Forall is_measured (results ++ [Trial.update trial0 loops m times])).
    { apply Forall_app. split; [exact Hres|]. constructor; [|constructor].
      exists loops, m, times. repeat split; auto. }
    destruct stop; unfold ret in H; inversion H; exact Hnew.
Qed.

Lemma run_arenas_measured_inv bench arenalist :
  forall results (w w' : world T U) f,
    run_arenas T U timer_timeit name arenaindices benchindices mintime numrepeat
               tf cb bench arenalist results w = (Ok f, w') ->
    Forall is_measured results -> Forall is_measured (flow_results f).
Proof.
  induction arenalist as [|arena rest IH]; intros results w w' f H Hres.
  - inversion H. exact Hres.
  - cbn [run_arenas] in H. unfold bind at 1 in H.
    destruct (run_cell T U timer_timeit name arenaindices benchindices mintime
                       numrepeat tf cb bench arena results w)
      as [[f1|e] w1] eqn:Ec; [|discriminate].
    pose proof (run_cell_measured_inv _ _ _ _ _ _ Ec Hres) as H1.
    destruct f1 as [r|r]; simpl in H1.
    + exact (IH _ _ _ _ H H1).
    + inversion H. exact H1.
Qed.

Lemma run_benches_measured_inv benchlist arenalist :
  forall results (w w' : world T U) f,
    run_benches T U timer_timeit name arenaindices benchindices mintime numrepeat
                tf cb benchlist arenalist results w = (Ok f, w') ->
    Forall is_measured results -> Forall is_measured (flow_results f).
Proof.
  induction benchlist as [|bench rest IH]; intros results w w' f H Hres.
  - inversion H. exact Hres.
  - cbn [run_benches] in H. unfold bind at 1 in H.
    destruct (run_arenas T U timer_timeit name arenaindices benchindices mintime
                         numrepeat tf cb bench arenalist results w)
      as [[f1|e] w1] eqn:Ea; [|discriminate].
    pose proof (run_arenas_measured_inv _ _ _ _ _ _ Ea Hres) as H1.
    destruct f1 as [r|r]; simpl in H1.
    + exact (IH _ _ _ _ H H1).
    + inversion H. exact H1.
Qed.
End MeasuredResults.

Section RunToTables.
Variables T U : Type.
Variable timer_timeit : T -> string -> string -> Z -> Q * T.
Variable getarenasetup :
  string -> string -> list string -> bool -> dict (K:=string) (V:=string).
Variable getbenchsetup : string -> string.
Variable getbenchstrings : string -> list string -> dict (K:=string) (V:=string).

(** X24: with a filter and a callback that leave the trial dicts as
    they are given them (the hooks of this model: [hook] reads the trial
    and cannot change it), every trial that [runbenchmarks] returns is
    measured, whatever the hooks answer and whatever state they keep, also
    when the callback stopped the run.  So [BenchPrinter] meets no unset
    time in such results: building its tables from them can fail only with
    [ZeroDivisionError], for a best time of zero.  (A hook that modifies
    the dict it is given, which is the dict in the results, is not covered:
    a callback that unsets [mintime] makes [BenchPrinter] raise
    [TypeError].) *)
Theorem runbenchmarks_results_measured (name : string)
        (arenadict benchdict : dict (K:=string) (V:=list string))
        (verbose cython : bool) (mintime : Q) (numrepeat : Z)
        (tf cb : option (hook U)) (w w' : world T U) (results : list Trial.t) :
  runbenchmarks T U timer_timeit getarenasetup getbenchsetup getbenchstrings
                name arenadict benchdict verbose cython mintime numrepeat tf cb w
  = (Ok results, w') ->
  Forall is_measured results /\
  forall fmt_3g arenaprefixes benchprefixes e,
    BenchPrinter_tables fmt_3g arenaprefixes benchprefixes results = Raise e ->
    e = ZeroDivisionError /\
    exists t, In t results /\ exists s, Trial.mintime t = Some s /\ (s == 0)%Q.
Proof.
  intros H.
  assert (Hm : Forall is_measured results).
  { unfold runbenchmarks in H. cbv zeta in H. unfold bind in H.
    match type of H with
    | match ?c with _ => _ end = _ => destruct c as [[f|e] w1] eqn:Er
    end; [|discriminate].
    pose proof (run_benches_measured_inv _ _ _ _ _ _ _ _ _ _ _ _ _ _ _ _ Er
                  (Forall_nil _)) as Hf.
    destruct f as [r|r]; unfold ret in H; inversion H; subst; exact Hf. }
  split; [exact Hm|].
  intros fmt_3g arenaprefixes benchprefixes e He.
  unfold BenchPrinter_tables in He.
  destruct (rmap_raise _ _ _ He) as ([key trials] & Hin & Eb). simpl in Eb.
  destruct (_build_table fmt_3g arenaprefixes benchprefixes trials) as [tbl|e']
    eqn:Et; simpl in Eb; [discriminate|].
  inversion Eb. subst e'. clear Eb.
  pose proof (group_results_in results key trials Hin) as Hsub.
  destruct (build_table_raises fmt_3g arenaprefixes benchprefixes trials e Et)
    as [(_ & t & Ht & En) | (-> & t & s & Ht & Es & Hz)].
  - exfalso. rewrite Forall_forall in Hm.
    destruct (Hm t (Hsub t Ht)) as (l & m & ts & _ & Em & _). congruence.
  - split; [reflexivity|]. exists t. split; [exact (Hsub t Ht) | eauto].
Qed.
End RunToTables.

Lemma runbenchmarks_results_measured_witness :
  exists results w',
    demo_run (Some (reject_arena "zeros_slow")) (Some (stop_after 3))
    = (Ok results, w') /\
    Forall is_measured results.
Proof.
  eexists. eexists. split; [vm_compute; reflexivity|].
  eapply (runbenchmarks_results_measured nat nat (steady_timer (1 # 1000))
            demo_arenasetup demo_benchsetup demo_benchstrings
            demo_name demo_arenadict demo_benchdict false false (1 # 4) 3
            (Some (reject_arena "zeros_slow")) (Some (stop_after 3))
            (world0 0%nat)).
  vm_compute. reflexivity.
Defined.

(** ** The column titles *)

Lemma string_app_split (s1 t1 s2 t2 : string) :
  (s1 ++ t1 = s2 ++ t2)%string ->
  (String.length s1 <= String.length s2)%nat ->
  exists mid, s2 = (s1 ++ mid)%string /\ t1 = (mid ++ t2)%string.
Proof.
  revert s2. induction s1 as [|c s1 IH]; intros s2 E L; simpl in *.
  - exists s2. auto.
  - destruct s2 as [|c' s2]; simpl in *; [lia|].
    inversion E. subst c'.
    destruct (IH s2) as (mid & -> & ->); [assumption | lia|].
    exists mid. auto.
Qed.

(** X25: the column title of a candidate in the tables of
    [BenchRunner.to_gfm] and [quickstart] and the [arenasuffix] of its
    trials: when the [arenaprefix] of the trial is one of the prefixes of
    the runner, the title is a tail of the suffix, and it is the suffix
    itself when no longer prefix of the runner, followed by the base name,
    starts the candidate's name. *)
Theorem arenashort_of_arenasuffix (name : string)
        (arenaindices benchindices : dict (K:=string) (V:=dict (K:=string) (V:=nat)))
        (bench : string * string * string * string)
        (arena : string * string * string) (trial : Trial.t)
        (arenaprefixes : list string) (benchprefixes : prefix_arg) :
  make_trial name arenaindices benchindices bench arena = Ok trial ->
  In (Trial.arenaprefix trial) arenaprefixes ->
  let arenashort :=
    Datum.raw_arenashort
      (make_raw (PrefixList (map (fun prefix => prefix ++ name)%string arenaprefixes))
                benchprefixes trial) in
  (exists mid, Trial.arenasuffix trial = (mid ++ arenashort)%string) /\
  ((forall prefix, In prefix arenaprefixes ->
      String.prefix (prefix ++ name) (Trial.arenaname trial) = true ->
      (String.length prefix <= String.length (Trial.arenaprefix trial))%nat) ->
   arenashort = Trial.arenasuffix trial).
Proof.
  intros Ht Hin arenashort.
  assert (Hname : Trial.arenaname trial
                  = ((Trial.arenaprefix trial ++ name) ++ Trial.arenasuffix trial)%string).
  { destruct bench as [[[bf bn] bs] bb], arena as [[af an] asu].
    unfold make_trial, split1 in Ht.
    destruct (String.eqb name ""); simpl in Ht; [discriminate|].
    destruct (partition_at name an) as [[a b]|] eqn:Ep; simpl in Ht; [|discriminate].
    destruct (get_index arenaindices af an); simpl in Ht; [|discriminate].
    destruct (get_index benchindices bf bn); simpl in Ht; [|discriminate].
    inversion Ht. simpl. rewrite string_app_assoc.
    exact (partition_at_join _ _ _ _ Ep). }
  set (ps := map (fun prefix => prefix ++ name)%string arenaprefixes) in *.
  assert (Hshort : arenashort = _strip_prefix (Trial.arenaname trial) (PrefixList ps))
    by reflexivity.
  clearbody arenashort.
  destruct (strip_prefix_spec (Trial.arenaname trial) (PrefixList ps)) as [_ Hbest].
  destruct (Hbest (Trial.arenaprefix trial ++ name)%string) as (best & Hb & Hlen & Eb).
  { apply in_map_iff. exists (Trial.arenaprefix trial). auto. }
  { rewrite Hname at 1. apply prefix_app. }
  rewrite <- Hshort in Eb.
  assert (Esplit : ((Trial.arenaprefix trial ++ name) ++ Trial.arenasuffix trial
                    = best ++ arenashort)%string) by congruence.
  destruct (string_app_split _ _ _ _ Esplit Hlen) as (mid & Ebest & Esuf).
  split; [exists mid; exact Esuf|].
  intros Hlongest.
  apply in_map_iff in Hb as (p & Ep & Hp).
  assert (Hpre : String.prefix (p ++ name) (Trial.arenaname trial) = true).
  { rewrite Ep. rewrite Eb at 1. apply prefix_app. }
  specialize (Hlongest p Hp Hpre).
  assert (Hmid : mid = ""%string).
  { assert (L : String.length best
                = (String.length (Trial.arenaprefix trial ++ name)
                   + String.length mid)%nat)
      by (rewrite Ebest; apply string_length_app).
    rewrite <- Ep in L. rewrite !string_length_app in L.
    destruct mid; [reflexivity | simpl in L; lia]. }
  rewrite Esuf, Hmid. reflexivity.
Qed.

Lemma arenashort_of_arenasuffix_witness :
  Trial.arenasuffix demo_trial = "_mul"%string /\
  exists mid,
    Trial.arenasuffix demo_trial
    = (mid ++ Datum.raw_arenashort
                (make_raw (PrefixList (map (fun prefix => prefix ++ demo_name)%string
                                           default_arenaprefixes))
                          (PrefixList default_benchprefixes) demo_trial))%string.
Proof.
  split; [reflexivity|].
  destruct (arenashort_of_arenasuffix demo_name (make_indices demo_arenadict)
              (make_indices demo_benchdict)
              (demo_bench "bench_n2") (demo_arena "zeros_mul") demo_trial
              default_arenaprefixes (PrefixList default_benchprefixes))
    as [H _]; [vm_compute; reflexivity | left; reflexivity | exact H].
Defined.

(** ** From the finders to the run *)

Lemma fold_dict_set_keys {V} (g : string -> V) (l : list string) :
  forall (acc : dict (K:=string) (V:=V)) (k : string),
    In k (map fst (fold_left (fun d x => dict_set String.eqb x (g x) d) l acc)) <->
    In k l \/ In k (map fst acc).
Proof.
  induction l as [|x l IH]; intros acc k; simpl.
  - split; [auto | intros [[] | H]; exact H].
  - rewrite IH, (dict_set_keys String.eqb String.eqb_eq). split.
    + intros [H | [-> | H]]; auto.
    + intros [[<- | H] | H]; auto.
Qed.

Lemma startswith_any_prefix (key : string) (prefixes : list string) :
  startswith_any key prefixes = true ->
  exists prefix, In prefix prefixes /\ String.prefix prefix key = true.
Proof. unfold startswith_any. rewrite existsb_exists. auto. Qed.

(** A name that starts with a prefix and the base name holds the base
    name. *)
Lemma prefix_partition (prefix name key : string) :
  String.prefix (prefix ++ name) key = true ->
  exists a b, partition_at name key = Some (a, b).
Proof.
  intros H. apply prefix_drop in H. rewrite string_app_assoc in H.
  destruct (partition_at name key) as [[a b]|] eqn:E; [eauto|].
  exfalso. exact (partition_at_none _ _ E _ _ H).
Qed.

Section FoundCanRun.
Variable os_path_join : string -> string -> string -> string.
Variable getsourcedir : string.
Variable glob : string -> list string.
Variable os_path_split : string -> string * string.
Variable os_path_splitext : string -> string * string.
Variable readmodule_ex : string -> list string -> list (string * string).
Variable pyx_module_names : string -> string -> list string.
Variable arena_setup_text : string -> string -> string -> bool -> string.
Variable bench_body_text : string -> string -> string.
Variable getbenchsetup : string -> string.

Local Abbreviation scanfuncs' :=
  (scanfuncs os_path_split os_path_splitext readmodule_ex pyx_module_names).

(** Every name that [scanfuncs] returns starts with one of the
    prefixes. *)
Lemma scanfuncs_prefixed (filename : string) (prefixes : list string)
      (cython : bool) (key : string) :
  In key (scanfuncs' filename prefixes cython) ->
  exists prefix, In prefix prefixes /\ String.prefix prefix key = true.
Proof.
  unfold scanfuncs.
  destruct (os_path_split filename) as [path name].
  destruct (os_path_splitext name) as [name' ext].
  destruct (negb (cython || String.eqb ext ".pyx")).
  - intros H. apply in_map_iff in H as ([k f] & <- & H).
    apply filter_In in H as [_ H]. apply andb_true_iff in H as [H _].
    apply startswith_any_prefix. exact H.
  - intros H. apply filter_In in H as [_ H].
    apply startswith_any_prefix. exact H.
Qed.

(** The values of the dicts of the finders are what [scanfuncs]
    returned. *)
Lemma collected_item (scan : string -> list string) (filenames : list string)
      (f : string) (funcs : list string) :
  let d := fold_left (fun d filename =>
                        match scan filename with
                        | [] => d
                        | _ :: _ => dict_set String.eqb filename (scan filename) d
                        end) filenames [] in
  NoDup (map fst d) /\ (In (f, funcs) d -> funcs = scan f).
Proof.
  intros d. destruct (collect_funcs scan filenames [] f) as [H1 H2].
  fold d in H1, H2. split; [apply H1; constructor|].
  intros Hin.
  rewrite (dict_item_get String.eqb String.eqb_eq _ _ _ (H1 (NoDup_nil _)) Hin) in H2.
  cbn [dict_get] in H2.
  destruct (scan f); [discriminate|].
  destruct (existsb _ _); [inversion H2; reflexivity | discriminate].
Qed.

(** X26: the functions that [findarenas] and [findbenchmarks] find can be
    run: when the base name is not empty, [runbenchmarks] builds the trial
    dict of every pair of a benchmark and an arena function of the dicts
    found.  No arena name lacks the base name ([ValueError]) and no index
    is missing ([KeyError]): every name that [scanfuncs] returns for
    [findarenas] starts with a prefix and the base name. *)
Theorem found_functions_can_run (name : string) (cython : bool)
        (arenaprefixes benchprefixes : list string)
        (arenapaths benchpaths : option (list string)) :
  let arenadict := findarenas os_path_join getsourcedir glob scanfuncs'
                              name cython arenaprefixes arenapaths in
  let benchdict := findbenchmarks os_path_join getsourcedir glob scanfuncs'
                                  name benchprefixes benchpaths in
  let arenalist := getarenalist (getarenasetup arena_setup_text) name arenadict
                                cython in
  let benchlist := getbenchlist getbenchsetup (getbenchstrings bench_body_text)
                                benchdict in
  name <> ""%string ->
  exists trials0,
    all_trials name (make_indices arenadict) (make_indices benchdict)
               benchlist arenalist = Ok trials0 /\
    List.length trials0 = (List.length benchlist * List.length arenalist)%nat.
Proof.
  intros arenadict benchdict arenalist benchlist Hname.
  (* the two dicts *)
  destruct (collected_item
              (fun filename =>
                 scanfuncs' filename
                            (map (fun prefix => (prefix ++ name)%string) arenaprefixes)
                            cython)
              (glob_paths glob (if cython then ".pyx" else ".py")%string
                 match arenapaths with
                 | None => getpaths os_path_join getsourcedir name None None
                                    (Some arenaprefixes)
                 | Some paths => paths
                 end) ""%string []) as [Hnda _].
  fold arenadict in Hnda.
  assert (Harena : forall f funcs, In (f, funcs) arenadict ->
                     funcs = scanfuncs' f (map (fun prefix => (prefix ++ name)%string)
                                               arenaprefixes) cython).
  { intros f funcs. apply (collected_item
              (fun filename =>
                 scanfuncs' filename
                            (map (fun prefix => (prefix ++ name)%string) arenaprefixes)
                            cython)). }
  destruct (collected_item
              (fun filename => scanfuncs' filename benchprefixes false)
              (glob_paths glob ".py"%string
                 match benchpaths with
                 | None => getpaths os_path_join getsourcedir name None None
                                    (Some benchprefixes)
                 | Some paths => paths
                 end) ""%string []) as [Hndb _].
  fold benchdict in Hndb.
  (* the entries of the two lists *)
  assert (Hal : forall af an asu, In (af, an, asu) arenalist ->
                  exists funcs, In (af, funcs) arenadict /\ In an funcs).
  { intros af an asu Hin. unfold arenalist, getarenalist, nsorted_by in Hin.
    apply (Permutation_in _ (sorted_perm _ _ _)) in Hin.
    apply in_flat_map in Hin as ([f funcs] & Hd & Hin). simpl in Hin.
    apply in_map_iff in Hin as ([n x] & E & Hin). inversion E. subst.
    exists funcs. split; [exact Hd|].
    assert (Hk : In an (map fst (getarenasetup arena_setup_text name af funcs cython)))
      by (apply in_map_iff; exists (an, asu); auto).
    unfold getarenasetup in Hk.
    apply (fold_dict_set_keys
             (fun funcname => arena_setup_text name af funcname cython)) in Hk.
    destruct Hk as [Hk | []]. exact Hk. }
  assert (Hbl : forall bf bn bs bb, In (bf, bn, bs, bb) benchlist ->
                  exists funcs, In (bf, funcs) benchdict /\ In bn funcs).
  { intros bf bn bs bb Hin. unfold benchlist, getbenchlist, nsorted_by in Hin.
    apply (Permutation_in _ (sorted_perm _ _ _)) in Hin.
    apply in_flat_map in Hin as ([f funcs] & Hd & Hin). simpl in Hin.
    apply in_map_iff in Hin as ([n x] & E & Hin). inversion E. subst.
    exists funcs. split; [exact Hd|].
    assert (Hk : In bn (map fst (getbenchstrings bench_body_text bf funcs)))
      by (apply in_map_iff; exists (bn, bb); auto).
    unfold getbenchstrings in Hk.
    apply (fold_dict_set_keys (fun benchname => bench_body_text bf benchname)) in Hk.
    destruct Hk as [Hk | []]. exact Hk. }
  (* every trial dict *)
  destruct (rmap_ok_Forall
              (fun ba => make_trial name (make_indices arenadict)
                                    (make_indices benchdict) (fst ba) (snd ba))
              (fun _ => True) (list_prod benchlist arenalist))
    as (trials0 & E & _ & L).
  { intros [[[[bf bn] bs] bb] [[af an] asu]] Hin. apply in_prod_iff in Hin as [Hb Ha].
    destruct (Hal af an asu Ha) as (afuncs & Had & Han).
    destruct (Hbl bf bn bs bb Hb) as (bfuncs & Hbd & Hbn).
    destruct (proj2 (get_index_spec arenadict af Hnda) afuncs
                (dict_item_get String.eqb String.eqb_eq _ _ _ Hnda Had) an)
      as [_ Hai].
    destruct (Hai Han) as (ai & Eai & _).
    destruct (proj2 (get_index_spec benchdict bf Hndb) bfuncs
                (dict_item_get String.eqb String.eqb_eq _ _ _ Hndb Hbd) bn)
      as [_ Hbi].
    destruct (Hbi Hbn) as (bi & Ebi & _).
    assert (Hpart : exists a b, partition_at name an = Some (a, b)).
    { rewrite (Harena af afuncs Had) in Han.
      apply scanfuncs_prefixed in Han as (pn & Hpn & Hpre).
      apply in_map_iff in Hpn as (prefix & <- & _).
      exact (prefix_partition prefix name an Hpre). }
    destruct Hpart as (a & b & Ep).
    cbn [fst snd]. unfold make_trial, split1.
    rewrite (proj2 (String.eqb_neq name "") Hname), Ep. cbn [unpack2 rbind].
    rewrite Eai, Ebi. cbn [rbind]. eexists. split; [reflexivity | exact I]. }
  exists trials0. split; [exact E|].
  rewrite L. apply length_prod.
Qed.
End FoundCanRun.

Lemma found_functions_can_run_witness :
  demo_found_arenas = [("arena_zeros.py", ["zeros_slow"; "zeros_mul"])] /\
  demo_found_benchmarks = [("bench_zeros.py", ["bench_n2"; "bench_n10"])] /\
  exists trials0,
    all_trials demo_name (make_indices demo_found_arenas)
               (make_indices demo_found_benchmarks)
               (getbenchlist (fun _ => "setup;"%string)
                             (getbenchstrings (fun _ benchname => benchname))
                             demo_found_benchmarks)
               (getarenalist (getarenasetup (fun _ _ funcname _ => funcname))
                             demo_name demo_found_arenas false)
    = Ok trials0 /\
    List.length trials0 = 4%nat.
Proof.
  split; [reflexivity|]. split; [reflexivity|].
  destruct (found_functions_can_run (fun a b c => c) ""%string demo_glob
              demo_split demo_splitext demo_readmodule (fun _ _ => [])
              (fun _ _ funcname _ => funcname) (fun _ benchname => benchname)
              (fun _ => "setup;"%string)
              demo_name false default_arenaprefixes default_benchprefixes
              (Some ["arena_zeros"%string]) (Some ["bench_zeros"%string]))
    as (trials0 & E & L); [discriminate|].
  exists trials0. split; [exact E|]. rewrite L. reflexivity.
Defined.
